(** * api_tester: load-testing harness for LLM endpoints

  Shallow embedding of the request pipeline ([src/api]), the stage
  runner and analyzer ([src/engine/load_test.py]), the session store
  and analyzer ([src/stats/analyzer.py]), the host prober and the
  latency observer ([src/monitor/network.py]) and the report manager
  ([src/report/generator.py]), together with the properties stated
  about them.

  Conventions of the embedding:
  - Python [float] values are modelled by exact rationals ([Q]); Python
    [int] values by [Z] or, where the code only counts, by [nat].
    Statements over [Q] that compare latencies or count outcomes hold
    of the doubles of the program as they stand; what depends on the
    rounding of a product, a sum or a quotient is stated on IEEE
    doubles, in module [Binary64].
  - A Python call that can raise returns a [result]; the exception is a
    value of [exn].
  - Wall-clock reads ([time.time()]) are taken from an explicit clock.
  - Tables of the SQLite store are lists of rows in insertion order.
  - The remote side, [json.loads] and the [tenacity] decorator are not
    code of the repository; they are modelled from their documented
    behaviour.  Messages that the source writes in Chinese are given in
    English. *)

From Stdlib Require Import Ascii String ZArith QArith Qround Qminmax Lia Lqa.
From Stdlib Require Import Sorting Permutation Qabs.
From Stdlib Require PrimFloat Uint63 FloatOps SpecFloat.
From stdpp Require Import base list strings gmap.

Set Warnings "-register-all".

Local Open Scope string_scope.

(** ** Python runtime: exceptions and fallible computations *)

Module Py.

Inductive exn : Type :=
| ValueError (msg : string)
| TypeError (msg : string)
| AttributeError (msg : string)
| IndexError (msg : string)
| ZeroDivisionError (msg : string)
| StatisticsError (msg : string)
| KeyError (key : string)
| JSONDecodeError
| ClientError (msg : string)     (* aiohttp / asyncio transport failures *)
| RetryError (last : string).    (* tenacity: attempts exhausted *)

Inductive result (A : Type) : Type :=
| Ok (a : A)
| Raise (e : exn).
Arguments Ok {A} a.
Arguments Raise {A} e.

Definition bind {A B} (m : result A) (k : A -> result B) : result B :=
  match m with
  | Ok a => k a
  | Raise e => Raise e
  end.

(** [str(e)] for the exceptions of the model. *)
Definition str_exn (e : exn) : string :=
  match e with
  | ValueError m | TypeError m | AttributeError m | IndexError m
  | ZeroDivisionError m | StatisticsError m | ClientError m => m
  | KeyError k => "'" ++ k ++ "'"
  | JSONDecodeError => "Expecting value"
  | RetryError l => "RetryError[" ++ l ++ "]"
  end.

End Py.
Import Py.

Notation "'try!' x := m 'in' k" := (Py.bind m (fun x => k))
(at level 10, x name, m at level 100, k at level 200).

(** ** [src/api/config.py]: the prompt source *)

Module Config.

(** [PromptManager]: the loaded prompts and the rotating cursor. *)
Record PromptManager : Type := mkPromptManager {
  prompts : list string;
  current_index : nat
}.

(** [PromptManager.__init__]; [loaded] is the list of [question] fields
    that [_load_prompts] collected from the prompt file.  An empty list
    is rejected by [_load_prompts]. *)
Definition PromptManager_init (loaded : list string) : result PromptManager :=
  match loaded with
  | [] => Raise (ValueError "no valid question found in the prompt file")
  | _ => Ok {| prompts := loaded; current_index := 0 |}
  end.

(** [PromptManager.get_next_prompt]. *)
Definition get_next_prompt (pm : PromptManager) : result (string * PromptManager) :=
  match prompts pm !! current_index pm with
  | None => Raise (IndexError "list index out of range")
  | Some prompt =>
      Ok (prompt,
          {| prompts := prompts pm;
             current_index := (current_index pm + 1) mod length (prompts pm) |})
  end.

Definition get_prompt_count (pm : PromptManager) : nat := length (prompts pm).

Definition reset_index (pm : PromptManager) : PromptManager :=
  {| prompts := prompts pm; current_index := 0 |}.

(** [k] successive calls of [get_next_prompt], collecting the prompts
    returned, oldest first. *)
Fixpoint next_prompts (k : nat) (pm : PromptManager)
  : result (list string * PromptManager) :=
  match k with
  | O => Ok ([], pm)
  | S k' =>
      try! r := get_next_prompt pm in
      try! rest := next_prompts k' (snd r) in
      Ok (fst r :: fst rest, snd rest)
  end.

End Config.

(** ** [json.loads] and the Python operations applied to its result *)

Module Json.

(** A decoded JSON document, as the Python value [json.loads] builds.
    An object keeps its members in source order; a key given twice is
    read at its last occurrence, as in the [dict] Python builds. *)
Inductive value : Type :=
| JNull
| JBool (b : bool)
| JInt (n : Z)
| JFloat (q : Q)
| JNonFinite (lexeme : string)        (* NaN, Infinity, -Infinity *)
| JStr (s : string)
| JArr (items : list value)
| JObj (members : list (string * value)).

Definition code (c : ascii) : nat := nat_of_ascii c.

Definition is_ws (c : ascii) : bool :=
  let n := code c in
  (n =? 32)%nat || (n =? 9)%nat || (n =? 10)%nat || (n =? 13)%nat.

Fixpoint skip_ws (s : string) : string :=
  match s with
  | String c r => if is_ws c then skip_ws r else s
  | EmptyString => s
  end.

Fixpoint strip_prefix (pre s : string) : option string :=
  match pre, s with
  | EmptyString, _ => Some s
  | String a pre', String b s' =>
      if Ascii.eqb a b then strip_prefix pre' s' else None
  | String _ _, EmptyString => None
  end.

Definition digit_of (c : ascii) : option Z :=
  let n := code c in
  if (48 <=? n)%nat && (n <=? 57)%nat then Some (Z.of_nat (n - 48)) else None.

Definition hex_of (c : ascii) : option nat :=
  let n := code c in
  if (48 <=? n)%nat && (n <=? 57)%nat then Some (n - 48)%nat
  else if (65 <=? n)%nat && (n <=? 70)%nat then Some (n - 55)%nat
  else if (97 <=? n)%nat && (n <=? 102)%nat then Some (n - 87)%nat
  else None.

(** The longest run of decimal digits at the head of [s]: its value
    (continuing [acc]), the number of digits read, and the rest. *)
Fixpoint digits (s : string) (acc : Z) (n : nat) : Z * nat * string :=
  match s with
  | String c r =>
      match digit_of c with
      | Some d => digits r (10 * acc + d)%Z (S n)
      | None => (acc, n, s)
      end
  | EmptyString => (acc, n, s)
  end.

(** Integer part of a number: a single 0, or a non-zero digit followed
    by any digits. *)
Definition parse_int_part (s : string) : option (Z * string) :=
  match s with
  | String c r =>
      match digit_of c with
      | Some d =>
          if (d =? 0)%Z then Some (0%Z, r)
          else let '(v, _, rest) := digits r d 1 in Some (v, rest)
      | None => None
      end
  | EmptyString => None
  end.

(** Optional fraction: a dot followed by at least one digit. *)
Definition parse_frac (s : string) : option (Z * nat * string) :=
  match s with
  | String c r =>
      if Ascii.eqb c "."%char then
        let '(v, n, rest) := digits r 0%Z 0 in
        if (n =? 0)%nat then None else Some (v, n, rest)
      else None
  | EmptyString => None
  end.

(** Optional exponent: e or E, an optional sign, at least one digit. *)
Definition parse_exp (s : string) : option (Z * string) :=
  match s with
  | String c r =>
      if Ascii.eqb c "e"%char || Ascii.eqb c "E"%char then
        let '(sign, r') :=
          match r with
          | String c2 r2 =>
              if Ascii.eqb c2 "-"%char then ((-1)%Z, r2)
              else if Ascii.eqb c2 "+"%char then (1%Z, r2)
              else (1%Z, r)
          | EmptyString => (1%Z, r)
          end in
        let '(v, n, rest) := digits r' 0%Z 0 in
        if (n =? 0)%nat then None else Some ((sign * v)%Z, rest)
      else None
  | EmptyString => None
  end.

(** The rational denoted by a decimal literal with integer part [ip],
    [fn] fraction digits of value [fv], and exponent [e]. *)
Definition decimal (neg : bool) (ip fv : Z) (fn : nat) (e : Z) : Q :=
  let m := (ip * 10 ^ Z.of_nat fn + fv)%Z in
  let m := if neg then (- m)%Z else m in
  let e' := (e - Z.of_nat fn)%Z in
  if (0 <=? e')%Z then inject_Z (m * 10 ^ e')
  else Qmake m (Z.to_pos (10 ^ (- e'))).

Definition parse_number (s : string) : option (value * string) :=
  let '(neg, s1) :=
    match s with
    | String c r => if Ascii.eqb c "-"%char then (true, r) else (false, s)
    | EmptyString => (false, s)
    end in
  match parse_int_part s1 with
  | None => None
  | Some (ip, s2) =>
      let '(fr, s3) :=
        match parse_frac s2 with
        | Some (fv, fn, r) => (Some (fv, fn), r)
        | None => (None, s2)
        end in
      let '(ex, s4) :=
        match parse_exp s3 with
        | Some (e, r) => (Some e, r)
        | None => (None, s3)
        end in
      match fr, ex with
      | None, None => Some (JInt (if neg then (- ip)%Z else ip), s4)
      | _, _ =>
          let '(fv, fn) := default (0%Z, 0%nat) fr in
          Some (JFloat (decimal neg ip fv fn (default 0%Z ex)), s4)
      end
  end.

(** UTF-8 bytes of a code point of the basic plane (a u-escape of four hex digits). *)
Definition utf8 (cp : nat) : string :=
  if (cp <? 128)%nat then String (ascii_of_nat cp) EmptyString
  else if (cp <? 2048)%nat then
    String (ascii_of_nat (192 + cp / 64))
      (String (ascii_of_nat (128 + cp mod 64)) EmptyString)
  else
    String (ascii_of_nat (224 + cp / 4096))
      (String (ascii_of_nat (128 + (cp / 64) mod 64))
         (String (ascii_of_nat (128 + cp mod 64)) EmptyString)).

Definition parse_hex4 (s : string) : option (nat * string) :=
  match s with
  | String a (String b (String c (String d r))) =>
      match hex_of a, hex_of b, hex_of c, hex_of d with
      | Some x, Some y, Some z, Some w =>
          Some ((((x * 16 + y) * 16 + z) * 16 + w)%nat, r)
      | _, _, _, _ => None
      end
  | _ => None
  end.

(** The characters of a string literal after its opening quote, up to
    and including the closing quote (strict mode: no raw control
    characters). *)
Fixpoint parse_string_body (fuel : nat) (s : string) : option (string * string) :=
  match fuel with
  | O => None
  | S fuel' =>
      match s with
      | EmptyString => None
      | String c r =>
          let n := code c in
          if (n =? 34)%nat then Some (EmptyString, r)
          else if (n <? 32)%nat then None
          else if (n =? 92)%nat then
            match r with
            | EmptyString => None
            | String e r' =>
                let m := code e in
                let plain (ch : nat) :=
                  match parse_string_body fuel' r' with
                  | Some (t, rest) => Some (String (ascii_of_nat ch) t, rest)
                  | None => None
                  end in
                if (m =? 34)%nat then plain 34%nat
                else if (m =? 92)%nat then plain 92%nat
                else if (m =? 47)%nat then plain 47%nat
                else if (m =? 98)%nat then plain 8%nat
                else if (m =? 102)%nat then plain 12%nat
                else if (m =? 110)%nat then plain 10%nat
                else if (m =? 114)%nat then plain 13%nat
                else if (m =? 116)%nat then plain 9%nat
                else if (m =? 117)%nat then
                  match parse_hex4 r' with
                  | Some (cp, r'') =>
                      match parse_string_body fuel' r'' with
                      | Some (t, rest) => Some (utf8 cp ++ t, rest)
                      | None => None
                      end
                  | None => None
                  end
                else None
            end
          else
            match parse_string_body fuel' r with
            | Some (t, rest) => Some (String c t, rest)
            | None => None
            end
      end
  end.

(** Recursive descent over values, array items and object members.
    Every call consumes fuel; two consecutive calls read at least one
    character, so twice the length of the text is enough. *)
Fixpoint parse_value (fuel : nat) (s : string) : option (value * string) :=
  match fuel with
  | O => None
  | S fuel' =>
      match s with
      | EmptyString => None
      | String c r =>
          let n := code c in
          if (n =? 34)%nat then
            match parse_string_body (S (String.length r)) r with
            | Some (t, rest) => Some (JStr t, rest)
            | None => None
            end
          else if (n =? 123)%nat then
            match strip_prefix "}" (skip_ws r) with
            | Some rest => Some (JObj [], rest)
            | None =>
                match parse_members fuel' (skip_ws r) with
                | Some (kvs, rest) => Some (JObj kvs, rest)
                | None => None
                end
            end
          else if (n =? 91)%nat then
            match strip_prefix "]" (skip_ws r) with
            | Some rest => Some (JArr [], rest)
            | None =>
                match parse_items fuel' (skip_ws r) with
                | Some (vs, rest) => Some (JArr vs, rest)
                | None => None
                end
            end
          else if (n =? 110)%nat then
            option_map (fun rest => (JNull, rest)) (strip_prefix "null" s)
          else if (n =? 116)%nat then
            option_map (fun rest => (JBool true, rest)) (strip_prefix "true" s)
          else if (n =? 102)%nat then
            option_map (fun rest => (JBool false, rest)) (strip_prefix "false" s)
          else
            match parse_number s with
            | Some res => Some res
            | None =>
                if (n =? 78)%nat then
                  option_map (fun rest => (JNonFinite "NaN", rest))
                             (strip_prefix "NaN" s)
                else if (n =? 73)%nat then
                  option_map (fun rest => (JNonFinite "Infinity", rest))
                             (strip_prefix "Infinity" s)
                else if (n =? 45)%nat then
                  option_map (fun rest => (JNonFinite "-Infinity", rest))
                             (strip_prefix "-Infinity" s)
                else None
            end
      end
  end
with parse_items (fuel : nat) (s : string) : option (list value * string) :=
  match fuel with
  | O => None
  | S fuel' =>
      match parse_value fuel' s with
      | None => None
      | Some (v, s1) =>
          match skip_ws s1 with
          | EmptyString => None
          | String c r =>
              if (code c =? 93)%nat then Some ([v], r)
              else if (code c =? 44)%nat then
                match parse_items fuel' (skip_ws r) with
                | Some (vs, rest) => Some (v :: vs, rest)
                | None => None
                end
              else None
          end
      end
  end
with parse_members (fuel : nat) (s : string)
  : option (list (string * value) * string) :=
  match fuel with
  | O => None
  | S fuel' =>
      match s with
      | EmptyString => None
      | String q r =>
          if (code q =? 34)%nat then
            match parse_string_body (S (String.length r)) r with
            | None => None
            | Some (k, s1) =>
                match skip_ws s1 with
                | EmptyString => None
                | String c1 r1 =>
                    if (code c1 =? 58)%nat then
                      match parse_value fuel' (skip_ws r1) with
                      | None => None
                      | Some (v, s2) =>
                          match skip_ws s2 with
                          | EmptyString => None
                          | String c2 r2 =>
                              if (code c2 =? 125)%nat then Some ([(k, v)], r2)
                              else if (code c2 =? 44)%nat then
                                match parse_members fuel' (skip_ws r2) with
                                | Some (kvs, rest) => Some ((k, v) :: kvs, rest)
                                | None => None
                                end
                              else None
                          end
                      end
                    else None
                end
            end
          else None
      end
  end.

(** [json.loads(s)]: one value, surrounded by optional white space. *)
Definition json_loads (s : string) : result value :=
  match parse_value (2 * String.length s + 2) (skip_ws s) with
  | Some (v, rest) =>
      match skip_ws rest with
      | EmptyString => Ok v
      | String _ _ => Raise JSONDecodeError
      end
  | None => Raise JSONDecodeError
  end.

(** *** Python operators on decoded values *)

Definition type_name (v : value) : string :=
  match v with
  | JNull => "NoneType"
  | JBool _ => "bool"
  | JInt _ => "int"
  | JFloat _ | JNonFinite _ => "float"
  | JStr _ => "str"
  | JArr _ => "list"
  | JObj _ => "dict"
  end.

(** The value bound to [k] in a [dict]: the last member with that key. *)
Fixpoint dict_get (k : string) (kvs : list (string * value)) : option value :=
  match kvs with
  | [] => None
  | (k', v) :: rest =>
      match dict_get k rest with
      | Some v' => Some v'
      | None => if String.eqb k k' then Some v else None
      end
  end.

Fixpoint is_substring (pat s : string) : bool :=
  match strip_prefix pat s with
  | Some _ => true
  | None =>
      match s with
      | String _ r => is_substring pat r
      | EmptyString => false
      end
  end.

(** [k in v] for a [str] key [k]. *)
Definition py_contains (k : string) (v : value) : result bool :=
  match v with
  | JObj kvs => Ok (bool_decide (is_Some (dict_get k kvs)))
  | JArr items =>
      Ok (existsb (fun x => match x with JStr s => String.eqb k s | _ => false end)
                  items)
  | JStr s => Ok (is_substring k s)
  | _ => Raise (TypeError ("argument of type '" ++ type_name v ++ "' is not iterable"))
  end.

(** [v[k]] for a [str] key [k]. *)
Definition py_getitem (v : value) (k : string) : result value :=
  match v with
  | JObj kvs =>
      match dict_get k kvs with
      | Some x => Ok x
      | None => Raise (KeyError k)
      end
  | JArr _ => Raise (TypeError "list indices must be integers or slices, not str")
  | JStr _ => Raise (TypeError "string indices must be integers, not 'str'")
  | _ => Raise (TypeError ("'" ++ type_name v ++ "' object is not subscriptable"))
  end.

(** [v.get(k, dflt)]. *)
Definition py_get (v : value) (k : string) (dflt : value) : result value :=
  match v with
  | JObj kvs => Ok (default dflt (dict_get k kvs))
  | _ => Raise (AttributeError
                  ("'" ++ type_name v ++ "' object has no attribute 'get'"))
  end.

(** A number as Python arithmetic sees it ([bool] is an [int]). *)
Inductive number : Type :=
| NInt (n : Z)
| NFloat (q : Q)
| NInf (positive : bool)
| NNaN.

Definition as_number (v : value) : option number :=
  match v with
  | JBool b => Some (NInt (if b then 1 else 0))
  | JInt n => Some (NInt n)
  | JFloat q => Some (NFloat q)
  | JNonFinite l =>
      if String.eqb l "Infinity" then Some (NInf true)
      else if String.eqb l "-Infinity" then Some (NInf false)
      else Some NNaN
  | _ => None
  end.

Definition of_number (n : number) : value :=
  match n with
  | NInt z => JInt z
  | NFloat q => JFloat q
  | NInf true => JNonFinite "Infinity"
  | NInf false => JNonFinite "-Infinity"
  | NNaN => JNonFinite "NaN"
  end.

Definition add_number (a b : number) : number :=
  match a, b with
  | NInt x, NInt y => NInt (x + y)%Z
  | NInt x, NFloat y => NFloat (inject_Z x + y)%Q
  | NFloat x, NInt y => NFloat (x + inject_Z y)%Q
  | NFloat x, NFloat y => NFloat (x + y)%Q
  | NNaN, _ | _, NNaN => NNaN
  | NInf s, NInf t => if Bool.eqb s t then NInf s else NNaN
  | NInf s, _ | _, NInf s => NInf s
  end.

(** [a + b]. *)
Definition py_add (a b : value) : result value :=
  match as_number a, as_number b with
  | Some x, Some y => Ok (of_number (add_number x y))
  | _, _ =>
      match a, b with
      | JStr s, JStr t => Ok (JStr (s ++ t))
      | JArr s, JArr t => Ok (JArr (s ++ t))
      | _, _ => Raise (TypeError
                         ("unsupported operand type(s) for +: '" ++ type_name a
                          ++ "' and '" ++ type_name b ++ "'"))
      end
  end.

End Json.

(** ** The runtime a request executes in *)

Module Runtime.

(** What one [session.post(...)] followed by [response.text()] does. *)
Inductive exchange : Type :=
| Responded (status : Z) (text : string)
| Failed (e : exn).

Inductive event : Type :=
| Post (n : nat)            (* the n-th POST issued on the session *)
| Sleep (seconds : Q).      (* [asyncio.sleep] *)

(** The prompt source shared by all requests, the wall clock, the
    remote side (the outcome and the duration of the n-th POST), and
    the record of what has been done so far. *)
Record World : Type := mkWorld {
  prompt_manager : Config.PromptManager;
  now : Q;
  network : nat -> exchange * Q;
  posts : nat;
  trace : list event
}.

(** Computations that read and change the world and may raise. *)
Definition M (A : Type) : Type := World -> World * result A.

Definition ret {A} (a : A) : M A := fun w => (w, Ok a).
Definition raise {A} (e : exn) : M A := fun w => (w, Raise e).

Definition bindM {A B} (m : M A) (k : A -> M B) : M B :=
  fun w =>
    match m w with
    | (w', Ok a) => k a w'
    | (w', Raise e) => (w', Raise e)
    end.

(** [try: m except Exception as e: h e] *)
Definition try_except {A} (m : M A) (h : exn -> M A) : M A :=
  fun w =>
    match m w with
    | (w', Ok a) => (w', Ok a)
    | (w', Raise e) => h e w'
    end.

Definition lift {A} (r : result A) : M A := fun w => (w, r).

(** [time.time()] *)
Definition time_time : M Q := fun w => (w, Ok (now w)).

(** [await asyncio.sleep(d)] *)
Definition sleep (d : Q) : M unit :=
  fun w =>
    ({| prompt_manager := prompt_manager w;
        now := (now w + d)%Q;
        network := network w;
        posts := posts w;
        trace := trace w ++ [Sleep d] |}, Ok tt).

(** One POST and the read of its body. *)
Definition post : M (Z * string) :=
  fun w =>
    let '(x, d) := network w (posts w) in
    let w' := {| prompt_manager := prompt_manager w;
                 now := (now w + d)%Q;
                 network := network w;
                 posts := S (posts w);
                 trace := trace w ++ [Post (posts w)] |} in
    match x with
    | Responded status text => (w', Ok (status, text))
    | Failed e => (w', Raise e)
    end.

(** [self.prompt_manager.get_next_prompt()] *)
Definition next_prompt : M string :=
  fun w =>
    match Config.get_next_prompt (prompt_manager w) with
    | Ok (p, pm') =>
        ({| prompt_manager := pm';
            now := now w;
            network := network w;
            posts := posts w;
            trace := trace w |}, Ok p)
    | Raise e => (w, Raise e)
    end.

End Runtime.
Import Runtime.

Notation "'do!' x := m 'in' k" := (Runtime.bindM m (fun x => k))
(at level 10, x name, m at level 100, k at level 200).

(** ** The [tenacity] retry decorator, as used on [make_request] *)

Module Tenacity.

(** [wait_exponential(multiplier, min, max)]: the pause after attempt
    number [attempt_number] (counted from 1), doubling from [multiplier]
    and clamped to the interval from [min] to [max]. *)
Definition wait_exponential (multiplier min max : Q) (attempt_number : nat) : Q :=
  let exp := inject_Z (2 ^ Z.of_nat (attempt_number - 1)) in
  Qmax (Qmax 0 min) (Qmin (multiplier * exp)%Q max).

(** The retry loop: run [f]; a returned value ends the loop; a raised
    exception ends it with [RetryError] once the attempt limit is
    reached, and otherwise is followed by a pause and the next attempt. *)
Fixpoint retrying {A} (remaining : nat) (attempt_number : nat)
         (wait : nat -> Q) (f : M A) : M A :=
  try_except f (fun e =>
    match remaining with
    | O => raise (RetryError (str_exn e))
    | S remaining' =>
        do! _u := sleep (wait attempt_number) in
        retrying remaining' (S attempt_number) wait f
    end).

(** [@retry(stop=stop_after_attempt(n), wait=wait)] *)
Definition retry {A} (stop_after_attempt : nat) (wait : nat -> Q) (f : M A) : M A :=
  retrying (stop_after_attempt - 1) 1 wait f.

End Tenacity.

(** ** [src/api/client.py] *)

Module Client.
Import Json.

Record RequestResult : Type := mkRequestResult {
  timestamp : Q;
  prompt : string;
  response_time : Q;
  status_code : Z;
  success : bool;
  response_content : string;
  error_message : option string;
  input_tokens : Z;
  output_tokens : Z;
  total_tokens : Z;
  content_length : Z
}.

(** The body of [APIClient.make_request]: one attempt. *)
Definition make_request_attempt : M (Z * string * Q) :=
  do! start_time := time_time in
  try_except
    (do! resp := post in
     do! t := time_time in
     ret (fst resp, snd resp, (t - start_time)%Q))
    (fun e => raise e).

(** [APIClient.make_request], with its decorator. *)
Definition make_request : M (Z * string * Q) :=
  Tenacity.retry 3 (Tenacity.wait_exponential 1 1 10) make_request_attempt.

(** The [try] block of [_extract_token_info]. *)
Definition token_info_body (response_content : string)
  : result (value * value * value) :=
  try! response_data := json_loads response_content in
  try! has_usage := py_contains "usage" response_data in
  if has_usage : bool then
    try! usage := py_getitem response_data "usage" in
    try! openai := py_contains "prompt_tokens" usage in
    if openai : bool then
      try! i := py_get usage "prompt_tokens" (JInt 0) in
      try! o := py_get usage "completion_tokens" (JInt 0) in
      try! t := py_get usage "total_tokens" (JInt 0) in
      Ok (i, o, t)
    else
      try! claude := py_contains "input_tokens" usage in
      if claude : bool then
        try! i := py_get usage "input_tokens" (JInt 0) in
        try! o := py_get usage "output_tokens" (JInt 0) in
        try! t := py_add i o in
        Ok (i, o, t)
      else Ok (JInt 0, JInt 0, JInt 0)
  else Ok (JInt 0, JInt 0, JInt 0).

(** [APIRequestManager._extract_token_info].  The handler
    [except (json.JSONDecodeError, KeyError): pass] is entered only from
    points where the three counts still hold their initial 0. *)
Definition _extract_token_info (response_content : string)
  : result (value * value * value) :=
  match token_info_body response_content with
  | Raise JSONDecodeError | Raise (KeyError _) => Ok (JInt 0, JInt 0, JInt 0)
  | r => r
  end.

(** The endpoint profile, as far as a request uses it: the three
    renderings, each of which fails on an unresolved placeholder. *)
Record APIEndpoint : Type := mkAPIEndpoint {
  format_url : string -> result string;
  format_headers : result (list (string * string));
  format_request_body : string -> result value
}.

(** The dataclass declares the counts as [int].  A JSON integer (or
    boolean) is that integer; Python would store any other value
    unchanged, which the typed record cannot hold: it reads as 0. *)
Definition as_int (v : value) : Z :=
  match v with
  | JInt n => n
  | JBool b => if b then 1%Z else 0%Z
  | _ => 0%Z
  end.

(** [APIRequestManager.send_single_request]. *)
Definition send_single_request (api_config : APIEndpoint) (endpoint : string)
  : M RequestResult :=
  do! prompt := next_prompt in
  do! timestamp := time_time in
  try_except
    (do! _url := lift (format_url api_config endpoint) in
     do! _headers := lift (format_headers api_config) in
     do! _body := lift (format_request_body api_config prompt) in
     do! r := make_request in
     let '(status_code, response_content, response_time) := r in
     do! tok := lift (_extract_token_info response_content) in
     let '(input_tokens, output_tokens, total_tokens) := tok in
     ret {| timestamp := timestamp;
            prompt := prompt;
            response_time := response_time;
            status_code := status_code;
            success := (200 <=? status_code)%Z && (status_code <? 300)%Z;
            response_content := response_content;
            error_message := None;
            input_tokens := as_int input_tokens;
            output_tokens := as_int output_tokens;
            total_tokens := as_int total_tokens;
            content_length := Z.of_nat (String.length response_content) |})
    (fun e =>
       do! t := time_time in
       ret {| timestamp := timestamp;
              prompt := prompt;
              response_time := (t - timestamp)%Q;
              status_code := 0;
              success := false;
              response_content := "";
              error_message := Some (str_exn e);
              input_tokens := 0;
              output_tokens := 0;
              total_tokens := 0;
              content_length := 0 |}).

End Client.

(** ** Python built-ins on numbers and lists *)

Module Builtins.

Definition Qltb (a b : Q) : bool := negb (Qle_bool b a).

(** [sum(l)] *)
Definition sumQ (l : list Q) : Q := fold_left Qplus l 0%Q.
Definition sumZ (l : list Z) : Z := fold_left Z.add l 0%Z.

(** [min(l)] and [max(l)]: the first least (greatest) element. *)
Definition py_min (l : list Q) : result Q :=
  match l with
  | [] => Raise (ValueError "min() arg is an empty sequence")
  | x :: rest => Ok (fold_left (fun m y => if Qltb y m then y else m) rest x)
  end.

Definition py_max (l : list Q) : result Q :=
  match l with
  | [] => Raise (ValueError "max() arg is an empty sequence")
  | x :: rest => Ok (fold_left (fun m y => if Qltb m y then y else m) rest x)
  end.

Definition maxZ (l : list Z) : result Z :=
  match l with
  | [] => Raise (ValueError "max() arg is an empty sequence")
  | x :: rest => Ok (fold_left (fun m y => if (m <? y)%Z then y else m) rest x)
  end.

(** A stable sort by insertion, ascending for the order [le]. *)
Fixpoint insert_by {A} (le : A -> A -> bool) (x : A) (l : list A) : list A :=
  match l with
  | [] => [x]
  | y :: l' => if le x y then x :: l else y :: insert_by le x l'
  end.

Definition sort_by {A} (le : A -> A -> bool) (l : list A) : list A :=
  foldr (insert_by le) [] l.

(** [l.sort()] on a list of floats. *)
Definition py_sorted (l : list Q) : list Q := sort_by Qle_bool l.

(** [int(k)] for a float: truncation toward zero. *)
Definition py_int (k : Q) : Z := Z.quot (Qnum k) (Zpos (Qden k)).

(** [l[i]], with Python's negative indices. *)
Definition py_index (l : list Q) (i : Z) : result Q :=
  let n := Z.of_nat (length l) in
  let j := if (i <? 0)%Z then (i + n)%Z else i in
  if (0 <=? j)%Z && (j <? n)%Z then
    match l !! Z.to_nat j with
    | Some x => Ok x
    | None => Raise (IndexError "list index out of range")
    end
  else Raise (IndexError "list index out of range").

(** [range(0, stop, step)] for a non-negative step. *)
Definition py_range (stop step : nat) : result (list nat) :=
  if (step =? 0)%nat then Raise (ValueError "range() arg 3 must not be zero")
  else Ok (map (fun j => (j * step)%nat) (seq 0 ((stop + step - 1) / step))).

(** [statistics.mean(l)] *)
Definition statistics_mean (l : list Q) : result Q :=
  match l with
  | [] => Raise (StatisticsError "mean requires at least one data point")
  | _ => Ok (sumQ l / inject_Z (Z.of_nat (length l)))%Q
  end.

End Builtins.
Import Builtins.

(** ** [src/engine/load_test.py] *)

Module Engine.
Import Client.

Record LoadTestResult : Type := mkLoadTestResult {
  concurrent_level : Z;
  total_requests : Z;
  successful_requests : Z;
  failed_requests : Z;
  avg_response_time : Q;
  min_response_time : Q;
  max_response_time : Q;
  p50_response_time : Q;
  p95_response_time : Q;
  p99_response_time : Q;
  requests_per_second : Q;
  total_test_time : Q;
  error_rate : Q;
  timeout_count : Z;
  total_tokens : Z;
  avg_tokens_per_request : Q;
  tokens_per_second : Q;
  results : list RequestResult
}.

(** What [asyncio.gather(..., return_exceptions=True)] hands back for
    one task. *)
Inductive gathered : Type :=
| Returned (r : RequestResult)
| Raised (e : exn).

(** The record the collection loop builds for a task that raised. *)
Definition failed_result (now : Q) (e : exn) : RequestResult :=
  {| timestamp := now;
     prompt := "";
     response_time := 0;
     status_code := 0;
     success := false;
     response_content := "";
     error_message := Some (str_exn e);
     input_tokens := 0;
     output_tokens := 0;
     Client.total_tokens := 0;
     content_length := 0 |}.

(** The body of the collection loop for one gathered result; [now_at n]
    is the reading of [time.time()] when [n] results are already
    collected. *)
Definition collect (now_at : nat -> Q) (results : list RequestResult)
           (result : gathered) : list RequestResult :=
  match result with
  | Raised e => results ++ [failed_result (now_at (length results)) e]
  | Returned r => results ++ [r]
  end.

(** [LoadTestEngine.run_concurrent_requests].  [outcome i] is what the
    i-th task created yields when it is gathered; the progress display
    and the progress callback are left out. *)
Definition run_concurrent_requests (outcome : nat -> gathered) (now_at : nat -> Q)
           (concurrent_level total_requests : Z) : result (list RequestResult) :=
  if (concurrent_level <? 0)%Z then
    Raise (ValueError "Semaphore initial value must be >= 0")
  else
    let tasks := seq 0 (Z.to_nat total_requests) in
    let batch_size := Z.to_nat (Z.min (concurrent_level * 2) 100) in
    try! starts := py_range (length tasks) batch_size in
    Ok (fold_left
          (fun results i =>
             let batch_tasks := take batch_size (drop i tasks) in
             let batch_results := map outcome batch_tasks in
             fold_left (collect now_at) batch_results results)
          starts []).

(** What the collection loop appends for the i-th task. *)
Definition emitted (outcome : nat -> gathered) (now_at : nat -> Q) (i : nat)
  : RequestResult :=
  match outcome i with
  | Returned r => r
  | Raised e => failed_result (now_at i) e
  end.

(** One round of the batch loop of [run_concurrent_requests]: gather the
    slice that starts at [i] and collect its results. *)
Definition batch_step (outcome : nat -> gathered) (now_at : nat -> Q)
           (total batch_size : nat) (results : list RequestResult) (i : nat)
  : list RequestResult :=
  fold_left (collect now_at)
            (map outcome (take batch_size (drop i (seq 0 total)))) results.

(** The local function [percentile] of [analyze_results]. *)
Definition percentile (data : list Q) (p : Q) : result Q :=
  let len := Z.of_nat (length data) in
  let k := (inject_Z (len - 1) * p / 100)%Q in
  let f := py_int k in
  let c := (k - inject_Z f)%Q in
  if (f <? len - 1)%Z then
    try! lo := py_index data f in
    try! hi := py_index data (f + 1) in
    Ok (lo * (1 - c) + hi * c)%Q
  else py_index data f.

(** The rank of percentile [p] in a list of [L] values. *)
Definition rank (L : Z) (p : Q) : Q := (inject_Z (L - 1) * p / 100)%Q.

(** The percentile as the specification words it: rank
    [k = (L-1)p/100], [f] its floor, [c = k - f]; the value is [x[f]]
    when [f = L-1] and [x[f](1-c) + x[f+1]c] otherwise. *)
Definition percentile_spec (x : list Q) (p : Q) : Q :=
  let L := Z.of_nat (length x) in
  let k := (inject_Z (L - 1) * p / 100)%Q in
  let f := Qfloor k in
  let c := (k - inject_Z f)%Q in
  if (f =? L - 1)%Z then nth (Z.to_nat f) x 0%Q
  else (nth (Z.to_nat f) x 0 * (1 - c) + nth (Z.to_nat (f + 1)) x 0 * c)%Q.

(** The outcomes the response-time and token statistics are taken over. *)
Definition successful_results (results : list RequestResult) : list RequestResult :=
  List.filter (fun r => success r && Qltb 0 (response_time r)) results.

(** [LoadTestEngine.analyze_results]. *)
Definition analyze_results (results : list RequestResult) (concurrent_level : Z)
  : result LoadTestResult :=
  match results with
  | [] =>
      Ok {| concurrent_level := concurrent_level;
            total_requests := 0; successful_requests := 0; failed_requests := 0;
            avg_response_time := 0; min_response_time := 0; max_response_time := 0;
            p50_response_time := 0; p95_response_time := 0; p99_response_time := 0;
            requests_per_second := 0; total_test_time := 0; error_rate := 0;
            timeout_count := 0; total_tokens := 0; avg_tokens_per_request := 0;
            tokens_per_second := 0; results := results |}
  | _ :: _ =>
      let total_requests := Z.of_nat (length results) in
      let successful_requests := Z.of_nat (length (List.filter success results)) in
      let failed_requests := (total_requests - successful_requests)%Z in
      let error_rate :=
        if (0 <? total_requests)%Z
        then (inject_Z failed_requests / inject_Z total_requests)%Q else 0%Q in
      let successful_results := successful_results results in
      let response_times := map response_time successful_results in
      try! times :=
        match response_times with
        | _ :: _ =>
            let response_times := py_sorted response_times in
            let avg_response_time :=
              (sumQ response_times / inject_Z (Z.of_nat (length response_times)))%Q in
            try! min_response_time := py_min response_times in
            try! max_response_time := py_max response_times in
            try! p50 := percentile response_times 50 in
            try! p95 := percentile response_times 95 in
            try! p99 := percentile response_times 99 in
            Ok (avg_response_time, min_response_time, max_response_time, p50, p95, p99)
        | [] => Ok (0, 0, 0, 0, 0, 0)%Q
        end in
      let '(avg_response_time, min_response_time, max_response_time, p50, p95, p99) :=
        times in
      let timestamps := map timestamp results in
      try! total_test_time :=
        match timestamps with
        | _ :: _ =>
            try! test_start_time := py_min timestamps in
            let test_end_times :=
              map (fun r => (timestamp r + response_time r)%Q) results in
            try! test_end_time := py_max test_end_times in
            Ok (test_end_time - test_start_time)%Q
        | [] => Ok 0%Q
        end in
      let requests_per_second :=
        if Qltb 0 total_test_time
        then (inject_Z successful_requests / total_test_time)%Q else 0%Q in
      let timeout_count :=
        Z.of_nat (length (List.filter (fun r => Qltb 1200 (response_time r)) results)) in
      let total_tokens := sumZ (map Client.total_tokens successful_results) in
      let avg_tokens_per_request :=
        match successful_results with
        | _ :: _ => (inject_Z total_tokens
                     / inject_Z (Z.of_nat (length successful_results)))%Q
        | [] => 0%Q
        end in
      let tokens_per_second :=
        if Qltb 0 total_test_time
        then (inject_Z total_tokens / total_test_time)%Q else 0%Q in
      Ok {| concurrent_level := concurrent_level;
            total_requests := total_requests;
            successful_requests := successful_requests;
            failed_requests := failed_requests;
            avg_response_time := avg_response_time;
            min_response_time := min_response_time;
            max_response_time := max_response_time;
            p50_response_time := p50;
            p95_response_time := p95;
            p99_response_time := p99;
            requests_per_second := requests_per_second;
            total_test_time := total_test_time;
            error_rate := error_rate;
            timeout_count := timeout_count;
            total_tokens := total_tokens;
            avg_tokens_per_request := avg_tokens_per_request;
            tokens_per_second := tokens_per_second;
            results := results |}
  end.

End Engine.

(** ** [src/monitor/network.py]: the aggregate a session stores per host *)

Module Monitor.

Record NetworkStats : Type := mkNetworkStats {
  host : string;
  total_pings : Z;
  successful_pings : Z;
  failed_pings : Z;
  success_rate : Q;
  avg_response_time : Q;
  min_response_time : Q;
  max_response_time : Q;
  std_response_time : Q;
  packet_loss : Q;
  jitter : Q
}.

End Monitor.

(** ** [src/stats/analyzer.py]: the session store *)

Module Store.
Import Client.

(** Rows of the four tables, one field per column. *)
Record session_row : Type := mkSessionRow {
  ts_id : Z;
  ts_session_id : string;
  ts_api_name : string;
  ts_test_config : string;
  ts_start_time : Q;
  ts_end_time : Q;
  ts_total_requests : Z;
  ts_successful_requests : Z;
  ts_failed_requests : Z;
  ts_avg_response_time : Q;
  ts_max_concurrent : Z;
  ts_metadata : Json.value        (* the document [json.dumps] writes *)
}.

Record stage_row : Type := mkStageRow {
  lt_id : Z;
  lt_session_id : string;
  lt_concurrent_level : Z;
  lt_total_requests : Z;
  lt_successful_requests : Z;
  lt_failed_requests : Z;
  lt_avg_response_time : Q;
  lt_min_response_time : Q;
  lt_max_response_time : Q;
  lt_p50_response_time : Q;
  lt_p95_response_time : Q;
  lt_p99_response_time : Q;
  lt_requests_per_second : Q;
  lt_total_test_time : Q;
  lt_error_rate : Q;
  lt_timeout_count : Z;
  lt_total_tokens : Z;
  lt_avg_tokens_per_request : Q;
  lt_tokens_per_second : Q
}.

Record request_row : Type := mkRequestRow {
  rr_id : Z;
  rr_session_id : string;
  rr_concurrent_level : Z;
  rr_timestamp : Q;
  rr_prompt : string;
  rr_response_time : Q;
  rr_status_code : Z;
  rr_success : bool;
  rr_error_message : option string;
  rr_input_tokens : Z;
  rr_output_tokens : Z;
  rr_total_tokens : Z;
  rr_content_length : Z
}.

Record network_row : Type := mkNetworkRow {
  ns_id : Z;
  ns_session_id : string;
  ns_host : string;
  ns_timestamp : Q;
  ns_total_pings : Z;
  ns_successful_pings : Z;
  ns_success_rate : Q;
  ns_avg_response_time : Q;
  ns_packet_loss : Q;
  ns_jitter : Q
}.

(** The database file: each table in row order, and for each table the
    largest AUTOINCREMENT id handed out so far. *)
Record TestDatabase : Type := mkTestDatabase {
  test_sessions : list session_row;
  load_test_results : list stage_row;
  request_results : list request_row;
  network_stats : list network_row;
  seq_test_sessions : Z;
  seq_load_test_results : Z;
  seq_request_results : Z;
  seq_network_stats : Z
}.

(** [_init_database] on a new file. *)
Definition empty_database : TestDatabase :=
  {| test_sessions := []; load_test_results := []; request_results := [];
     network_stats := []; seq_test_sessions := 0; seq_load_test_results := 0;
     seq_request_results := 0; seq_network_stats := 0 |}.

(** [INSERT OR REPLACE INTO test_sessions]: [session_id] is UNIQUE, so a
    row with the same session id is deleted before the new one is added. *)
Definition insert_or_replace_session (db : TestDatabase)
           (mk : Z -> session_row) : TestDatabase :=
  let id := (seq_test_sessions db + 1)%Z in
  let row := mk id in
  {| test_sessions :=
       List.filter (fun r => negb (String.eqb (ts_session_id r) (ts_session_id row)))
                   (test_sessions db) ++ [row];
     load_test_results := load_test_results db;
     request_results := request_results db;
     network_stats := network_stats db;
     seq_test_sessions := id;
     seq_load_test_results := seq_load_test_results db;
     seq_request_results := seq_request_results db;
     seq_network_stats := seq_network_stats db |}.

(** [INSERT INTO load_test_results] *)
Definition insert_stage (db : TestDatabase) (mk : Z -> stage_row) : TestDatabase :=
  let id := (seq_load_test_results db + 1)%Z in
  {| test_sessions := test_sessions db;
     load_test_results := load_test_results db ++ [mk id];
     request_results := request_results db;
     network_stats := network_stats db;
     seq_test_sessions := seq_test_sessions db;
     seq_load_test_results := id;
     seq_request_results := seq_request_results db;
     seq_network_stats := seq_network_stats db |}.

(** [INSERT INTO request_results] *)
Definition insert_request (db : TestDatabase) (mk : Z -> request_row) : TestDatabase :=
  let id := (seq_request_results db + 1)%Z in
  {| test_sessions := test_sessions db;
     load_test_results := load_test_results db;
     request_results := request_results db ++ [mk id];
     network_stats := network_stats db;
     seq_test_sessions := seq_test_sessions db;
     seq_load_test_results := seq_load_test_results db;
     seq_request_results := id;
     seq_network_stats := seq_network_stats db |}.

(** [INSERT INTO network_stats] *)
Definition insert_network (db : TestDatabase) (mk : Z -> network_row) : TestDatabase :=
  let id := (seq_network_stats db + 1)%Z in
  {| test_sessions := test_sessions db;
     load_test_results := load_test_results db;
     request_results := request_results db;
     network_stats := network_stats db ++ [mk id];
     seq_test_sessions := seq_test_sessions db;
     seq_load_test_results := seq_load_test_results db;
     seq_request_results := seq_request_results db;
     seq_network_stats := id |}.

Definition stage_row_of (session_id : string) (result : Engine.LoadTestResult)
           (id : Z) : stage_row :=
  {| lt_id := id;
     lt_session_id := session_id;
     lt_concurrent_level := Engine.concurrent_level result;
     lt_total_requests := Engine.total_requests result;
     lt_successful_requests := Engine.successful_requests result;
     lt_failed_requests := Engine.failed_requests result;
     lt_avg_response_time := Engine.avg_response_time result;
     lt_min_response_time := Engine.min_response_time result;
     lt_max_response_time := Engine.max_response_time result;
     lt_p50_response_time := Engine.p50_response_time result;
     lt_p95_response_time := Engine.p95_response_time result;
     lt_p99_response_time := Engine.p99_response_time result;
     lt_requests_per_second := Engine.requests_per_second result;
     lt_total_test_time := Engine.total_test_time result;
     lt_error_rate := Engine.error_rate result;
     lt_timeout_count := Engine.timeout_count result;
     lt_total_tokens := Engine.total_tokens result;
     lt_avg_tokens_per_request := Engine.avg_tokens_per_request result;
     lt_tokens_per_second := Engine.tokens_per_second result |}.

Definition request_row_of (session_id : string) (concurrent_level : Z)
           (req_result : RequestResult) (id : Z) : request_row :=
  {| rr_id := id;
     rr_session_id := session_id;
     rr_concurrent_level := concurrent_level;
     rr_timestamp := timestamp req_result;
     rr_prompt := prompt req_result;
     rr_response_time := response_time req_result;
     rr_status_code := status_code req_result;
     rr_success := success req_result;
     rr_error_message := error_message req_result;
     rr_input_tokens := input_tokens req_result;
     rr_output_tokens := output_tokens req_result;
     rr_total_tokens := total_tokens req_result;
     rr_content_length := content_length req_result |}.

Definition network_row_of (session_id host : string) (time : Q)
           (stats : Monitor.NetworkStats) (id : Z) : network_row :=
  {| ns_id := id;
     ns_session_id := session_id;
     ns_host := host;
     ns_timestamp := time;
     ns_total_pings := Monitor.total_pings stats;
     ns_successful_pings := Monitor.successful_pings stats;
     ns_success_rate := Monitor.success_rate stats;
     ns_avg_response_time := Monitor.avg_response_time stats;
     ns_packet_loss := Monitor.packet_loss stats;
     ns_jitter := Monitor.jitter stats |}.

(** The summary computed before the connection is opened. *)
Definition session_summary (load_results : list Engine.LoadTestResult)
  : result (Z * Z * Z * Q * Z) :=
  let total_requests := sumZ (map Engine.total_requests load_results) in
  let successful_requests := sumZ (map Engine.successful_requests load_results) in
  let failed_requests := sumZ (map Engine.failed_requests load_results) in
  try! avg_response_time :=
    statistics_mean
      (List.filter (fun a => Qltb 0 a) (map Engine.avg_response_time load_results)) in
  try! max_concurrent :=
    match load_results with
    | _ :: _ => maxZ (map Engine.concurrent_level load_results)
    | [] => Ok 0%Z
    end in
  Ok (total_requests, successful_requests, failed_requests, avg_response_time,
      max_concurrent).

(** The inner loop of [save_test_session]: one row of
    [request_results] per outcome of a stage. *)
Definition write_requests (session_id : string) (concurrent_level : Z)
           (results : list RequestResult) (db : TestDatabase) : TestDatabase :=
  fold_left
    (fun db req_result =>
       insert_request db (request_row_of session_id concurrent_level req_result))
    results db.

(** The loop over [load_results]: the stage row, then its request rows. *)
Definition write_stages (session_id : string)
           (load_results : list Engine.LoadTestResult) (db : TestDatabase)
  : TestDatabase :=
  fold_left
    (fun db result =>
       let db := insert_stage db (stage_row_of session_id result) in
       write_requests session_id (Engine.concurrent_level result)
                      (Engine.results result) db)
    load_results db.

(** The loop over [network_stats.items()], entered when the dict is
    given and not empty; [clock n] is the reading of [time.time()] for
    the n-th host written. *)
Definition write_network (session_id : string) (clock : nat -> Q)
           (network_stats : option (list (string * Monitor.NetworkStats)))
           (db : TestDatabase) : TestDatabase :=
  match network_stats with
  | Some (h :: hs) =>
      snd (fold_left
             (fun '(n, db) '(host, stats) =>
                (S n, insert_network db
                        (network_row_of session_id host (clock n) stats)))
             (h :: hs) (O, db))
  | Some [] | None => db
  end.

(** [json.dumps(metadata or {})], as the document written. *)
Definition metadata_or_empty (metadata : option Json.value) : Json.value :=
  match metadata with
  | Some (Json.JObj (m :: ms)) => Json.JObj (m :: ms)
  | Some (Json.JObj []) | None => Json.JObj []
  | Some other => other
  end.

(** The header row written for a session. *)
Definition session_row_of (session_id api_name test_config : string)
           (start_time end_time : Q) (summary : Z * Z * Z * Q * Z)
           (metadata : option Json.value) (id : Z) : session_row :=
  let '(total_requests, successful_requests, failed_requests, avg_response_time,
        max_concurrent) := summary in
  {| ts_id := id;
     ts_session_id := session_id;
     ts_api_name := api_name;
     ts_test_config := test_config;
     ts_start_time := start_time;
     ts_end_time := end_time;
     ts_total_requests := total_requests;
     ts_successful_requests := successful_requests;
     ts_failed_requests := failed_requests;
     ts_avg_response_time := avg_response_time;
     ts_max_concurrent := max_concurrent;
     ts_metadata := metadata_or_empty metadata |}.

(** [TestDatabase.save_test_session].  The result is the database after
    the call and whether the call returned or raised. *)
Definition save_test_session (db : TestDatabase)
           (session_id api_name test_config : string) (start_time end_time : Q)
           (load_results : list Engine.LoadTestResult)
           (network_stats : option (list (string * Monitor.NetworkStats)))
           (metadata : option Json.value) (clock : nat -> Q)
  : TestDatabase * result unit :=
  match session_summary load_results with
  | Raise e => (db, Raise e)
  | Ok summary =>
      let db :=
        insert_or_replace_session db
          (session_row_of session_id api_name test_config start_time end_time
                          summary metadata) in
      let db := write_stages session_id load_results db in
      let db := write_network session_id clock network_stats db in
      (db, Ok tt)
  end.

(** [TestDatabase.get_test_sessions]: newest first, at most [limit] rows
    (a negative LIMIT is no limit). *)
Definition get_test_sessions (db : TestDatabase) (limit : Z) : list session_row :=
  let rows :=
    sort_by (fun a b => Qle_bool (ts_start_time b) (ts_start_time a))
            (test_sessions db) in
  if (limit <? 0)%Z then rows else take (Z.to_nat limit) rows.

(** The rows of each table that belong to a session. *)
Definition session_rows (db : TestDatabase) (session_id : string)
  : list session_row :=
  List.filter (fun r => String.eqb (ts_session_id r) session_id) (test_sessions db).

Definition stage_rows (db : TestDatabase) (session_id : string) : list stage_row :=
  List.filter (fun r => String.eqb (lt_session_id r) session_id)
              (load_test_results db).

Definition request_rows (db : TestDatabase) (session_id : string)
  : list request_row :=
  List.filter (fun r => String.eqb (rr_session_id r) session_id)
              (request_results db).

(** [SELECT * FROM load_test_results WHERE session_id = ? ORDER BY
    concurrent_level]; rows of equal level stay in row order. *)
Definition select_stages (db : TestDatabase) (session_id : string) : list stage_row :=
  sort_by (fun a b => (lt_concurrent_level a <=? lt_concurrent_level b)%Z)
          (stage_rows db session_id).

(** [SELECT * FROM request_results WHERE session_id = ? AND
    concurrent_level = ?] *)
Definition select_requests (db : TestDatabase) (session_id : string)
           (concurrent_level : Z) : list request_row :=
  List.filter (fun r => String.eqb (rr_session_id r) session_id
                        && (rr_concurrent_level r =? concurrent_level)%Z)
              (request_results db).

(** The columns [SELECT *] returns for [load_test_results], in
    declaration order: the keys of [dict(row)]. *)
Definition load_test_results_columns : list string :=
  ["id"; "session_id"; "concurrent_level"; "total_requests";
   "successful_requests"; "failed_requests"; "avg_response_time";
   "min_response_time"; "max_response_time"; "p50_response_time";
   "p95_response_time"; "p99_response_time"; "requests_per_second";
   "total_test_time"; "error_rate"; "timeout_count"; "total_tokens";
   "avg_tokens_per_request"; "tokens_per_second"].

(** The fields of the dataclass [LoadTestResult]: the parameters of its
    generated [__init__]. *)
Definition LoadTestResult_fields : list string :=
  ["concurrent_level"; "total_requests"; "successful_requests";
   "failed_requests"; "avg_response_time"; "min_response_time";
   "max_response_time"; "p50_response_time"; "p95_response_time";
   "p99_response_time"; "requests_per_second"; "total_test_time";
   "error_rate"; "timeout_count"; "total_tokens"; "avg_tokens_per_request";
   "tokens_per_second"; "results"].

Definition mem_string (k : string) (l : list string) : bool :=
  existsb (String.eqb k) l.

(** Binding the keyword arguments [keywords] to the parameters [fields]
    of a dataclass [__init__] without defaults. *)
Definition bind_keywords (cls : string) (fields keywords : list string)
  : result unit :=
  match List.find (fun k => negb (mem_string k fields)) keywords with
  | Some k =>
      Raise (TypeError (cls ++ ".__init__() got an unexpected keyword argument '"
                        ++ k ++ "'"))
  | None =>
      match List.filter (fun f => negb (mem_string f keywords)) fields with
      | [] => Ok tt
      | _ :: _ =>
          Raise (TypeError (cls ++ ".__init__() missing required positional arguments"))
      end
  end.

Definition RequestResult_of_row (req : request_row) : RequestResult :=
  {| timestamp := rr_timestamp req;
     prompt := rr_prompt req;
     response_time := rr_response_time req;
     status_code := rr_status_code req;
     success := rr_success req;
     response_content := "";
     error_message := rr_error_message req;
     input_tokens := rr_input_tokens req;
     output_tokens := rr_output_tokens req;
     total_tokens := rr_total_tokens req;
     content_length := rr_content_length req |}.

(** The constructor call on the unpacked [row_dict]: its keys are bound
    to the dataclass fields; the values are those of the row. *)
Definition LoadTestResult_of_row_dict (keys : list string) (row : stage_row)
           (request_results : list RequestResult) : result Engine.LoadTestResult :=
  try! _u := bind_keywords "LoadTestResult" LoadTestResult_fields keys in
  Ok {| Engine.concurrent_level := lt_concurrent_level row;
        Engine.total_requests := lt_total_requests row;
        Engine.successful_requests := lt_successful_requests row;
        Engine.failed_requests := lt_failed_requests row;
        Engine.avg_response_time := lt_avg_response_time row;
        Engine.min_response_time := lt_min_response_time row;
        Engine.max_response_time := lt_max_response_time row;
        Engine.p50_response_time := lt_p50_response_time row;
        Engine.p95_response_time := lt_p95_response_time row;
        Engine.p99_response_time := lt_p99_response_time row;
        Engine.requests_per_second := lt_requests_per_second row;
        Engine.total_test_time := lt_total_test_time row;
        Engine.error_rate := lt_error_rate row;
        Engine.timeout_count := lt_timeout_count row;
        Engine.total_tokens := lt_total_tokens row;
        Engine.avg_tokens_per_request := lt_avg_tokens_per_request row;
        Engine.tokens_per_second := lt_tokens_per_second row;
        Engine.results := request_results |}.

(** [TestDatabase.get_load_test_results]. *)
Definition get_load_test_results (db : TestDatabase) (session_id : string)
  : result (list Engine.LoadTestResult) :=
  fold_left
    (fun acc row =>
       try! results := acc in
       let row_dict := load_test_results_columns in
       let request_results :=
         map RequestResult_of_row
             (select_requests db session_id (lt_concurrent_level row)) in
       let row_dict := (row_dict ++ ["results"])%list in
       try! r := LoadTestResult_of_row_dict row_dict row request_results in
       Ok (results ++ [r])%list)
    (select_stages db session_id) (Ok []).

End Store.

(** ** [src/stats/analyzer.py]: analyses over the store *)

Module Analyzer.
Import Store.

(** One row of the data frame [analyze_concurrency_impact] builds: the
    queried columns and the added [efficiency_score]. *)
Record frame_row : Type := mkFrameRow {
  concurrent_level : Z;
  avg_response_time : Q;
  requests_per_second : Q;
  error_rate : Q;
  p95_response_time : Q;
  total_tokens : Z;
  tokens_per_second : Q;
  efficiency_score : Q
}.

(** The query and the added column.  The divisor of the score is 0 only
    for a mean latency of -0.1, which no stage result has. *)
Definition read_frame (db : TestDatabase) (session_id : string) : list frame_row :=
  map (fun r =>
         {| concurrent_level := lt_concurrent_level r;
            avg_response_time := lt_avg_response_time r;
            requests_per_second := lt_requests_per_second r;
            error_rate := lt_error_rate r;
            p95_response_time := lt_p95_response_time r;
            total_tokens := lt_total_tokens r;
            tokens_per_second := lt_tokens_per_second r;
            efficiency_score :=
              (lt_requests_per_second r / (lt_avg_response_time r + (1 # 10)))%Q |})
      (select_stages db session_id).

(** [df.loc[df[col].idxmax()]]: the first row where [key] is greatest. *)
Definition idxmax (key : frame_row -> Q) (df : list frame_row) : option frame_row :=
  match df with
  | [] => None
  | x :: rest =>
      Some (fold_left (fun m y => if Qltb (key m) (key y) then y else m) rest x)
  end.

Definition idxmin (key : frame_row -> Q) (df : list frame_row) : option frame_row :=
  match df with
  | [] => None
  | x :: rest =>
      Some (fold_left (fun m y => if Qltb (key y) (key m) then y else m) rest x)
  end.

(** The test of the decline loop at index [i]. *)
Definition declines_at (df : list frame_row) (i : nat) : bool :=
  match df !! i, df !! (i - 1)%nat with
  | Some cur, Some prev =>
      Qltb (requests_per_second cur) (requests_per_second prev * (95 # 100))%Q
  | _, _ => false
  end.

(** Stage [i] of the frame has less than 95% of the throughput of the
    stage before it. *)
Definition rps_drops (df : list frame_row) (i : nat) : Prop :=
  exists cur prev,
    df !! i = Some cur /\ df !! (i - 1)%nat = Some prev /\
    (requests_per_second cur < requests_per_second prev * (95 # 100))%Q.

(** The decline loop: [for i in range(1, len(df))] with its [break]. *)
Definition find_decline (df : list frame_row) : option frame_row :=
  match List.find (declines_at df) (seq 1 (length df - 1)) with
  | Some i => df !! (i - 1)%nat
  | None => None
  end.

Inductive analysis : Type :=
| NoData (message : string)
| Performance (optimal_concurrency max_throughput min_latency : option frame_row)
              (data : list frame_row)
              (throughput_decline_point : option frame_row).

(** The key [throughput_decline_point] of the returned record, when
    present. *)
Definition decline_point (a : analysis) : option frame_row :=
  match a with
  | NoData _ => None
  | Performance _ _ _ _ d => d
  end.

(** [DataAnalyzer.analyze_concurrency_impact]. *)
Definition analyze_concurrency_impact (db : TestDatabase) (session_id : string)
  : analysis :=
  let df := read_frame db session_id in
  match df with
  | [] => NoData "no data found"
  | _ :: _ =>
      Performance
        (idxmax efficiency_score df)
        (idxmax requests_per_second df)
        (idxmin avg_response_time df)
        df
        (if (2 <? length df)%nat then find_decline df else None)
  end.

End Analyzer.

(** ** Concrete inputs used by the examples below *)

Module Examples.
Import Client Runtime.

(** JSON text written with apostrophes in place of double quotes. *)
Fixpoint json_text (s : string) : string :=
  match s with
  | EmptyString => EmptyString
  | String c r =>
      String (if Ascii.eqb c "'"%char then ascii_of_nat 34 else c) (json_text r)
  end.

Definition profile : APIEndpoint :=
  {| format_url := fun endpoint => Ok ("https://api.example/v1/" ++ endpoint);
     format_headers := Ok [("Content-Type", "application/json")];
     format_request_body :=
       fun prompt => Ok (Json.JObj [("prompt", Json.JStr prompt)]) |}.

(** A world at time 0 whose remote side answers every POST the same way. *)
Definition world (answer : exchange) (duration : Q) : World :=
  {| prompt_manager := {| Config.prompts := ["a"; "b"; "c"];
                          Config.current_index := 0 |};
     now := 0;
     network := fun _ => (answer, duration);
     posts := 0;
     trace := [] |}.

(** An outcome with status 200. *)
Definition answered (timestamp response_time : Q) (total_tokens : Z)
  : RequestResult :=
  {| timestamp := timestamp; prompt := "a"; response_time := response_time;
     status_code := 200; success := true; response_content := "{}";
     error_message := None; input_tokens := 0; output_tokens := total_tokens;
     total_tokens := total_tokens; content_length := 2 |}.

(** An outcome of a request that never got a response. *)
Definition unanswered (timestamp : Q) : RequestResult :=
  {| timestamp := timestamp; prompt := "a"; response_time := 0;
     status_code := 0; success := false; response_content := "";
     error_message := Some "RetryError[Connection refused]";
     input_tokens := 0; output_tokens := 0; total_tokens := 0;
     content_length := 0 |}.

(** Four answered requests with latencies 0.1, 0.2, 0.3, 0.4. *)
Definition four_answered : list RequestResult :=
  [answered 0 (1 # 10) 30; answered 0 (2 # 10) 30;
   answered 0 (3 # 10) 30; answered 0 (4 # 10) 30].

(** A stage result with the given level, throughput and mean latency,
    of ten answered requests. *)
Definition stage (level : Z) (rps avg : Q) : Engine.LoadTestResult :=
  {| Engine.concurrent_level := level;
     Engine.total_requests := 10; Engine.successful_requests := 10;
     Engine.failed_requests := 0;
     Engine.avg_response_time := avg; Engine.min_response_time := avg;
     Engine.max_response_time := avg; Engine.p50_response_time := avg;
     Engine.p95_response_time := avg; Engine.p99_response_time := avg;
     Engine.requests_per_second := rps; Engine.total_test_time := 1;
     Engine.error_rate := 0; Engine.timeout_count := 0;
     Engine.total_tokens := 0; Engine.avg_tokens_per_request := 0;
     Engine.tokens_per_second := 0;
     Engine.results := [answered 0 avg 0] |}.

(** A stage in which both requests failed. *)
Definition failed_stage : Engine.LoadTestResult :=
  {| Engine.concurrent_level := 2;
     Engine.total_requests := 2; Engine.successful_requests := 0;
     Engine.failed_requests := 2;
     Engine.avg_response_time := 0; Engine.min_response_time := 0;
     Engine.max_response_time := 0; Engine.p50_response_time := 0;
     Engine.p95_response_time := 0; Engine.p99_response_time := 0;
     Engine.requests_per_second := 0; Engine.total_test_time := 0;
     Engine.error_rate := 1; Engine.timeout_count := 0;
     Engine.total_tokens := 0; Engine.avg_tokens_per_request := 0;
     Engine.tokens_per_second := 0;
     Engine.results := [unanswered 0; unanswered 0] |}.

(** A sweep over three levels whose throughput falls at the last one,
    and a sweep over two levels whose throughput halves. *)
Definition sweep3 : list Engine.LoadTestResult :=
  [stage 1 10 (1 # 10); stage 5 40 (2 # 10); stage 10 30 (5 # 10)].

Definition sweep2 : list Engine.LoadTestResult :=
  [stage 1 10 (1 # 10); stage 5 5 (2 # 10)].

(** Saving a session ["s1"] of the given stages into [db]. *)
Definition save (db : Store.TestDatabase) (stages : list Engine.LoadTestResult)
  : Store.TestDatabase * result unit :=
  Store.save_test_session db "s1" "openai" "default" 0 300 stages None None
                          (fun _ => 300%Q).

Definition db_sweep2 : Store.TestDatabase := fst (save Store.empty_database sweep2).
Definition db_sweep3 : Store.TestDatabase := fst (save Store.empty_database sweep3).
Definition db_sweep3_twice : Store.TestDatabase := fst (save db_sweep3 sweep3).


(** What the gathered tasks of a stage yield: every third one raised. *)
Definition every_third_raises (i : nat) : Engine.gathered :=
  if (i mod 3 =? 2)%nat then Engine.Raised (ValueError "boom")
  else Engine.Returned (answered (inject_Z (Z.of_nat i)) (1 # 2) 30).

End Examples.

(** ** [src/api/config.py]: loading the prompt file *)

Module PromptFile.
Import Json.

(** The characters [str.strip()] removes, among the ASCII ones. *)
Definition is_space (c : ascii) : bool :=
  let n := code c in
  ((9 <=? n)%nat && (n <=? 13)%nat) || ((28 <=? n)%nat && (n <=? 32)%nat).

Fixpoint lstrip (s : string) : string :=
  match s with
  | String c r => if is_space c then lstrip r else s
  | EmptyString => s
  end.

Fixpoint rstrip (s : string) : string :=
  match s with
  | EmptyString => EmptyString
  | String c r =>
      match rstrip r with
      | EmptyString => if is_space c then EmptyString else String c EmptyString
      | r' => String c r'
      end
  end.

(** [line.strip()] *)
Definition strip (s : string) : string := rstrip (lstrip s).

(** The loop of [_load_prompts] over the lines of the file. *)
Fixpoint read_lines (lines : list string) (prompts : list value)
  : result (list value) :=
  match lines with
  | [] => Ok prompts
  | line :: rest =>
      try! data := json_loads (strip line) in
      try! has_question := py_contains "question" data in
      if has_question : bool then
        try! question := py_getitem data "question" in
        read_lines rest (prompts ++ [question])
      else read_lines rest prompts
  end.

(** [PromptManager._load_prompts] on a prompt file that exists, given as
    its lines. *)
Definition _load_prompts (lines : list string) : result (list value) :=
  try! prompts := read_lines lines [] in
  match prompts with
  | [] => Raise (ValueError "no valid question found in the prompt file")
  | _ :: _ => Ok prompts
  end.

(** The [question] of a line that decodes to an object with that key. *)
Definition question_of (line : string) : option value :=
  match json_loads (strip line) with
  | Ok (JObj members) => dict_get "question" members
  | _ => None
  end.

End PromptFile.

(** ** [src/api/config.py]: rendering the request body *)

Module Profile.
Import Json.

(** [s.replace(old, new)] for a non-empty [old]: occurrences are found
    left to right and do not overlap; [skip] counts the characters of an
    occurrence still to be dropped. *)
Fixpoint replace_from (old new : string) (skip : nat) (s : string) : string :=
  match s with
  | EmptyString => EmptyString
  | String c r =>
      match skip with
      | S k => replace_from old new k r
      | O =>
          match strip_prefix old s with
          | Some _ => new ++ replace_from old new (String.length old - 1) r
          | None => String c (replace_from old new 0 r)
          end
      end
  end.

Definition str_replace (old new s : string) : string := replace_from old new 0 s.

(** The local function [replace_placeholders] of [format_request_body]. *)
Fixpoint replace_placeholders (obj : value) (prompt_text : string) : value :=
  match obj with
  | JObj members =>
      JObj (List.map (fun kv => (fst kv, replace_placeholders (snd kv) prompt_text))
                     members)
  | JArr items =>
      JArr (List.map (fun item => replace_placeholders item prompt_text) items)
  | JStr s => JStr (str_replace "{prompt}" prompt_text s)
  | other => other
  end.

(** [APIEndpoint.format_request_body]; the copy made through
    [json.dumps] and [json.loads] is the template itself as a value. *)
Definition format_request_body (request_format : value) (prompt : string) : value :=
  let body := request_format in
  replace_placeholders body prompt.

(** The template with the text of every string leaf removed: its keys,
    its nesting and its other leaves. *)
Fixpoint skeleton (v : value) : value :=
  match v with
  | JObj members => JObj (List.map (fun kv => (fst kv, skeleton (snd kv))) members)
  | JArr items => JArr (List.map skeleton items)
  | JStr _ => JStr EmptyString
  | other => other
  end.

(** Some string leaf of the template contains the placeholder. *)
Fixpoint mentions_prompt (v : value) : bool :=
  match v with
  | JObj members => existsb (fun kv => mentions_prompt (snd kv)) members
  | JArr items => existsb mentions_prompt items
  | JStr s => is_substring "{prompt}" s
  | _ => false
  end.

(** The string has no opening brace. *)
Fixpoint brace_free (s : string) : bool :=
  match s with
  | EmptyString => true
  | String c r => negb (Ascii.eqb c "{"%char) && brace_free r
  end.

End Profile.

(** ** [src/api/client.py] and [src/engine/load_test.py]: batches and
    the staged load test *)

Module LoadEngine.
Import Client Engine.

(** [APIRequestManager.send_batch_requests]: all tasks are gathered at
    once; [outcome i] is what the i-th task yields and [now_at n] the
    reading of [time.time()] when [n] results are already processed. *)
Definition send_batch_requests (outcome : nat -> gathered) (now_at : nat -> Q)
           (request_count : Z) : list RequestResult :=
  let tasks := seq 0 (Z.to_nat request_count) in
  let results := List.map outcome tasks in
  fold_left
    (fun processed_results result =>
       match result with
       | Raised e =>
           (processed_results
             ++ [ {| timestamp := now_at (length processed_results);
                     prompt := "";
                     response_time := 0;
                     status_code := 0;
                     success := false;
                     response_content := "";
                     error_message := Some (str_exn e);
                     input_tokens := 0;
                     output_tokens := 0;
                     Client.total_tokens := 0;
                     content_length := 0 |} ])%list
       | Returned r => (processed_results ++ [r])%list
       end)
    results [].

(** [await asyncio.sleep(seconds)] when the guard holds. *)
Definition sleep_if (guard : bool) (seconds : Z) : M unit :=
  if guard then sleep (inject_Z seconds) else ret tt.

(** The loop of [LoadTestEngine.run_load_test] from stage [i] on;
    [outcome i] and [now_at i] are what the tasks of stage [i] yield and
    the clock readings during its collection.  The requests of a stage
    are represented by what they yield: the POSTs they issue and the
    prompts they draw are not recorded in the world, which the loop
    itself touches through its pauses only. *)
Fixpoint run_stages (outcome : nat -> nat -> gathered) (now_at : nat -> nat -> Q)
         (count : nat) (requests_per_level ramp_up_time cool_down_time : Z)
         (i : nat) (concurrent_levels : list Z) (results : list LoadTestResult)
  : M (list LoadTestResult) :=
  match concurrent_levels with
  | [] => ret results
  | concurrent_level :: rest =>
      do! _r := sleep_if (0 <? ramp_up_time)%Z ramp_up_time in
      do! _start_time := time_time in
      do! request_results :=
        lift (run_concurrent_requests (outcome i) (now_at i)
                                      concurrent_level requests_per_level) in
      do! load_test_result := lift (analyze_results request_results concurrent_level) in
      let results := (results ++ [load_test_result])%list in
      do! _c := sleep_if ((0 <? cool_down_time)%Z && (Z.of_nat i <? Z.of_nat count - 1)%Z)
                         cool_down_time in
      run_stages outcome now_at count requests_per_level ramp_up_time cool_down_time
                 (S i) rest results
  end.

(** [LoadTestEngine.run_load_test]; the console output is left out. *)
Definition run_load_test (outcome : nat -> nat -> gathered) (now_at : nat -> nat -> Q)
           (concurrent_levels : list Z)
           (requests_per_level ramp_up_time cool_down_time : Z)
  : M (list LoadTestResult) :=
  run_stages outcome now_at (length concurrent_levels) requests_per_level
             ramp_up_time cool_down_time 0 concurrent_levels [].


End LoadEngine.

(** ** [src/monitor/network.py]: the host prober *)

Module Prober.

Record PingResult : Type := mkPingResult {
  timestamp : Q;
  host : string;
  ip_address : string;
  response_time : Q;
  success : bool;
  error_message : option string
}.

(** What gathering one probe yields. *)
Inductive probed : Type :=
| Sample (r : PingResult)
| Failed (e : exn).

(** Appending a sample to the list kept for a target: beyond 1000
    entries the list is cut to its last 500. *)
Definition store_result (results : list PingResult) (result : PingResult)
  : list PingResult :=
  let results := (results ++ [result])%list in
  if (1000 <? length results)%nat then drop (length results - 500) results
  else results.

(** The loop over [zip(targets, results)] of one monitoring round.  A
    target that is no key of the dict raises [KeyError]. *)
Fixpoint record_round (pairs : list (string * probed))
         (ping_results : gmap string (list PingResult))
  : gmap string (list PingResult) * result unit :=
  match pairs with
  | [] => (ping_results, Ok tt)
  | (target, result) :: rest =>
      match result with
      | Failed _ => record_round rest ping_results
      | Sample r =>
          match ping_results !! target with
          | Some results =>
              record_round rest (<[target := store_result results r]> ping_results)
          | None => (ping_results, Raise (KeyError target))
          end
      end
  end.

(** The rounds of [start_monitoring]; an exception ends the loop. *)
Fixpoint monitor_rounds (targets : list string) (rounds : list (list probed))
         (ping_results : gmap string (list PingResult))
  : gmap string (list PingResult) :=
  match rounds with
  | [] => ping_results
  | results :: more =>
      match record_round (zip targets results) ping_results with
      | (ping_results, Ok _) => monitor_rounds targets more ping_results
      | (ping_results, Raise _) => ping_results
      end
  end.

(** [NetworkMonitor.start_monitoring], for the rounds made until it is
    stopped; [rounds] holds what the probes of each round yield. *)
Definition start_monitoring (targets : list string) (rounds : list (list probed))
  : gmap string (list PingResult) :=
  monitor_rounds targets rounds
                 (list_to_map (List.map (fun target => (target, [])) targets)).

(** The samples one round appends for [target]. *)
Definition round_samples (pairs : list (string * probed)) (target : string)
  : list PingResult :=
  flat_map (fun pair =>
              match pair with
              | (t, Sample r) => if String.eqb t target then [r] else []
              | (_, Failed _) => []
              end) pairs.

(** All samples taken for [target], oldest first. *)
Definition history (targets : list string) (rounds : list (list probed))
           (target : string) : list PingResult :=
  flat_map (fun results => round_samples (zip targets results) target) rounds.

(** [statistics.stdev], given the square root. *)
Definition statistics_stdev (sqrt : Q -> Q) (data : list Q) : Q :=
  let n := inject_Z (Z.of_nat (length data)) in
  let mean := (sumQ data / n)%Q in
  sqrt (sumQ (List.map (fun x => ((x - mean) * (x - mean))%Q) data) / (n - 1))%Q.

(** The differences whose mean is the jitter. *)
Definition adjacent_differences (response_times : list Q) : list Q :=
  List.map (fun i => Qabs (nth i response_times 0 - nth (i - 1) response_times 0)%Q)
           (seq 1 (length response_times - 1)).

(** [NetworkMonitor.get_network_stats]: the aggregate and the samples it
    was taken from. *)
Definition get_network_stats (sqrt : Q -> Q)
           (ping_results : gmap string (list PingResult)) (target : string)
  : result (option (Monitor.NetworkStats * list PingResult)) :=
  match ping_results !! target with
  | None => Ok None
  | Some [] => Ok None
  | Some results =>
      let total_pings := Z.of_nat (length results) in
      let successful_results := List.filter success results in
      let successful_pings := Z.of_nat (length successful_results) in
      let failed_pings := (total_pings - successful_pings)%Z in
      let success_rate :=
        if (0 <? total_pings)%Z
        then (inject_Z successful_pings / inject_Z total_pings)%Q else 0%Q in
      let packet_loss :=
        if (0 <? total_pings)%Z
        then (inject_Z failed_pings / inject_Z total_pings)%Q else 0%Q in
      try! times :=
        match successful_results with
        | _ :: _ =>
            let response_times := List.map response_time successful_results in
            try! avg_response_time := statistics_mean response_times in
            try! min_response_time := py_min response_times in
            try! max_response_time := py_max response_times in
            let std_response_time :=
              if (1 <? length response_times)%nat
              then statistics_stdev sqrt response_times else 0%Q in
            try! jitter :=
              if (1 <? length response_times)%nat
              then statistics_mean (adjacent_differences response_times)
              else Ok 0%Q in
            Ok (avg_response_time, min_response_time, max_response_time,
                std_response_time, jitter)
        | [] => Ok (0, 0, 0, 0, 0)%Q
        end in
      let '(avg_response_time, min_response_time, max_response_time,
            std_response_time, jitter) := times in
      Ok (Some ({| Monitor.host := target;
                   Monitor.total_pings := total_pings;
                   Monitor.successful_pings := successful_pings;
                   Monitor.failed_pings := failed_pings;
                   Monitor.success_rate := success_rate;
                   Monitor.avg_response_time := avg_response_time;
                   Monitor.min_response_time := min_response_time;
                   Monitor.max_response_time := max_response_time;
                   Monitor.std_response_time := std_response_time;
                   Monitor.packet_loss := packet_loss;
                   Monitor.jitter := jitter |}, results))
  end.

End Prober.

(** ** [src/monitor/network.py]: the latency observer *)

Module Observer.

Record observation : Type := mkObservation {
  timestamp : Q;
  operation : string;
  latency : Q;
  metadata : Json.value
}.

Record latency_stats : Type := mkLatencyStats {
  count : Z;
  avg_latency : Q;
  min_latency : Q;
  max_latency : Q;
  p50_latency : Q;
  p95_latency : Q;
  p99_latency : Q
}.

(** The statistics returned when no observation is selected. *)
Definition no_latency : latency_stats :=
  {| count := 0; avg_latency := 0; min_latency := 0; max_latency := 0;
     p50_latency := 0; p95_latency := 0; p99_latency := 0 |}.


(** The two filters of [get_latency_stats]; an empty operation name and
    a window of 0 select everything, like no value at all. *)
Definition select (observations : list observation) (operation : option string)
           (time_window : option Q) (now : Q) : list observation :=
  let filtered_observations := observations in
  let filtered_observations :=
    match operation with
    | Some (String c s) =>
        List.filter (fun obs => String.eqb (Observer.operation obs) (String c s))
                    filtered_observations
    | Some EmptyString | None => filtered_observations
    end in
  match time_window with
  | Some window =>
      if Qeq_bool window 0 then filtered_observations
      else
        let cutoff_time := (now - window)%Q in
        List.filter (fun obs => Qle_bool cutoff_time (timestamp obs))
                    filtered_observations
  | None => filtered_observations
  end.

(** [LatencyObserver.get_latency_stats]. *)
Definition get_latency_stats (observations : list observation)
           (operation : option string) (time_window : option Q) (now : Q)
  : result latency_stats :=
  match select observations operation time_window now with
  | [] => Ok no_latency
  | filtered_observations =>
      let latencies := py_sorted (List.map latency filtered_observations) in
      try! avg := statistics_mean latencies in
      try! mn := py_min latencies in
      try! mx := py_max latencies in
      try! p50 := Engine.percentile latencies 50 in
      try! p95 := Engine.percentile latencies 95 in
      try! p99 := Engine.percentile latencies 99 in
      Ok {| count := Z.of_nat (length latencies);
            avg_latency := avg; min_latency := mn; max_latency := mx;
            p50_latency := p50; p95_latency := p95; p99_latency := p99 |}
  end.

(** [LatencyObserver.clear_observations]. *)
Definition clear_observations (observations : list observation)
           (operation : option string) : list observation :=
  match operation with
  | Some (String c s) =>
      List.filter (fun obs => negb (String.eqb (Observer.operation obs) (String c s)))
                  observations
  | Some EmptyString | None => []
  end.

End Observer.

(** ** [src/stats/analyzer.py]: the session summary *)

Module Summary.
Import Store.

(** SQL aggregates over the rows a query selects: NULL when there is no
    row. *)
Definition sql_sum (column : list Z) : option Z :=
  match column with
  | [] => None
  | _ :: _ => Some (sumZ column)
  end.

Definition sql_avg (column : list Q) : option Q :=
  match column with
  | [] => None
  | _ :: _ => Some (sumQ column / inject_Z (Z.of_nat (length column)))%Q
  end.

Definition sql_min (column : list Q) : option Q :=
  match column with
  | [] => None
  | x :: rest => Some (fold_left (fun m y => if Qltb y m then y else m) rest x)
  end.

Definition sql_max (column : list Q) : option Q :=
  match column with
  | [] => None
  | x :: rest => Some (fold_left (fun m y => if Qltb m y then y else m) rest x)
  end.

(** The one row of the aggregate query over [load_test_results], as the
    dict [load_stats]; [None] is Python's [None]. *)
Record metrics : Type := mkMetrics {
  total_requests : option Z;
  successful_requests : option Z;
  failed_requests : option Z;
  avg_response_time : option Q;
  min_response_time : option Q;
  max_response_time : option Q;
  avg_p95_response_time : option Q;
  total_tokens : option Z;
  total_timeouts : option Z
}.

Definition load_stats (db : TestDatabase) (session_id : string) : metrics :=
  let rows := stage_rows db session_id in
  {| total_requests := sql_sum (map lt_total_requests rows);
     successful_requests := sql_sum (map lt_successful_requests rows);
     failed_requests := sql_sum (map lt_failed_requests rows);
     avg_response_time := sql_avg (map lt_avg_response_time rows);
     min_response_time := sql_min (map lt_min_response_time rows);
     max_response_time := sql_max (map lt_max_response_time rows);
     avg_p95_response_time := sql_avg (map lt_p95_response_time rows);
     total_tokens := sql_sum (map lt_total_tokens rows);
     total_timeouts := sql_sum (map lt_timeout_count rows) |}.

(** The error messages of the failed requests of a session, in row
    order: the rows of the third query before grouping. *)
Definition failed_messages (db : TestDatabase) (session_id : string) : list string :=
  omap (fun r => if String.eqb (rr_session_id r) session_id && negb (rr_success r)
                 then rr_error_message r else None)
       (request_results db).

Definition occurrences (message : string) (messages : list string) : Z :=
  Z.of_nat (length (List.filter (String.eqb message) messages)).

(** [GROUP BY error_message ORDER BY count DESC].  SQL leaves the order
    of groups of equal count open; here they keep the order in which
    the messages first occur. *)
Definition error_distribution (db : TestDatabase) (session_id : string)
  : list (string * Z) :=
  let messages := failed_messages db session_id in
  sort_by (fun a b => (snd b <=? snd a)%Z)
          (map (fun message => (message, occurrences message messages))
               (remove_dups messages)).

Record summary : Type := mkSummary {
  session_info : option session_row;      (* [None] is the empty dict *)
  performance_metrics : metrics;
  success_rate : Q;
  error_distribution_of : list (string * Z)
}.

(** [load_stats.get('total_requests', 0) > 0]: the key is always
    present, so the default is never taken. *)
Definition py_positive (value : option Z) : result bool :=
  match value with
  | Some n => Ok (0 <? n)%Z
  | None =>
      Raise (TypeError "'>' not supported between instances of 'NoneType' and 'int'")
  end.

(** [load_stats['successful_requests'] / load_stats['total_requests']] *)
Definition py_truediv (a b : option Z) : result Q :=
  match a, b with
  | Some a, Some b =>
      if (b =? 0)%Z then Raise (ZeroDivisionError "division by zero")
      else Ok (inject_Z a / inject_Z b)%Q
  | _, _ =>
      Raise (TypeError "unsupported operand type(s) for /")
  end.

(** [DataAnalyzer.generate_summary_stats]. *)
Definition generate_summary_stats (db : TestDatabase) (session_id : string)
  : result summary :=
  let session_info := head (session_rows db session_id) in
  let load_stats := load_stats db session_id in
  let error_distribution := error_distribution db session_id in
  try! positive := py_positive (total_requests load_stats) in
  try! success_rate :=
    if positive
    then py_truediv (successful_requests load_stats) (total_requests load_stats)
    else Ok 0%Q in
  Ok {| session_info := session_info;
        performance_metrics := load_stats;
        success_rate := success_rate;
        error_distribution_of := error_distribution |}.

End Summary.

(** ** [src/report/generator.py]: the report manager *)

Module Report.
Import Store.

(** What [generate_comprehensive_report] gathers before it renders. *)
Definition report_inputs (db : TestDatabase) (session_id : string)
  : result (Summary.summary * list Engine.LoadTestResult * Analyzer.analysis) :=
  try! summary_stats := Summary.generate_summary_stats db session_id in
  try! load_results := get_load_test_results db session_id in
  let concurrency_analysis := Analyzer.analyze_concurrency_impact db session_id in
  Ok (summary_stats, load_results, concurrency_analysis).

(** [ReportManager.generate_comprehensive_report]; [render] stands for
    the generators called for the requested formats. *)
Definition generate_comprehensive_report {reports : Type}
           (render : Summary.summary * list Engine.LoadTestResult * Analyzer.analysis
                     -> result reports)
           (db : TestDatabase) (session_id : string) : result reports :=
  try! inputs := report_inputs db session_id in
  render inputs.

End Report.

(** ** [src/stats/analyzer.py]: the constraints of the schema *)

Module Schema.
Import Store.

(** [id INTEGER PRIMARY KEY AUTOINCREMENT]: the ids of a table are
    distinct and none exceeds the table's sequence. *)
Definition primary_key (ids : list Z) (sequence : Z) : Prop :=
  NoDup ids /\ Forall (fun id => (id <= sequence)%Z) ids.

(** [FOREIGN KEY (session_id) REFERENCES test_sessions (session_id)],
    which SQLite does not enforce unless asked to. *)
Definition foreign_key (db : TestDatabase) (session_ids : list string) : Prop :=
  Forall (fun session_id => In session_id (map ts_session_id (test_sessions db)))
         session_ids.

(** The constraints [_init_database] declares. *)
Definition constraints (db : TestDatabase) : Prop :=
  primary_key (map ts_id (test_sessions db)) (seq_test_sessions db) /\
  primary_key (map lt_id (load_test_results db)) (seq_load_test_results db) /\
  primary_key (map rr_id (request_results db)) (seq_request_results db) /\
  primary_key (map ns_id (network_stats db)) (seq_network_stats db) /\
  NoDup (map ts_session_id (test_sessions db)) /\
  foreign_key db (map lt_session_id (load_test_results db)) /\
  foreign_key db (map rr_session_id (request_results db)) /\
  foreign_key db (map ns_session_id (network_stats db)).

(** The constraints hold and the session named has its header row. *)
Definition with_header (session_id : string) (db : TestDatabase) : Prop :=
  constraints db /\ In session_id (map ts_session_id (test_sessions db)).

(** The rows of [network_stats] that belong to a session. *)
Definition network_rows (db : TestDatabase) (session_id : string)
  : list network_row :=
  List.filter (fun r => String.eqb (ns_session_id r) session_id) (network_stats db).

End Schema.

(** ** [src/engine/load_test.py]: the percentile in IEEE doubles

    Python's [float] is the IEEE 754 binary64 format; the operations
    below are the kernel's binary64 operations, rounding to nearest. *)

Module Binary64.
Import PrimFloat.

(** [float(n)] for an integer below 2^53 in absolute value, where the
    conversion is exact. *)
Definition of_Z (n : Z) : float :=
  if (n <? 0)%Z then opp (of_uint63 (Uint63.of_Z (- n)))
  else of_uint63 (Uint63.of_Z n).

(** [int(k)] for a finite float: truncation toward zero. *)
Definition py_int (k : float) : Z :=
  match FloatOps.Prim2SF k with
  | SpecFloat.S754_finite negative m e =>
      let magnitude :=
        if (0 <=? e)%Z then Z.shiftl (Zpos m) e else Z.shiftr (Zpos m) (- e) in
      if negative then (- magnitude)%Z else magnitude
  | _ => 0%Z
  end.

(** [l[i]], with Python's negative indices. *)
Definition py_index (l : list float) (i : Z) : result float :=
  let n := Z.of_nat (length l) in
  let j := if (i <? 0)%Z then (i + n)%Z else i in
  if (0 <=? j)%Z && (j <? n)%Z then
    match l !! Z.to_nat j with
    | Some x => Ok x
    | None => Raise (IndexError "list index out of range")
    end
  else Raise (IndexError "list index out of range").

(** [max(l)] *)
Definition py_max (l : list float) : result float :=
  match l with
  | [] => Raise (ValueError "max() arg is an empty sequence")
  | x :: rest => Ok (fold_left (fun m y => if ltb m y then y else m) rest x)
  end.

(** The local function [percentile] of [analyze_results], called with
    the integers 50, 95 and 99: [(len(data) - 1) * p] is an integer
    product and [/ 100] the true division of two integers, both below
    2^53, so the quotient is the binary64 quotient of their conversions;
    [k - f] and [1 - c] convert the integer operand first. *)
Definition percentile (data : list float) (p : Z) : result float :=
  let len := Z.of_nat (length data) in
  let k := (of_Z ((len - 1) * p) / of_Z 100)%float in
  let f := py_int k in
  let c := (k - of_Z f)%float in
  if (f <? len - 1)%Z then
    try! lo := py_index data f in
    try! hi := py_index data (f + 1) in
    Ok (lo * (of_Z 1 - c) + hi * c)%float
  else py_index data f.

End Binary64.

(** ** Further concrete inputs *)

Module Cases.
Import Client Runtime.

(** A prompt file of three lines: two questions around a line without
    one. *)
Definition prompt_lines : list string :=
  [Examples.json_text "{'question': 'What is a monad?'}";
   Examples.json_text "{'id': 7}";
   Examples.json_text "{'question': 'Why is the sky blue?'}"].

(** A request template without a placeholder. *)
Definition fixed_template : Json.value :=
  Json.JObj [("model", Json.JStr "gpt"); ("max_tokens", Json.JInt 16);
             ("stop", Json.JArr [Json.JStr "{stop}"])].

(** The prompt source with the cursor on its second prompt. *)
Definition second_prompt : Config.PromptManager :=
  {| Config.prompts := ["a"; "b"; "c"]; Config.current_index := 1 |}.

(** A world whose remote side refuses the first POST after one second
    and answers every later one after two. *)
Definition flaky_world : World :=
  {| prompt_manager := {| Config.prompts := ["a"; "b"; "c"];
                          Config.current_index := 0 |};
     now := 0;
     network := fun n => if (n =? 0)%nat
                         then (Failed (ClientError "Connection reset"), 1%Q)
                         else (Responded 200 "{}", 2%Q);
     posts := 0;
     trace := [] |}.

(** What the tasks of every stage yield, and the clock during a stage. *)
Definition stage_outcomes (stage : nat) : nat -> Engine.gathered :=
  Examples.every_third_raises.

Definition stage_clock (stage n : nat) : Q := inject_Z (Z.of_nat n).

(** Three observations of two operations. *)
Definition observations : list Observer.observation :=
  [ {| Observer.timestamp := 1; Observer.operation := "chat";
       Observer.latency := 3 # 10; Observer.metadata := Json.JObj [] |};
    {| Observer.timestamp := 2; Observer.operation := "embed";
       Observer.latency := 1 # 10; Observer.metadata := Json.JObj [] |};
    {| Observer.timestamp := 3; Observer.operation := "chat";
       Observer.latency := 5 # 10; Observer.metadata := Json.JObj [] |} ].

(** Saving a session ["s2"] of the given stages into [db]. *)
Definition save_second (db : Store.TestDatabase)
           (stages : list Engine.LoadTestResult)
  : Store.TestDatabase * result unit :=
  Store.save_test_session db "s2" "claude" "default" 400 700 stages None None
                          (fun _ => 700%Q).

End Cases.

(** * Properties *)

Import Client.
Local Open Scope list_scope.

(** ** The prompt source rotates *)

Section PromptRotation.
Import Config.

Lemma get_next_prompt_ok (pm : PromptManager) :
  current_index pm < length (prompts pm) ->
  exists p,
    prompts pm !! current_index pm = Some p /\
    get_next_prompt pm
    = Ok (p, {| prompts := prompts pm;
                current_index := (current_index pm + 1) mod length (prompts pm) |}).
Proof.
  intros Hlt. destruct (lookup_lt_is_Some_2 _ _ Hlt) as [p Hp].
  exists p. split; [exact Hp|]. unfold get_next_prompt. now rewrite Hp.
Qed.

Lemma next_prompts_spec (k : nat) :
  forall pm : PromptManager,
    current_index pm < length (prompts pm) ->
    exists ps pm',
      next_prompts k pm = Ok (ps, pm') /\
      prompts pm' = prompts pm /\
      current_index pm' = (current_index pm + k) mod length (prompts pm) /\
      length ps = k /\
      forall j, j < k ->
        ps !! j = prompts pm !! ((current_index pm + j) mod length (prompts pm)).
Proof.
  induction k as [|k IH]; intros pm Hlt.
  - exists [], pm. repeat split; simpl.
    + rewrite Nat.add_0_r. symmetry. now apply Nat.mod_small.
    + intros j Hj. lia.
  - destruct (get_next_prompt_ok pm Hlt) as (p & Hp & Hcall).
    set (L := length (prompts pm)) in *.
    assert (HL : L <> 0) by lia.
    set (pm1 := {| prompts := prompts pm;
                   current_index := (current_index pm + 1) mod L |}) in *.
    assert (Hlt1 : current_index pm1 < length (prompts pm1)).
    { simpl. now apply Nat.mod_upper_bound. }
    destruct (IH pm1 Hlt1) as (ps & pm' & Hrun & Hps & Hci & Hlen & Hnth).
    exists (p :: ps), pm'. simpl in Hps, Hci, Hnth. fold L in Hci, Hnth.
    repeat split.
    + simpl. rewrite Hcall. simpl. rewrite Hrun. reflexivity.
    + exact Hps.
    + rewrite Hci. rewrite Nat.Div0.add_mod_idemp_l. f_equal. lia.
    + simpl. now rewrite Hlen.
    + intros [|j] Hj; simpl.
      * rewrite Nat.add_0_r, Nat.mod_small by exact Hlt. now rewrite Hp.
      * rewrite Hnth by lia. rewrite Nat.Div0.add_mod_idemp_l.
        f_equal. f_equal. lia.
Qed.

(** C7. Prompt rotation.  For a non-empty prompt source of length L,
    built with its cursor at 0: [k] successive calls of
    [get_next_prompt] all return, the call number j+1 returns the
    element at index j mod L, the cursor then stands at k mod L, and any
    single call returns the element under the cursor and moves the
    cursor by one modulo L. *)
Theorem prompt_rotation (loaded : list string) (k : nat) :
  loaded <> [] ->
  exists pm0 ps pm',
    PromptManager_init loaded = Ok pm0 /\
    current_index pm0 = 0 /\
    next_prompts k pm0 = Ok (ps, pm') /\
    length ps = k /\
    (forall j, j < k -> ps !! j = loaded !! (j mod length loaded)) /\
    current_index pm' = k mod length loaded /\
    (forall pm : PromptManager,
        prompts pm = loaded ->
        current_index pm < length loaded ->
        exists p pm1,
          get_next_prompt pm = Ok (p, pm1) /\
          loaded !! current_index pm = Some p /\
          prompts pm1 = loaded /\
          current_index pm1 = (current_index pm + 1) mod length loaded).
Proof.
  intros Hne.
  set (pm0 := {| prompts := loaded; current_index := 0 |}).
  assert (Hlt : current_index pm0 < length (prompts pm0)).
  { simpl. destruct loaded; [congruence | simpl; lia]. }
  destruct (next_prompts_spec k pm0 Hlt) as (ps & pm' & Hrun & _ & Hci & Hlen & Hnth).
  exists pm0, ps, pm'. simpl in Hci, Hnth.
  repeat split; try assumption.
  - unfold PromptManager_init. destruct loaded; [congruence | reflexivity].
  - intros pm Hpm Hcur. rewrite <- Hpm in Hcur.
    destruct (get_next_prompt_ok pm Hcur) as (p & Hp & Hcall).
    eexists p, _. rewrite Hcall, <- Hpm. repeat split. exact Hp.
Qed.

Lemma prompt_rotation_abc :
  ["a"; "b"; "c"] <> [] /\
  exists pm0 pm',
    PromptManager_init ["a"; "b"; "c"] = Ok pm0 /\
    next_prompts 7 pm0 = Ok (["a"; "b"; "c"; "a"; "b"; "c"; "a"], pm') /\
    current_index pm' = 1.
Proof.
  assert (Hne : ["a"; "b"; "c"] <> []) by discriminate.
  split; [exact Hne|].
  destruct (prompt_rotation ["a"; "b"; "c"] 7 Hne)
    as (pm0 & ps & pm' & Hinit & _ & Hrun & _ & _ & Hci & _).
  exists pm0, pm'. split; [exact Hinit|]. split; [|exact Hci].
  rewrite Hrun. inversion Hinit; subst pm0. simpl in Hrun.
  inversion Hrun; subst. reflexivity.
Defined.
End PromptRotation.

(** ** The stage runner returns one outcome per request *)

Section StageRunner.
Import Engine.
Variable outcome : nat -> gathered.
Variable now_at : nat -> Q.

Local Abbreviation emitted := (Engine.emitted outcome now_at).
Local Abbreviation batch_step := (Engine.batch_step outcome now_at).

Lemma collect_seq (n : nat) :
  forall (a : nat) (results : list RequestResult),
    length results = a ->
    fold_left (collect now_at) (map outcome (seq a n)) results
    = results ++ map emitted (seq a n).
Proof.
  induction n as [|n IH]; intros a results Hlen; simpl.
  - now rewrite app_nil_r.
  - rewrite IH.
    + unfold collect, Engine.emitted. rewrite Hlen.
      destruct (outcome a); now rewrite <- app_assoc.
    + unfold collect. destruct (outcome a); rewrite length_app; simpl; lia.
Qed.

Lemma batch_slice (N bs i : nat) :
  take bs (drop i (seq 0 N)) = seq i (Nat.min bs (N - i)).
Proof. rewrite drop_seq, take_seq. reflexivity. Qed.

Lemma batches_prefix (N bs : nat) (m : nat) :
  0 < bs ->
  m <= (N + bs - 1) / bs ->
  fold_left (batch_step N bs) (map (fun j => j * bs) (seq 0 m)) []
  = map emitted (seq 0 (Nat.min (m * bs) N)).
Proof.
  intros Hbs. induction m as [|m IH]; intros Hm; [reflexivity|].
  rewrite seq_S, map_app, fold_left_app, IH by lia. simpl.
  assert (Hlt : m * bs < N).
  { assert (H := Nat.Div0.mul_div_le (N + bs - 1) bs). nia. }
  unfold Engine.batch_step. rewrite batch_slice, collect_seq.
  - rewrite <- map_app. f_equal.
    replace (Nat.min (m * bs) N) with (m * bs) by lia.
    rewrite <- seq_app. f_equal. lia.
  - rewrite length_map, length_seq. lia.
Qed.

Lemma ceil_covers (N bs : nat) : 0 < bs -> N <= (N + bs - 1) / bs * bs.
Proof.
  intros Hbs.
  assert (H := Nat.div_mod_eq (N + bs - 1) bs).
  assert (H' := Nat.mod_upper_bound (N + bs - 1) bs). nia.
Qed.

End StageRunner.

(** ** The stage analyzer *)

Section Sorting.
Lemma Qle_bool_total (a b : Q) : Qle_bool a b = false -> (b <= a)%Q.
Proof.
  intros H. destruct (Qlt_le_dec a b) as [Hlt|Hle]; [|exact Hle].
  apply Qlt_le_weak, Qle_bool_iff in Hlt. congruence.
Qed.

Lemma Qltb_lt (a b : Q) : Qltb a b = true <-> (a < b)%Q.
Proof.
  unfold Qltb. rewrite negb_true_iff. split.
  - intros H. apply Qnot_le_lt. intros Hle. apply Qle_bool_iff in Hle. congruence.
  - intros H. destruct (Qle_bool b a) eqn:E; [|reflexivity].
    apply Qle_bool_iff in E. exfalso. eapply Qlt_not_le; eassumption.
Qed.

Lemma Qltb_ge (a b : Q) : Qltb a b = false <-> (b <= a)%Q.
Proof.
  unfold Qltb. rewrite negb_false_iff. apply Qle_bool_iff.
Qed.

Lemma insert_by_perm {A} (le : A -> A -> bool) (x : A) (l : list A) :
  Permutation (insert_by le x l) (x :: l).
Proof.
  induction l as [|y l IH]; simpl; [reflexivity|].
  destruct (le x y); [reflexivity|].
  rewrite IH. apply perm_swap.
Qed.

Lemma sort_by_perm {A} (le : A -> A -> bool) (l : list A) :
  Permutation (sort_by le l) l.
Proof.
  induction l as [|x l IH]; simpl; [reflexivity|].
  rewrite insert_by_perm. now constructor.
Qed.

Lemma sort_by_length {A} (le : A -> A -> bool) (l : list A) :
  length (sort_by le l) = length l.
Proof. apply Permutation_length, sort_by_perm. Qed.

Lemma insert_sorted_Qle (x : Q) (l : list Q) :
  StronglySorted Qle l -> StronglySorted Qle (insert_by Qle_bool x l).
Proof.
  induction 1 as [|y l Hs IH Hall]; simpl.
  - repeat constructor.
  - destruct (Qle_bool x y) eqn:E.
    + apply Qle_bool_iff in E. constructor; [now constructor|].
      constructor; [exact E|].
      eapply Forall_impl; [exact Hall|]. intros z Hz. simpl in Hz.
      eapply Qle_trans; eassumption.
    + apply Qle_bool_total in E. constructor; [exact IH|].
      rewrite (insert_by_perm Qle_bool x l). now constructor.
Qed.

Lemma py_sorted_sorted (l : list Q) : StronglySorted Qle (py_sorted l).
Proof.
  induction l as [|x l IH]; simpl; [constructor|].
  now apply insert_sorted_Qle.
Qed.

Lemma sorted_nth_le (x : list Q) :
  StronglySorted Qle x ->
  forall i j, (i <= j)%nat -> (j < length x)%nat -> (nth i x 0 <= nth j x 0)%Q.
Proof.
  induction 1 as [|y l Hs IH Hall]; intros i j Hij Hj; simpl in Hj; [lia|].
  destruct j as [|j].
  - assert (i = 0)%nat by lia. subst. apply Qle_refl.
  - destruct i as [|i]; simpl.
    + rewrite Forall_forall in Hall. apply Hall.
      apply list_elem_of_In, nth_In. lia.
    + apply IH; lia.
Qed.
End Sorting.

Section Percentile.
Import Engine.

Lemma py_int_floor (k : Q) : (0 <= k)%Q -> py_int k = Qfloor k.
Proof.
  destruct k as [n d]. unfold Qle, py_int, Qfloor. simpl. intros H.
  apply Z.quot_div_nonneg; lia.
Qed.

Lemma py_index_nth (data : list Q) (i : Z) :
  (0 <= i < Z.of_nat (length data))%Z ->
  py_index data i = Ok (nth (Z.to_nat i) data 0%Q).
Proof.
  intros [H0 H1]. unfold py_index.
  destruct (i <? 0)%Z eqn:E; [lia|].
  replace ((0 <=? i)%Z && (i <? Z.of_nat (length data))%Z) with true
    by (symmetry; apply andb_true_iff; split; lia).
  rewrite nth_lookup.
  destruct (lookup_lt_is_Some_2 data (Z.to_nat i)) as [x Hx]; [lia|].
  now rewrite Hx.
Qed.

Lemma rank_bounds (L : Z) (p : Q) :
  (1 <= L)%Z -> (0 <= p)%Q -> (p <= 100)%Q ->
  (0 <= rank L p)%Q /\ (rank L p <= inject_Z (L - 1))%Q.
Proof.
  intros HL Hp0 Hp1. unfold rank.
  assert (Hn : (0 <= inject_Z (L - 1))%Q).
  { change 0%Q with (inject_Z 0). rewrite <- Zle_Qle. lia. }
  set (n := inject_Z (L - 1)) in *.
  split.
  - apply Qle_shift_div_l; [reflexivity|]. nra.
  - apply Qle_shift_div_r; [reflexivity|]. nra.
Qed.

Lemma rank_floor_bounds (L : Z) (p : Q) :
  (1 <= L)%Z -> (0 <= p)%Q -> (p <= 100)%Q ->
  (0 <= Qfloor (rank L p) <= L - 1)%Z.
Proof.
  intros HL Hp0 Hp1. destruct (rank_bounds L p HL Hp0 Hp1) as [H0 H1]. split.
  - change 0%Z with (Qfloor 0). now apply Qfloor_resp_le.
  - rewrite <- (Qfloor_Z (L - 1)). now apply Qfloor_resp_le.
Qed.

Lemma percentile_refines (data : list Q) (p : Q) :
  data <> [] -> (0 <= p)%Q -> (p <= 100)%Q ->
  percentile data p = Ok (percentile_spec data p).
Proof.
  intros Hne Hp0 Hp1.
  assert (HL : (1 <= Z.of_nat (length data))%Z).
  { destruct data; [congruence | simpl; lia]. }
  destruct (rank_bounds _ p HL Hp0 Hp1) as [Hk0 Hk1].
  destruct (rank_floor_bounds _ p HL Hp0 Hp1) as [Hf0 Hf1].
  unfold percentile, percentile_spec. fold (rank (Z.of_nat (length data)) p).
  rewrite py_int_floor by exact Hk0.
  set (f := Qfloor (rank (Z.of_nat (length data)) p)) in *.
  destruct (f <? Z.of_nat (length data) - 1)%Z eqn:Hlt.
  - destruct (f =? Z.of_nat (length data) - 1)%Z eqn:Heq; [lia|].
    rewrite !py_index_nth by lia. reflexivity.
  - destruct (f =? Z.of_nat (length data) - 1)%Z eqn:Heq; [|lia].
    rewrite py_index_nth by lia. reflexivity.
Qed.

(** The interpolated value lies between its two neighbours. *)
Lemma percentile_spec_between (x : list Q) (p : Q) :
  StronglySorted Qle x -> x <> [] -> (0 <= p)%Q -> (p <= 100)%Q ->
  let f := Qfloor (rank (Z.of_nat (length x)) p) in
  (nth (Z.to_nat f) x 0 <= percentile_spec x p)%Q /\
  (percentile_spec x p
   <= nth (Nat.min (S (Z.to_nat f)) (length x - 1)) x 0)%Q.
Proof.
  intros Hs Hne Hp0 Hp1.
  assert (HL : (1 <= Z.of_nat (length x))%Z).
  { destruct x; [congruence | simpl; lia]. }
  destruct (rank_floor_bounds _ p HL Hp0 Hp1) as [Hf0 Hf1].
  unfold percentile_spec. fold (rank (Z.of_nat (length x)) p).
  set (k := rank (Z.of_nat (length x)) p) in *.
  set (f := Qfloor k) in *. cbv zeta.
  assert (Hc0 : (0 <= k - inject_Z f)%Q).
  { assert (H := Qfloor_le k). fold f in H. lra. }
  assert (Hc1 : (k - inject_Z f < 1)%Q).
  { assert (H := Qlt_floor k). fold f in H.
    rewrite inject_Z_plus in H. change (inject_Z 1) with 1%Q in H. lra. }
  destruct (f =? Z.of_nat (length x) - 1)%Z eqn:Heq.
  - split; [apply Qle_refl|].
    apply sorted_nth_le; [exact Hs | lia | lia].
  - replace (Z.to_nat (f + 1)) with (S (Z.to_nat f)) by lia.
    replace (Nat.min (S (Z.to_nat f)) (length x - 1)) with (S (Z.to_nat f)) by lia.
    assert (Hord : (nth (Z.to_nat f) x 0 <= nth (S (Z.to_nat f)) x 0)%Q).
    { apply sorted_nth_le; [exact Hs | lia | lia]. }
    set (a := nth (Z.to_nat f) x 0%Q) in *.
    set (b := nth (S (Z.to_nat f)) x 0%Q) in *.
    set (c := (k - inject_Z f)%Q) in *.
    split; nra.
Qed.

Lemma percentile_spec_monotone (x : list Q) (p q : Q) :
  StronglySorted Qle x -> x <> [] ->
  (0 <= p)%Q -> (p <= q)%Q -> (q <= 100)%Q ->
  (percentile_spec x p <= percentile_spec x q)%Q.
Proof.
  intros Hs Hne Hp0 Hpq Hq1.
  assert (Hp1 : (p <= 100)%Q) by lra.
  assert (Hq0 : (0 <= q)%Q) by lra.
  assert (HL : (1 <= Z.of_nat (length x))%Z).
  { destruct x; [congruence | simpl; lia]. }
  destruct (rank_floor_bounds _ p HL Hp0 Hp1) as [Hf0 Hf1].
  destruct (rank_floor_bounds _ q HL Hq0 Hq1) as [Hg0 Hg1].
  assert (Hkk : (rank (Z.of_nat (length x)) p <= rank (Z.of_nat (length x)) q)%Q).
  { unfold rank.
    assert (Hn : (0 <= inject_Z (Z.of_nat (length x) - 1))%Q).
    { change 0%Q with (inject_Z 0). rewrite <- Zle_Qle. lia. }
    set (n := inject_Z (Z.of_nat (length x) - 1)) in *.
    apply Qle_shift_div_l; [reflexivity|].
    assert (E : (n * p / 100 * 100 == n * p)%Q) by (field).
    rewrite E. nra. }
  assert (Hfg := Qfloor_resp_le _ _ Hkk).
  destruct (Z.eq_dec (Qfloor (rank (Z.of_nat (length x)) p))
                     (Qfloor (rank (Z.of_nat (length x)) q))) as [Heq|Hneq].
  - unfold percentile_spec. fold (rank (Z.of_nat (length x)) p).
    fold (rank (Z.of_nat (length x)) q).
    set (kp := rank (Z.of_nat (length x)) p) in *.
    set (kq := rank (Z.of_nat (length x)) q) in *.
    cbv zeta. rewrite <- Heq.
    set (f := Qfloor kp) in *.
    destruct (f =? Z.of_nat (length x) - 1)%Z eqn:E; [apply Qle_refl|].
    assert (Hord : (nth (Z.to_nat f) x 0 <= nth (Z.to_nat (f + 1)) x 0)%Q).
    { apply sorted_nth_le; [exact Hs | lia | lia]. }
    set (a := nth (Z.to_nat f) x 0%Q) in *.
    set (b := nth (Z.to_nat (f + 1)) x 0%Q) in *.
    nra.
  - destruct (percentile_spec_between x p Hs Hne Hp0 Hp1) as [_ Hup].
    destruct (percentile_spec_between x q Hs Hne Hq0 Hq1) as [Hlo _].
    cbv zeta in Hup, Hlo.
    eapply Qle_trans; [exact Hup|]. eapply Qle_trans; [|exact Hlo].
    apply sorted_nth_le; [exact Hs | lia | lia].
Qed.
End Percentile.

Section Analyzer.
Import Engine.

Lemma fold_max_ge (l : list Q) (m : Q) :
  (m <= fold_left (fun m y => if Qltb m y then y else m) l m)%Q /\
  Forall (fun y => (y <= fold_left (fun m y => if Qltb m y then y else m) l m)%Q) l.
Proof.
  revert m. induction l as [|y l IH]; intros m; simpl.
  - split; [apply Qle_refl | constructor].
  - destruct (Qltb m y) eqn:E.
    + apply Qltb_lt in E. destruct (IH y) as [H1 H2].
      split; [lra|]. constructor; assumption.
    + apply Qltb_ge in E. destruct (IH m) as [H1 H2].
      split; [exact H1|]. constructor; [lra | exact H2].
Qed.

Lemma py_max_ge (l : list Q) (m : Q) :
  py_max l = Ok m -> Forall (fun y => (y <= m)%Q) l.
Proof.
  destruct l as [|x l]; [discriminate|]. simpl. intros [= <-].
  destruct (fold_max_ge l x) as [H1 H2]. now constructor.
Qed.

Lemma py_sorted_nonempty (l : list Q) : l <> [] -> py_sorted l <> [].
Proof.
  intros Hne Hs. apply (f_equal (@length Q)) in Hs.
  unfold py_sorted in Hs. rewrite sort_by_length in Hs.
  destruct l; [congruence | discriminate].
Qed.

(** The outcome of [analyze_results], field by field. *)
Lemma analyze_results_ok (results : list RequestResult) (C : Z) :
  exists r,
    analyze_results results C = Ok r /\
    total_tokens r = sumZ (map Client.total_tokens (successful_results results)) /\
    avg_tokens_per_request r
    = match successful_results results with
      | _ :: _ => (inject_Z (total_tokens r)
                   / inject_Z (Z.of_nat (length (successful_results results))))%Q
      | [] => 0%Q
      end /\
    tokens_per_second r
    = (if Qltb 0 (total_test_time r)
       then (inject_Z (total_tokens r) / total_test_time r)%Q else 0%Q) /\
    match successful_results results with
    | _ :: _ =>
        let x := py_sorted (map response_time (successful_results results)) in
        p50_response_time r = percentile_spec x 50 /\
        p95_response_time r = percentile_spec x 95 /\
        p99_response_time r = percentile_spec x 99 /\
        py_max x = Ok (max_response_time r)
    | [] =>
        p50_response_time r = 0%Q /\ p95_response_time r = 0%Q /\
        p99_response_time r = 0%Q /\ max_response_time r = 0%Q
    end.
Proof.
  unfold analyze_results. destruct results as [|r0 rs].
  { eexists. split; [reflexivity|]. simpl. repeat split. }
  set (sr := successful_results (r0 :: rs)).
  set (ts := map timestamp (r0 :: rs)).
  set (te := map (fun r => (timestamp r + response_time r)%Q) (r0 :: rs)).
  assert (Hts : exists a b, py_min ts = Ok a /\ py_max te = Ok b).
  { subst ts te. simpl. eauto. }
  destruct Hts as (a & b & Ha & Hb).
  destruct sr as [|s0 sr'] eqn:Hsr.
  - simpl map at 1. cbv beta iota zeta delta [bind].
    subst ts. simpl map at 1. fold (map timestamp rs).
    change (timestamp r0 :: map timestamp rs) with (map timestamp (r0 :: rs)).
    rewrite Ha, Hb. eexists. split; [reflexivity|]. simpl. repeat split.
  - set (x := py_sorted (map response_time (s0 :: sr'))).
    assert (Hx : x <> []) by (apply py_sorted_nonempty; discriminate).
    assert (Hmm : exists mn mx, py_min x = Ok mn /\ py_max x = Ok mx).
    { destruct x; [congruence|]. simpl. eauto. }
    destruct Hmm as (mn & mx & Hmn & Hmx).
    simpl map at 1. cbv beta iota zeta delta [bind].
    change (response_time s0 :: map response_time sr')
      with (map response_time (s0 :: sr')). fold x.
    rewrite Hmn, Hmx.
    rewrite !percentile_refines by (try exact Hx; lra).
    subst ts. simpl map at 1.
    change (timestamp r0 :: map timestamp rs) with (map timestamp (r0 :: rs)).
    rewrite Ha, Hb. eexists. split; [reflexivity|]. simpl. repeat split.
Qed.
End Analyzer.

Section StageAnalyzer.
Import Engine.

(** Percentiles in exact arithmetic.  When at least one outcome is
    successful with a positive latency, the analyzer returns a result
    whose p50, p95 and p99 are the linear-interpolation percentiles of
    the specification taken over the ascending sort of those latencies;
    evaluated without rounding they satisfy p50 <= p95 <= p99 <= max.
    The program evaluates the interpolation in doubles, where the chain
    does not hold: see the section on doubles below. *)
Theorem percentile_monotonicity (results : list RequestResult) (C : Z) :
  successful_results results <> [] ->
  exists r,
    analyze_results results C = Ok r /\
    let x := py_sorted (map response_time (successful_results results)) in
    StronglySorted Qle x /\
    Permutation x (map response_time (successful_results results)) /\
    p50_response_time r = percentile_spec x 50 /\
    p95_response_time r = percentile_spec x 95 /\
    p99_response_time r = percentile_spec x 99 /\
    (p50_response_time r <= p95_response_time r)%Q /\
    (p95_response_time r <= p99_response_time r)%Q /\
    (p99_response_time r <= max_response_time r)%Q.
Proof.
  intros Hne.
  destruct (analyze_results_ok results C) as (r & Hr & _ & _ & _ & Hp).
  exists r. split; [exact Hr|].
  destruct (successful_results results) as [|s0 sr] eqn:Hsr; [congruence|].
  cbv zeta in Hp |- *. destruct Hp as (H50 & H95 & H99 & Hmax).
  set (x := py_sorted (map response_time (s0 :: sr))) in *.
  assert (Hs : StronglySorted Qle x) by apply py_sorted_sorted.
  assert (Hx : x <> []) by (apply py_sorted_nonempty; discriminate).
  split; [exact Hs|]. split; [apply sort_by_perm|].
  rewrite H50, H95, H99. repeat split.
  - apply percentile_spec_monotone; try assumption; lra.
  - apply percentile_spec_monotone; try assumption; lra.
  - assert (H0 : (0 <= 99)%Q) by lra. assert (H1 : (99 <= 100)%Q) by lra.
    destruct (percentile_spec_between x 99 Hs Hx H0 H1) as [_ Hup].
    cbv zeta in Hup. eapply Qle_trans; [exact Hup|].
    apply py_max_ge in Hmax. rewrite Forall_forall in Hmax. apply Hmax.
    apply list_elem_of_In, nth_In.
    assert (0 < length x)%nat by (destruct x; [congruence | simpl; lia]). lia.
Qed.

End StageAnalyzer.

(** ** The percentile as the program evaluates it *)

Section PercentileInDoubles.
Import PrimFloat.
#[local] Set Warnings "-inexact-float".


(** On the four latencies of the first scenario of the specification the
    doubles agree with the exact values to fifteen digits. *)
Example percentile_four_in_doubles :
  Binary64.percentile [0.1; 0.2; 0.3; 0.4]%float 50 = Ok 0.25%float /\
  Binary64.percentile [0.1; 0.2; 0.3; 0.4]%float 95 = Ok 0.38500000000000006%float /\
  Binary64.percentile [0.1; 0.2; 0.3; 0.4]%float 99 = Ok 0.39700000000000008%float.
Proof. vm_compute. repeat split. Qed.
End PercentileInDoubles.

(** ** The session store *)

Section SessionStore.
Import Store.

(** Rows added to a table: the table after is the table before followed
    by [new]. *)
Lemma write_requests_tables sid level reqs db :
  test_sessions (write_requests sid level reqs db) = test_sessions db /\
  load_test_results (write_requests sid level reqs db) = load_test_results db /\
  network_stats (write_requests sid level reqs db) = network_stats db /\
  exists new,
    request_results (write_requests sid level reqs db) = request_results db ++ new /\
    length new = length reqs /\
    Forall (fun r => rr_session_id r = sid) new.
Proof.
  revert db. induction reqs as [|q reqs IH]; intros db; simpl.
  - repeat split. exists []. now rewrite app_nil_r.
  - destruct (IH (insert_request db (request_row_of sid level q)))
      as (H1 & H2 & H3 & new & H4 & H5 & H6).
    unfold write_requests in *. simpl. rewrite H1, H2, H3, H4. simpl.
    repeat split.
    exists (request_row_of sid level q (seq_request_results db + 1) :: new).
    rewrite <- app_assoc. simpl. repeat split; [now rewrite H5|].
    constructor; [reflexivity | exact H6].
Qed.

Lemma write_stages_cons sid r lr db :
  write_stages sid (r :: lr) db
  = write_stages sid lr
      (write_requests sid (Engine.concurrent_level r) (Engine.results r)
                      (insert_stage db (stage_row_of sid r))).
Proof. reflexivity. Qed.

Lemma write_stages_tables sid lr db :
  test_sessions (write_stages sid lr db) = test_sessions db /\
  network_stats (write_stages sid lr db) = network_stats db /\
  (exists new,
      load_test_results (write_stages sid lr db) = load_test_results db ++ new /\
      length new = length lr /\
      Forall (fun r => lt_session_id r = sid) new) /\
  (exists new,
      request_results (write_stages sid lr db) = request_results db ++ new /\
      length new = length (concat (map Engine.results lr)) /\
      Forall (fun r => rr_session_id r = sid) new).
Proof.
  revert db. induction lr as [|r lr IH]; intros db.
  - simpl. repeat split; exists []; now rewrite app_nil_r.
  - rewrite write_stages_cons.
    set (db1 := insert_stage db (stage_row_of sid r)).
    destruct (write_requests_tables sid (Engine.concurrent_level r)
                                    (Engine.results r) db1)
      as (H1 & H2 & H3 & newq & H4 & H5 & H6).
    set (db2 := write_requests sid (Engine.concurrent_level r) (Engine.results r) db1)
      in *.
    destruct (IH db2) as (I1 & I2 & (news & I3 & I4 & I5) & (newr & I6 & I7 & I8)).
    rewrite I1, I2, I3, I6, H1, H2, H3, H4. subst db1. simpl.
    repeat split.
    + exists (stage_row_of sid r (seq_load_test_results db + 1) :: news).
      rewrite <- app_assoc. simpl. repeat split; [now rewrite I4|].
      constructor; [reflexivity | exact I5].
    + exists (newq ++ newr). rewrite <- app_assoc.
      repeat split.
      * rewrite !length_app. now rewrite H5, I7.
      * apply Forall_app. split; assumption.
Qed.

Lemma write_network_tables sid clock ns db :
  test_sessions (write_network sid clock ns db) = test_sessions db /\
  load_test_results (write_network sid clock ns db) = load_test_results db /\
  request_results (write_network sid clock ns db) = request_results db.
Proof.
  unfold write_network. destruct ns as [[|h hs]|]; [auto | | auto].
  generalize (h :: hs) as l. generalize 0%nat as n. intros n l. revert n db.
  induction l as [|[host stats] l IH]; intros n db; simpl; [auto|].
  destruct (IH (S n) (insert_network db (network_row_of sid host (clock n) stats)))
    as (H1 & H2 & H3).
  rewrite H1, H2, H3. auto.
Qed.

Lemma positive_filter_nil (lr : list Engine.LoadTestResult) :
  Forall (fun r => (Engine.avg_response_time r <= 0)%Q) lr ->
  List.filter (fun a => Qltb 0 a) (map Engine.avg_response_time lr) = [].
Proof.
  induction 1 as [|r lr Hr _ IH]; simpl; [reflexivity|].
  apply Qltb_ge in Hr. now rewrite Hr.
Qed.

Lemma positive_filter_cons (lr : list Engine.LoadTestResult) :
  Exists (fun r => (0 < Engine.avg_response_time r)%Q) lr ->
  List.filter (fun a => Qltb 0 a) (map Engine.avg_response_time lr) <> [].
Proof.
  induction 1 as [r lr Hr | r lr _ IH]; simpl.
  - apply Qltb_lt in Hr. now rewrite Hr.
  - destruct (Qltb 0 (Engine.avg_response_time r)); [discriminate | exact IH].
Qed.

Lemma session_summary_ok (lr : list Engine.LoadTestResult) :
  Exists (fun r => (0 < Engine.avg_response_time r)%Q) lr ->
  exists tot suc fai mx,
    session_summary lr
    = Ok (tot, suc, fai,
          (sumQ (List.filter (fun a => Qltb 0 a) (map Engine.avg_response_time lr))
           / inject_Z (Z.of_nat
               (length (List.filter (fun a => Qltb 0 a)
                                    (map Engine.avg_response_time lr)))))%Q,
          mx).
Proof.
  intros Hex. assert (Hne := positive_filter_cons lr Hex).
  unfold session_summary, statistics_mean.
  destruct (List.filter _ _) as [|a l] eqn:E; [congruence|].
  destruct lr as [|r lr]; [inversion Hex|]. simpl. eauto 10.
Qed.

(** C10.  [save_test_session] takes the session average as the mean of
    the per-stage averages that are strictly positive.  When no stage
    has a positive average (an empty stage list, or every request of
    every stage failed) the call raises [StatisticsError] and the
    database is left as it was; otherwise the call returns and the
    header row written last carries that mean. *)
Theorem save_requires_positive_average
        (db : TestDatabase) (session_id api_name test_config : string)
        (start_time end_time : Q) (load_results : list Engine.LoadTestResult)
        (network_stats : option (list (string * Monitor.NetworkStats)))
        (metadata : option Json.value) (clock : nat -> Q) :
  let positive :=
    List.filter (fun a => Qltb 0 a) (map Engine.avg_response_time load_results) in
  let saved :=
    save_test_session db session_id api_name test_config start_time end_time
                      load_results network_stats metadata clock in
  (Forall (fun r => (Engine.avg_response_time r <= 0)%Q) load_results ->
   saved = (db, Raise (StatisticsError "mean requires at least one data point")))
  /\
  (Exists (fun r => (0 < Engine.avg_response_time r)%Q) load_results ->
   exists header,
     snd saved = Ok tt /\
     last (test_sessions (fst saved)) = Some header /\
     ts_session_id header = session_id /\
     ts_avg_response_time header
     = (sumQ positive / inject_Z (Z.of_nat (length positive)))%Q).
Proof.
  cbv zeta. split.
  - intros Hall. unfold save_test_session, session_summary.
    rewrite positive_filter_nil by exact Hall. reflexivity.
  - intros Hex. destruct (session_summary_ok _ Hex) as (tot & suc & fai & mx & Hs).
    unfold save_test_session. rewrite Hs. cbv zeta.
    set (db0 := insert_or_replace_session db _).
    destruct (write_network_tables session_id clock network_stats
                (write_stages session_id load_results db0)) as (N1 & _ & _).
    destruct (write_stages_tables session_id load_results db0) as (S1 & _).
    eexists. split; [reflexivity|]. simpl fst. rewrite N1, S1.
    subst db0. simpl. rewrite last_snoc. repeat split.
Qed.

Lemma filter_all {A} (f : A -> bool) (l : list A) :
  Forall (fun x => f x = true) l -> List.filter f l = l.
Proof.
  induction 1 as [|x l Hx _ IH]; simpl; [reflexivity|]. now rewrite Hx, IH.
Qed.

Lemma replace_session_rows db mk :
  length (session_rows (insert_or_replace_session db mk)
                       (ts_session_id (mk (seq_test_sessions db + 1)%Z))) = 1%nat.
Proof.
  unfold session_rows, insert_or_replace_session. cbv zeta. simpl test_sessions.
  set (sid := ts_session_id (mk (seq_test_sessions db + 1)%Z)).
  rewrite List.filter_app. simpl. unfold sid at 3. rewrite String.eqb_refl.
  rewrite length_app. simpl.
  replace (List.filter _ (List.filter _ (test_sessions db))) with (@nil session_row);
    [reflexivity|].
  symmetry. induction (test_sessions db) as [|r l IH]; simpl; [reflexivity|].
  destruct (String.eqb (ts_session_id r) sid) eqn:E; simpl; [exact IH|].
  now rewrite E.
Qed.

(** What one successful call of [save_test_session] does to the rows of
    its session. *)
Lemma save_effect db sid api cfg st en lr ns md clock :
  Exists (fun r => (0 < Engine.avg_response_time r)%Q) lr ->
  let saved := save_test_session db sid api cfg st en lr ns md clock in
  snd saved = Ok tt /\
  length (session_rows (fst saved) sid) = 1%nat /\
  (exists new, stage_rows (fst saved) sid = stage_rows db sid ++ new /\
               length new = length lr) /\
  (exists new, request_rows (fst saved) sid = request_rows db sid ++ new /\
               length new = length (concat (map Engine.results lr))).
Proof.
  intros Hex. cbv zeta.
  destruct (session_summary_ok _ Hex) as (tot & suc & fai & mx & Hs).
  unfold save_test_session. rewrite Hs. cbv zeta.
  set (mk := session_row_of sid api cfg st en _ md).
  set (db0 := insert_or_replace_session db mk).
  destruct (write_network_tables sid clock ns (write_stages sid lr db0))
    as (N1 & N2 & N3).
  destruct (write_stages_tables sid lr db0)
    as (S1 & _ & (news & S2 & S3 & S4) & (newr & S5 & S6 & S7)).
  simpl fst. simpl snd. split; [reflexivity|].
  unfold session_rows, stage_rows, request_rows.
  rewrite N1, N2, N3, S1, S2, S5. repeat split.
  - apply (replace_session_rows db mk).
  - exists news. split; [|exact S3]. rewrite List.filter_app. f_equal.
    apply filter_all. eapply Forall_impl; [exact S4|].
    intros r Hr. simpl in Hr. rewrite Hr. apply String.eqb_refl.
  - exists newr. split; [|exact S6]. rewrite List.filter_app. f_equal.
    apply filter_all. eapply Forall_impl; [exact S7|].
    intros r Hr. simpl in Hr. rewrite Hr. apply String.eqb_refl.
Qed.

(** C1, on the code.  Saving the same session twice keeps one header
    row for the session id, but the second call adds one more stage row
    per stage and one more request row per outcome to those the first
    call wrote: the child rows of both writes remain. *)
Theorem repeated_save_duplicates_children
        (db : TestDatabase) (session_id api_name test_config : string)
        (start_time end_time : Q) (load_results : list Engine.LoadTestResult)
        (network_stats : option (list (string * Monitor.NetworkStats)))
        (metadata : option Json.value) (clock : nat -> Q) :
  Exists (fun r => (0 < Engine.avg_response_time r)%Q) load_results ->
  let save db :=
    save_test_session db session_id api_name test_config start_time end_time
                      load_results network_stats metadata clock in
  let db1 := fst (save db) in
  let db2 := fst (save db1) in
  snd (save db) = Ok tt /\ snd (save db1) = Ok tt /\
  length (session_rows db1 session_id) = 1%nat /\
  length (session_rows db2 session_id) = 1%nat /\
  (0 < length load_results)%nat /\
  length (select_stages db2 session_id)
  = (length (select_stages db1 session_id) + length load_results)%nat /\
  length (request_rows db2 session_id)
  = (length (request_rows db1 session_id)
     + length (concat (map Engine.results load_results)))%nat.
Proof.
  intros Hex. cbv zeta.
  set (db1 := fst (save_test_session db session_id api_name test_config start_time
                     end_time load_results network_stats metadata clock)).
  destruct (save_effect db session_id api_name test_config start_time end_time
              load_results network_stats metadata clock Hex)
    as (A1 & A2 & _ & _).
  destruct (save_effect db1 session_id api_name test_config start_time end_time
              load_results network_stats metadata clock Hex)
    as (B1 & B2 & (news & B3 & B4) & (newr & B5 & B6)).
  cbv zeta in *. fold db1 in A2.
  split; [exact A1|]. split; [exact B1|]. split; [exact A2|]. split; [exact B2|].
  split; [destruct load_results; [inversion Hex | simpl; lia]|].
  unfold select_stages. rewrite !sort_by_length, B3, B5, !length_app, B4, B6.
  split; reflexivity.
Qed.

Lemma get_load_test_results_raises db sid :
  select_stages db sid <> [] ->
  get_load_test_results db sid
  = Raise (TypeError
             "LoadTestResult.__init__() got an unexpected keyword argument 'id'").
Proof.
  unfold get_load_test_results. destruct (select_stages db sid) as [|row rows]; [congruence|].
  intros _. simpl fold_left at 1.
  change (LoadTestResult_of_row_dict _ row _)
    with (@Raise Engine.LoadTestResult
            (TypeError
               "LoadTestResult.__init__() got an unexpected keyword argument 'id'")).
  simpl bind. induction rows as [|r rows IH]; [reflexivity|]. simpl. exact IH.
Qed.

(** C2, on the code.  After any successful [save_test_session],
    [get_load_test_results] for that session raises [TypeError]: the
    row dictionary carries the columns [id] and [session_id], which the
    constructor of [LoadTestResult] does not accept. *)
Theorem round_trip_raises
        (db : TestDatabase) (session_id api_name test_config : string)
        (start_time end_time : Q) (load_results : list Engine.LoadTestResult)
        (network_stats : option (list (string * Monitor.NetworkStats)))
        (metadata : option Json.value) (clock : nat -> Q) :
  Exists (fun r => (0 < Engine.avg_response_time r)%Q) load_results ->
  let saved :=
    save_test_session db session_id api_name test_config start_time end_time
                      load_results network_stats metadata clock in
  snd saved = Ok tt /\
  get_load_test_results (fst saved) session_id
  = Raise (TypeError
             "LoadTestResult.__init__() got an unexpected keyword argument 'id'").
Proof.
  intros Hex. cbv zeta.
  destruct (save_effect db session_id api_name test_config start_time end_time
              load_results network_stats metadata clock Hex)
    as (A1 & _ & (news & A3 & A4) & _).
  cbv zeta in *. split; [exact A1|].
  apply get_load_test_results_raises. intros Hnil.
  apply (f_equal (@length stage_row)) in Hnil. unfold select_stages in Hnil.
  rewrite sort_by_length, A3, length_app, A4 in Hnil.
  destruct load_results; [inversion Hex | simpl in Hnil; lia].
Qed.
End SessionStore.

(** ** The session analyzer *)

Section SessionAnalyzer.
Import Store Analyzer.

Lemma declines_at_iff (df : list frame_row) (i : nat) :
  declines_at df i = true <-> rps_drops df i.
Proof.
  unfold declines_at, rps_drops. split.
  - destruct (df !! i) as [cur|]; [|discriminate].
    destruct (df !! (i - 1)%nat) as [prev|]; [|discriminate].
    intros H. apply Qltb_lt in H. eauto.
  - intros (cur & prev & -> & -> & H). now apply Qltb_lt.
Qed.

Lemma find_seq_first (p : nat -> bool) (n : nat) :
  forall a i,
    (a <= i < a + n)%nat -> p i = true ->
    (forall j, (a <= j < i)%nat -> p j = false) ->
    List.find p (seq a n) = Some i.
Proof.
  induction n as [|n IH]; intros a i Hi Hp Hbefore; [lia|]. simpl.
  destruct (Nat.eq_dec a i) as [->|Hne].
  - now rewrite Hp.
  - rewrite (Hbefore a) by lia. apply IH; [lia | exact Hp |].
    intros j Hj. apply Hbefore. lia.
Qed.

Lemma find_seq_none (p : nat -> bool) (n : nat) :
  forall a, (forall j, (a <= j < a + n)%nat -> p j = false) ->
            List.find p (seq a n) = None.
Proof.
  induction n as [|n IH]; intros a H; [reflexivity|]. simpl.
  rewrite (H a) by lia. apply IH. intros j Hj. apply H. lia.
Qed.

Lemma decline_point_eq (db : TestDatabase) (sid : string) :
  decline_point (analyze_concurrency_impact db sid)
  = if (2 <? length (read_frame db sid))%nat
    then find_decline (read_frame db sid) else None.
Proof.
  unfold analyze_concurrency_impact.
  destruct (read_frame db sid) as [|r df]; reflexivity.
Qed.

(** C5, as amended.  With the stage rows of a session ordered by
    concurrency level: when there are at most two stages no decline
    point is reported; when there are more than two, the decline point
    is stage i-1 for the first index i >= 1 whose throughput is below
    95% of that of stage i-1, and none is reported when there is no such
    index. *)
Theorem throughput_decline_detection (db : TestDatabase) (session_id : string) :
  let df := read_frame db session_id in
  let reported := decline_point (analyze_concurrency_impact db session_id) in
  ((length df <= 2)%nat -> reported = None) /\
  ((2 < length df)%nat ->
   forall i, (1 <= i < length df)%nat ->
             rps_drops df i ->
             (forall j, (1 <= j < i)%nat -> ~ rps_drops df j) ->
             reported = df !! (i - 1)%nat /\ is_Some (df !! (i - 1)%nat)) /\
  ((2 < length df)%nat ->
   (forall i, (1 <= i < length df)%nat -> ~ rps_drops df i) ->
   reported = None).
Proof.
  cbv zeta. rewrite decline_point_eq.
  set (df := read_frame db session_id). split; [|split].
  - intros Hlen. destruct (2 <? length df)%nat eqn:E; [|reflexivity].
    apply Nat.ltb_lt in E. lia.
  - intros Hlen i Hi Hdrop Hfirst.
    destruct (2 <? length df)%nat eqn:E; [|apply Nat.ltb_ge in E; lia].
    split; [|apply lookup_lt_is_Some_2; lia].
    unfold find_decline.
    rewrite (find_seq_first (declines_at df) (length df - 1) 1 i); [reflexivity | lia | |].
    + now apply declines_at_iff.
    + intros j Hj. destruct (declines_at df j) eqn:Ed; [|reflexivity].
      apply declines_at_iff in Ed. exfalso. apply (Hfirst j); [lia | exact Ed].
  - intros Hlen Hnone.
    destruct (2 <? length df)%nat eqn:E; [|reflexivity].
    unfold find_decline. rewrite find_seq_none; [reflexivity|].
    intros j Hj. destruct (declines_at df j) eqn:Ed; [|reflexivity].
    apply declines_at_iff in Ed. exfalso. apply (Hnone j); [lia | exact Ed].
Qed.
End SessionAnalyzer.

(** ** The request executor *)

Section RequestExecutor.
Import Json.

Lemma wait_exponential_bounds (n : nat) :
  (1 <= Tenacity.wait_exponential 1 1 10 n)%Q /\
  (Tenacity.wait_exponential 1 1 10 n <= 10)%Q.
Proof.
  unfold Tenacity.wait_exponential. cbv zeta. split.
  - eapply Qle_trans; [|apply Q.le_max_l]. apply Q.le_max_r.
  - apply Q.max_lub.
    + apply Q.max_lub; lra.
    + apply Q.le_min_r.
Qed.

(** The events of one call of [make_request]: at most three POSTs, with
    a pause between consecutive ones. *)
Lemma retry_bound (w : World) :
  let p := posts w in
  let pause := Tenacity.wait_exponential 1 1 10 in
  exists evs,
    trace (fst (make_request w)) = trace w ++ evs /\
    (evs = [Post p] \/
     evs = [Post p; Sleep (pause 1%nat); Post (S p)] \/
     evs = [Post p; Sleep (pause 1%nat); Post (S p); Sleep (pause 2%nat);
            Post (S (S p))]).
Proof.
  cbv zeta.
  unfold make_request, Tenacity.retry, Tenacity.retrying, make_request_attempt,
    bindM, try_except, time_time, post, sleep, ret, raise. simpl.
  destruct (network w (posts w)) as [[st tx|e] d]; simpl.
  { eexists. split; [reflexivity|]. auto. }
  destruct (network w (S (posts w))) as [[st tx|e2] d2]; simpl.
  { eexists. split; [rewrite <- !app_assoc; reflexivity|]. auto. }
  destruct (network w (S (S (posts w)))) as [[st tx|e3] d3]; simpl.
  all: eexists; (split; [rewrite <- !app_assoc; reflexivity|]); auto.
Qed.

(** A response, whatever its status, ends [make_request] at once. *)
Lemma response_not_retried (w : World) (status : Z) (text : string) (d : Q) :
  network w (posts w) = (Responded status text, d) ->
  exists w',
    make_request w = (w', Ok (status, text, (now w + d - now w)%Q)) /\
    trace w' = trace w ++ [Post (posts w)] /\
    prompt_manager w' = prompt_manager w.
Proof.
  intros H.
  unfold make_request, Tenacity.retry, Tenacity.retrying, make_request_attempt,
    bindM, try_except, time_time, post, sleep, ret, raise. simpl.
  rewrite H. simpl. eexists. repeat split.
Qed.

(** An exception on every attempt: three POSTs, then [RetryError]. *)
Lemma retries_exhausted (w : World) (e1 e2 e3 : exn) (d1 d2 d3 : Q) :
  network w (posts w) = (Failed e1, d1) ->
  network w (S (posts w)) = (Failed e2, d2) ->
  network w (S (S (posts w))) = (Failed e3, d3) ->
  snd (make_request w) = Raise (RetryError (str_exn e3)) /\
  posts (fst (make_request w)) = (posts w + 3)%nat.
Proof.
  intros H1 H2 H3.
  unfold make_request, Tenacity.retry, Tenacity.retrying, make_request_attempt,
    bindM, try_except, time_time, post, sleep, ret, raise. simpl.
  rewrite H1. simpl. rewrite H2. simpl. rewrite H3. simpl. split; [reflexivity | lia].
Qed.

(** What [send_single_request] returns when the first POST is answered. *)
Lemma send_single_request_response
      (api_config : APIEndpoint) (endpoint : string) (w : World)
      (prompt : string) (pm' : Config.PromptManager)
      (url : string) (headers : list (string * string)) (body : value)
      (status : Z) (text : string) (d : Q) :
  Config.get_next_prompt (prompt_manager w) = Ok (prompt, pm') ->
  format_url api_config endpoint = Ok url ->
  format_headers api_config = Ok headers ->
  format_request_body api_config prompt = Ok body ->
  network w (posts w) = (Responded status text, d) ->
  exists w' r,
    send_single_request api_config endpoint w = (w', Ok r) /\
    trace w' = trace w ++ [Post (posts w)] /\
    match _extract_token_info text with
    | Ok _ =>
        status_code r = status /\
        success r = ((200 <=? status)%Z && (status <? 300)%Z) /\
        error_message r = None
    | Raise e =>
        status_code r = 0%Z /\ success r = false /\
        error_message r = Some (str_exn e)
    end.
Proof.
  intros Hp Hu Hh Hb Hn.
  unfold send_single_request, bindM, try_except, next_prompt, time_time, lift, ret.
  rewrite Hp. simpl. rewrite Hu, Hh, Hb.
  set (w1 := {| prompt_manager := pm'; now := now w; network := network w;
                posts := posts w; trace := trace w |}).
  destruct (response_not_retried w1 status text d Hn) as (w' & Hm & Ht & _).
  rewrite Hm. destruct (_extract_token_info text) as [[[i o] t]|e]; simpl.
  - eexists _, _. split; [reflexivity|]. split; [exact Ht|]. repeat split.
  - eexists _, _. split; [reflexivity|]. split; [exact Ht|]. repeat split.
Qed.

(** C4, on the code.  A single POST answered with status 500 and body
    [null] is not retried, and the outcome returned is a failed one, but
    its status code is 0, not 500: token extraction raises on that body
    and the handler of [send_single_request] builds the outcome. *)
Theorem non_2xx_status_lost :
  exists w' r,
    send_single_request Examples.profile "chat"
      (Examples.world (Responded 500 "null") (1 # 2)) = (w', Ok r) /\
    trace w' = [Post 0] /\
    _extract_token_info "null"
    = Raise (TypeError "argument of type 'NoneType' is not iterable") /\
    status_code r = 0%Z /\
    success r = false /\
    error_message r = Some "argument of type 'NoneType' is not iterable".
Proof. eexists _, _. vm_compute. repeat split. Qed.

Lemma json_loads_raises (s : string) (e : exn) :
  json_loads s = Raise e -> e = JSONDecodeError.
Proof.
  unfold json_loads. destruct (parse_value _ _) as [[v rest]|]; [|congruence].
  destruct (skip_ws rest); congruence.
Qed.

Lemma py_add_raises (a b : value) (e : exn) :
  py_add a b = Raise e -> exists m, e = TypeError m.
Proof.
  unfold py_add.
  destruct (as_number a), (as_number b); try discriminate;
    destruct a, b; intros [= <-]; eauto.
Qed.

(** [_extract_token_info] on a body that is not JSON, and on a JSON
    object whose [usage], when present, is an object. *)
Lemma token_parsing_object (body : string) :
  let zero := (JInt 0, JInt 0, JInt 0) in
  let get u k := default (JInt 0) (dict_get k u) in
  match json_loads body with
  | Raise _ => _extract_token_info body = Ok zero
  | Ok (JObj members) =>
      match dict_get "usage" members with
      | None => _extract_token_info body = Ok zero
      | Some (JObj u) =>
          match dict_get "prompt_tokens" u, dict_get "input_tokens" u with
          | Some _, _ =>
              _extract_token_info body
              = Ok (get u "prompt_tokens", get u "completion_tokens",
                    get u "total_tokens")
          | None, Some _ =>
              _extract_token_info body
              = match py_add (get u "input_tokens") (get u "output_tokens") with
                | Ok total => Ok (get u "input_tokens", get u "output_tokens", total)
                | Raise e => Raise e
                end
          | None, None => _extract_token_info body = Ok zero
          end
      | Some _ => True
      end
  | Ok _ => True
  end.
Proof.
  cbv zeta. unfold _extract_token_info, token_info_body.
  destruct (json_loads body) as [v|e] eqn:Hl.
  - destruct v; try exact I. simpl.
    destruct (dict_get "usage" members) as [u|] eqn:Hu; [|reflexivity].
    rewrite bool_decide_eq_true_2 by eauto.
    destruct u; try exact I. simpl.
    destruct (dict_get "prompt_tokens" members0) as [x|] eqn:Hpt.
    + rewrite bool_decide_eq_true_2 by eauto. reflexivity.
    + rewrite bool_decide_eq_false_2 by (intros [? ?]; discriminate).
      destruct (dict_get "input_tokens" members0) as [y|] eqn:Hit.
      * rewrite bool_decide_eq_true_2 by eauto. simpl.
        destruct (py_add _ _) as [t|e] eqn:Ha; [reflexivity|].
        apply py_add_raises in Ha. destruct Ha as [m ->]. reflexivity.
      * rewrite bool_decide_eq_false_2 by (intros [? ?]; discriminate).
        reflexivity.
  - apply json_loads_raises in Hl. subst e. reflexivity.
Qed.

(** C6, on the code.  The bodies [null], [17] and the object whose
    [usage] is [null] are valid JSON without a usage object, and
    [_extract_token_info] raises [TypeError] on each of them. *)
Theorem token_parsing_raises :
  json_loads "null" = Ok JNull /\
  _extract_token_info "null"
  = Raise (TypeError "argument of type 'NoneType' is not iterable") /\
  json_loads (Examples.json_text "{'usage': null}") = Ok (JObj [("usage", JNull)]) /\
  _extract_token_info (Examples.json_text "{'usage': null}")
  = Raise (TypeError "argument of type 'NoneType' is not iterable") /\
  _extract_token_info "17"
  = Raise (TypeError "argument of type 'int' is not iterable").
Proof. vm_compute. repeat split. Qed.

Example token_parsing_openai :
  _extract_token_info
    (Examples.json_text
       "{'usage':{'prompt_tokens':10,'completion_tokens':20,'total_tokens':30}}")
  = Ok (JInt 10, JInt 20, JInt 30).
Proof. vm_compute. reflexivity. Qed.

Example token_parsing_claude :
  _extract_token_info
    (Examples.json_text "{'usage':{'input_tokens':10,'output_tokens':20}}")
  = Ok (JInt 10, JInt 20, JInt 30).
Proof. vm_compute. reflexivity. Qed.

Example token_parsing_empty_object :
  _extract_token_info "{}" = Ok (JInt 0, JInt 0, JInt 0).
Proof. vm_compute. reflexivity. Qed.

Example token_parsing_not_json :
  _extract_token_info "<html>Bad Gateway</html>" = Ok (JInt 0, JInt 0, JInt 0).
Proof. vm_compute. reflexivity. Qed.
End RequestExecutor.

(** ** The properties at concrete inputs *)

Section Scenarios.


Lemma stage_needs_positive_concurrency (outcome : nat -> Engine.gathered)
      (now_at : nat -> Q) (N : Z) :
  Engine.run_concurrent_requests outcome now_at 0 N
  = Raise (ValueError "range() arg 3 must not be zero").
Proof. reflexivity. Qed.


(** The four latencies 0.1 .. 0.4 of the first scenario of the
    specification. *)
Lemma percentile_monotonicity_four :
  Engine.successful_results Examples.four_answered <> [] /\
  exists r,
    Engine.analyze_results Examples.four_answered 2 = Ok r /\
    Engine.p50_response_time r = Engine.percentile_spec
                                   [1 # 10; 2 # 10; 3 # 10; 4 # 10] 50 /\
    (Engine.p50_response_time r == 25 # 100)%Q /\
    (Engine.p95_response_time r == 385 # 1000)%Q /\
    (Engine.p99_response_time r == 397 # 1000)%Q /\
    (Engine.p50_response_time r <= Engine.p95_response_time r)%Q /\
    (Engine.p95_response_time r <= Engine.p99_response_time r)%Q /\
    (Engine.p99_response_time r <= Engine.max_response_time r)%Q.
Proof.
  assert (Hne : Engine.successful_results Examples.four_answered <> [])
    by discriminate.
  split; [exact Hne|].
  destruct (percentile_monotonicity Examples.four_answered 2 Hne)
    as (r & Hr & _ & _ & H50 & _ & _ & Ha & Hb & Hc).
  exists r. split; [exact Hr|]. split; [exact H50|].
  split; [|split; [|split; [|split; [exact Ha | split; [exact Hb | exact Hc]]]]].
  all: vm_compute in Hr; injection Hr as <-; reflexivity.
Defined.


(** Two stages whose throughput falls from 10 to 5: a drop at index 1,
    and no decline point in the analysis. *)
Lemma two_stage_decline_not_reported :
  length (Analyzer.read_frame Examples.db_sweep2 "s1") = 2%nat /\
  Analyzer.rps_drops (Analyzer.read_frame Examples.db_sweep2 "s1") 1 /\
  (forall j, (1 <= j < 1)%nat ->
             ~ Analyzer.rps_drops (Analyzer.read_frame Examples.db_sweep2 "s1") j) /\
  is_Some (Analyzer.read_frame Examples.db_sweep2 "s1" !! (1 - 1)%nat) /\
  Analyzer.decline_point
    (Analyzer.analyze_concurrency_impact Examples.db_sweep2 "s1") = None /\
  Analyzer.decline_point
    (Analyzer.analyze_concurrency_impact Examples.db_sweep2 "s1")
  <> Analyzer.read_frame Examples.db_sweep2 "s1" !! (1 - 1)%nat.
Proof.
  split; [reflexivity|]. split.
  { eexists _, _. split; [reflexivity|]. split; [reflexivity|]. reflexivity. }
  split; [intros j Hj; lia|]. split; [eexists; reflexivity|].
  split; [reflexivity | discriminate].
Qed.

(** The sweep of the fifth scenario of the specification: throughput
    10, 40, 30 at levels 1, 5, 10; the decline point is level 5. *)
Lemma throughput_decline_three_stages :
  (2 < length (Analyzer.read_frame Examples.db_sweep3 "s1"))%nat /\
  (1 <= 2 < length (Analyzer.read_frame Examples.db_sweep3 "s1"))%nat /\
  Analyzer.rps_drops (Analyzer.read_frame Examples.db_sweep3 "s1") 2 /\
  (forall j, (1 <= j < 2)%nat ->
             ~ Analyzer.rps_drops (Analyzer.read_frame Examples.db_sweep3 "s1") j) /\
  exists row,
    Analyzer.decline_point
      (Analyzer.analyze_concurrency_impact Examples.db_sweep3 "s1") = Some row /\
    Analyzer.concurrent_level row = 5%Z.
Proof.
  set (db := Examples.db_sweep3).
  assert (Hlen : (2 < length (Analyzer.read_frame db "s1"))%nat)
    by (vm_compute; lia).
  assert (Hi : (1 <= 2 < length (Analyzer.read_frame db "s1"))%nat)
    by (vm_compute; lia).
  assert (Hdrop : Analyzer.rps_drops (Analyzer.read_frame db "s1") 2).
  { eexists _, _. split; [reflexivity|]. split; [reflexivity|]. reflexivity. }
  assert (Hfirst : forall j, (1 <= j < 2)%nat ->
                             ~ Analyzer.rps_drops (Analyzer.read_frame db "s1") j).
  { intros j Hj (cur & prev & Hc & Hp & Hlt).
    assert (j = 1%nat) by lia. subst j.
    vm_compute in Hc. vm_compute in Hp.
    injection Hc as <-. injection Hp as <-. vm_compute in Hlt. discriminate. }
  split; [exact Hlen|]. split; [exact Hi|]. split; [exact Hdrop|].
  split; [exact Hfirst|].
  destruct (throughput_decline_detection db "s1") as (_ & Hrep & _).
  destruct (Hrep Hlen 2%nat Hi Hdrop Hfirst) as [Heq _].
  eexists. split; [rewrite Heq; reflexivity | reflexivity].
Defined.

(** A session in which every request failed is not saved. *)
Lemma failed_session_not_saved :
  Forall (fun r => (Engine.avg_response_time r <= 0)%Q) [Examples.failed_stage] /\
  Examples.save Store.empty_database [Examples.failed_stage]
  = (Store.empty_database,
     Raise (StatisticsError "mean requires at least one data point")).
Proof.
  assert (H : Forall (fun r => (Engine.avg_response_time r <= 0)%Q)
                     [Examples.failed_stage]).
  { repeat constructor. simpl. apply Qle_refl. }
  split; [exact H|].
  exact (proj1 (save_requires_positive_average Store.empty_database "s1" "openai"
                  "default" 0 300 [Examples.failed_stage] None None
                  (fun _ => 300%Q)) H).
Defined.

(** Saving the three-stage sweep twice under one session id. *)
Lemma sweep_saved_twice :
  Exists (fun r => (0 < Engine.avg_response_time r)%Q) Examples.sweep3 /\
  length (Store.session_rows Examples.db_sweep3_twice "s1") = 1%nat /\
  length (Store.select_stages Examples.db_sweep3 "s1") = 3%nat /\
  length (Store.select_stages Examples.db_sweep3_twice "s1") = 6%nat /\
  length (Store.request_rows Examples.db_sweep3 "s1") = 3%nat /\
  length (Store.request_rows Examples.db_sweep3_twice "s1") = 6%nat.
Proof.
  unfold Examples.db_sweep3_twice, Examples.db_sweep3.
  assert (H : Exists (fun r => (0 < Engine.avg_response_time r)%Q) Examples.sweep3).
  { constructor. reflexivity. }
  split; [exact H|].
  destruct (repeated_save_duplicates_children Store.empty_database "s1" "openai"
              "default" 0 300 Examples.sweep3 None None (fun _ => 300%Q) H)
    as (_ & _ & _ & Hh & _ & Hs & Hr).
  cbv zeta in Hh, Hs, Hr. unfold Examples.save.
  split; [exact Hh|]. split; [reflexivity|].
  split; [rewrite Hs; reflexivity|]. split; [reflexivity|].
  rewrite Hr. reflexivity.
Defined.

(** Reading the saved sweep back. *)
Lemma sweep_read_back_raises :
  Exists (fun r => (0 < Engine.avg_response_time r)%Q) Examples.sweep3 /\
  snd (Examples.save Store.empty_database Examples.sweep3) = Ok tt /\
  Store.get_load_test_results
    (fst (Examples.save Store.empty_database Examples.sweep3)) "s1"
  = Raise (TypeError
             "LoadTestResult.__init__() got an unexpected keyword argument 'id'").
Proof.
  assert (H : Exists (fun r => (0 < Engine.avg_response_time r)%Q) Examples.sweep3).
  { constructor. reflexivity. }
  split; [exact H|].
  exact (round_trip_raises Store.empty_database "s1" "openai" "default" 0 300
           Examples.sweep3 None None (fun _ => 300%Q) H).
Defined.
End Scenarios.

(** ** The statistics of a stage *)

Section StageStatistics.
Import Engine.

Lemma fold_min_le (l : list Q) (m : Q) :
  (fold_left (fun m y => if Qltb y m then y else m) l m <= m)%Q /\
  Forall (fun y => (fold_left (fun m y => if Qltb y m then y else m) l m <= y)%Q) l.
Proof.
  revert m. induction l as [|y l IH]; intros m; simpl.
  - split; [apply Qle_refl | constructor].
  - destruct (Qltb y m) eqn:E.
    + apply Qltb_lt in E. destruct (IH y) as [H1 H2].
      split; [lra|]. constructor; assumption.
    + apply Qltb_ge in E. destruct (IH m) as [H1 H2].
      split; [exact H1|]. constructor; [lra | exact H2].
Qed.

Lemma py_min_le (l : list Q) (m : Q) :
  py_min l = Ok m -> Forall (fun y => (m <= y)%Q) l.
Proof.
  destruct l as [|x l]; [discriminate|]. simpl. intros [= <-].
  destruct (fold_min_le l x) as [H1 H2]. now constructor.
Qed.



Lemma sumQ_from (l : list Q) (a : Q) : (fold_left Qplus l a == a + sumQ l)%Q.
Proof.
  unfold sumQ. revert a. induction l as [|x l IH]; intros a; simpl; [lra|].
  rewrite (IH (a + x)%Q), (IH (0 + x)%Q). lra.
Qed.

Lemma sumQ_cons (x : Q) (l : list Q) : (sumQ (x :: l) == x + sumQ l)%Q.
Proof. unfold sumQ at 1. simpl. rewrite sumQ_from. lra. Qed.

Lemma sumQ_bounds (l : list Q) (lo hi : Q) :
  Forall (fun y => (lo <= y)%Q) l -> Forall (fun y => (y <= hi)%Q) l ->
  (inject_Z (Z.of_nat (length l)) * lo <= sumQ l)%Q /\
  (sumQ l <= inject_Z (Z.of_nat (length l)) * hi)%Q.
Proof.
  induction l as [|x l IH]; intros Hlo Hhi.
  - unfold sumQ. simpl. change (inject_Z (Z.of_nat 0)) with 0%Q. split; lra.
  - inversion Hlo as [|? ? Hx Hl]; inversion Hhi as [|? ? Hx' Hl']; subst.
    destruct (IH Hl Hl') as [I1 I2].
    rewrite sumQ_cons. simpl length.
    rewrite Nat2Z.inj_succ, <- Z.add_1_r, inject_Z_plus.
    change (inject_Z 1) with 1%Q. split; nra.
Qed.

Lemma mean_between (l : list Q) (lo hi : Q) :
  l <> [] ->
  Forall (fun y => (lo <= y)%Q) l -> Forall (fun y => (y <= hi)%Q) l ->
  (lo <= sumQ l / inject_Z (Z.of_nat (length l)))%Q /\
  (sumQ l / inject_Z (Z.of_nat (length l)) <= hi)%Q.
Proof.
  intros Hne Hlo Hhi. destruct (sumQ_bounds l lo hi Hlo Hhi) as [H1 H2].
  assert (Hn : (0 < inject_Z (Z.of_nat (length l)))%Q).
  { change 0%Q with (inject_Z 0). rewrite <- Zlt_Qlt.
    destruct l; [congruence | simpl; lia]. }
  split.
  - apply Qle_shift_div_l; [exact Hn|]. lra.
  - apply Qle_shift_div_r; [exact Hn|]. lra.
Qed.

(** The remaining fields of the outcome of [analyze_results]. *)
Lemma analyze_results_fields (results : list RequestResult) (C : Z) :
  exists r,
    analyze_results results C = Ok r /\
    concurrent_level r = C /\
    Engine.results r = results /\
    total_requests r = Z.of_nat (length results) /\
    successful_requests r = Z.of_nat (length (List.filter success results)) /\
    failed_requests r = (total_requests r - successful_requests r)%Z /\
    error_rate r
    = (if (0 <? total_requests r)%Z
       then (inject_Z (failed_requests r) / inject_Z (total_requests r))%Q
       else 0%Q) /\
    requests_per_second r
    = (if Qltb 0 (total_test_time r)
       then (inject_Z (successful_requests r) / total_test_time r)%Q else 0%Q) /\
    timeout_count r
    = Z.of_nat (length (List.filter (fun o => Qltb 1200 (response_time o)) results)) /\
    match successful_results results with
    | _ :: _ =>
        let x := py_sorted (map response_time (successful_results results)) in
        avg_response_time r = (sumQ x / inject_Z (Z.of_nat (length x)))%Q /\
        py_min x = Ok (min_response_time r) /\
        py_max x = Ok (max_response_time r) /\
        p50_response_time r = percentile_spec x 50
    | [] =>
        avg_response_time r = 0%Q /\ min_response_time r = 0%Q /\
        max_response_time r = 0%Q /\ p50_response_time r = 0%Q
    end /\
    match results with
    | _ :: _ =>
        exists a b,
          py_min (map timestamp results) = Ok a /\
          py_max (map (fun o => (timestamp o + response_time o)%Q) results) = Ok b /\
          total_test_time r = (b - a)%Q
    | [] => total_test_time r = 0%Q
    end.
Proof.
  unfold analyze_results. destruct results as [|r0 rs].
  { eexists. split; [reflexivity|]. simpl. repeat split. }
  set (sr := successful_results (r0 :: rs)).
  set (ts := map timestamp (r0 :: rs)).
  set (te := map (fun r => (timestamp r + response_time r)%Q) (r0 :: rs)).
  assert (Hts : exists a b, py_min ts = Ok a /\ py_max te = Ok b).
  { subst ts te. simpl. eauto. }
  destruct Hts as (a & b & Ha & Hb).
  destruct sr as [|s0 sr'] eqn:Hsr.
  - simpl map at 1. cbv beta iota zeta delta [bind].
    subst ts. simpl map at 1.
    change (timestamp r0 :: map timestamp rs) with (map timestamp (r0 :: rs)).
    rewrite Ha, Hb. eexists. split; [reflexivity|]. simpl.
    repeat split. exists a, b. repeat split; assumption.
  - set (x := py_sorted (map response_time (s0 :: sr'))).
    assert (Hx : x <> []) by (apply py_sorted_nonempty; discriminate).
    assert (Hmm : exists mn mx, py_min x = Ok mn /\ py_max x = Ok mx).
    { destruct x; [congruence|]. simpl. eauto. }
    destruct Hmm as (mn & mx & Hmn & Hmx).
    simpl map at 1. cbv beta iota zeta delta [bind].
    change (response_time s0 :: map response_time sr')
      with (map response_time (s0 :: sr')). fold x.
    rewrite Hmn, Hmx.
    rewrite !percentile_refines by (try exact Hx; lra).
    subst ts. simpl map at 1.
    change (timestamp r0 :: map timestamp rs) with (map timestamp (r0 :: rs)).
    rewrite Ha, Hb. eexists. split; [reflexivity|]. simpl.
    repeat split. exists a, b. repeat split; assumption.
Qed.

Lemma filter_length_le {A} (f : A -> bool) (l : list A) :
  (length (List.filter f l) <= length l)%nat.
Proof.
  induction l as [|x l IH]; simpl; [lia|]. destruct (f x); simpl; lia.
Qed.


End StageStatistics.

(** ** The prompt file *)

Section PromptFileLoading.
Import Json PromptFile.

Lemma read_lines_objects (lines : list string) :
  Forall (fun line => exists members, json_loads (strip line) = Ok (JObj members))
         lines ->
  forall prompts,
    read_lines lines prompts = Ok (prompts ++ omap question_of lines).
Proof.
  induction 1 as [|line lines [members Hl] _ IH]; intros prompts; simpl.
  - now rewrite app_nil_r.
  - unfold question_of at 1. rewrite Hl. simpl.
    destruct (dict_get "question" members) as [q|] eqn:Hq.
    + rewrite bool_decide_eq_true_2 by eauto. simpl. rewrite IH.
      now rewrite <- app_assoc.
    + rewrite bool_decide_eq_false_2 by (intros [? ?]; discriminate).
      apply IH.
Qed.

(** X4. When every line of the prompt file decodes to a JSON object, the
    prompts loaded are the [question] values of the lines that have one,
    in file order; lines without the key are skipped, and a file without
    any question is rejected with [ValueError]. *)
Theorem load_prompts_objects (lines : list string) :
  Forall (fun line => exists members, json_loads (strip line) = Ok (JObj members))
         lines ->
  _load_prompts lines
  = match omap question_of lines with
    | [] => Raise (ValueError "no valid question found in the prompt file")
    | q :: qs => Ok (q :: qs)
    end.
Proof.
  intros H. unfold _load_prompts. rewrite (read_lines_objects lines H []).
  simpl. now destruct (omap question_of lines).
Qed.

(** X5. A line of white space only makes the load fail with
    [JSONDecodeError], whatever follows it, when the lines before it
    decode to objects. *)
Theorem load_prompts_blank_line (before after : list string) (blank : string) :
  Forall (fun line => exists members, json_loads (strip line) = Ok (JObj members))
         before ->
  strip blank = EmptyString ->
  _load_prompts (before ++ blank :: after) = Raise JSONDecodeError.
Proof.
  intros Hb Hblank. unfold _load_prompts.
  assert (H : forall prompts,
             read_lines (before ++ blank :: after) prompts = Raise JSONDecodeError).
  { induction Hb as [|line lines [members Hl] _ IH]; intros prompts; simpl.
    - rewrite Hblank. reflexivity.
    - rewrite Hl. simpl.
      destruct (dict_get "question" members) as [q|] eqn:Hq.
      + rewrite bool_decide_eq_true_2 by eauto. simpl. apply IH.
      + rewrite bool_decide_eq_false_2 by (intros [? ?]; discriminate).
        apply IH. }
  now rewrite H.
Qed.
End PromptFileLoading.

(** ** The request body *)

Section RequestBody.
Import Json Profile.

Lemma value_ind_nested (P : value -> Prop) :
  P JNull -> (forall b, P (JBool b)) -> (forall n, P (JInt n)) ->
  (forall q, P (JFloat q)) -> (forall l, P (JNonFinite l)) ->
  (forall s, P (JStr s)) ->
  (forall items, Forall P items -> P (JArr items)) ->
  (forall members, Forall (fun kv => P (snd kv)) members -> P (JObj members)) ->
  forall v, P v.
Proof.
  intros Hnull Hbool Hint Hfloat Hnf Hstr Harr Hobj.
  fix IH 1. intros [| b | n | q | l | s | items | members];
    [exact Hnull | apply Hbool | apply Hint | apply Hfloat | apply Hnf | apply Hstr | |].
  - apply Harr. induction items as [|x items IHi]; constructor; [apply IH | exact IHi].
  - apply Hobj. induction members as [|[k x] members IHm]; constructor;
      [apply IH | exact IHm].
Qed.

(** X6. Rendering the body changes the text of string leaves only. *)
Theorem format_request_body_keeps_structure (request_format : value) (prompt : string) :
  skeleton (format_request_body request_format prompt) = skeleton request_format.
Proof.
  unfold format_request_body. cbv zeta.
  induction request_format as [| | | | | | items IH | members IH]
    using value_ind_nested; try reflexivity.
  - simpl. f_equal.
    induction IH as [|x items Hx _ IHi]; simpl; [reflexivity|].
    now rewrite Hx, IHi.
  - simpl. f_equal.
    induction IH as [|[k x] members Hx _ IHm]; simpl; [reflexivity|].
    simpl in Hx. now rewrite Hx, IHm.
Qed.

Lemma strip_prefix_not_substring (old s : string) :
  is_substring old s = false -> strip_prefix old s = None.
Proof.
  destruct s; simpl; destruct (strip_prefix old _); congruence.
Qed.

Lemma replace_absent (old new s : string) :
  is_substring old s = false -> str_replace old new s = s.
Proof.
  unfold str_replace. induction s as [|c s IH]; intros H; [reflexivity|].
  simpl replace_from. rewrite (strip_prefix_not_substring _ _ H).
  f_equal. apply IH. simpl in H.
  destruct (strip_prefix old (String c s)); [discriminate | exact H].
Qed.

(** X7. A template none of whose strings contains the placeholder is
    rendered unchanged, for every prompt. *)
Theorem format_request_body_without_placeholder
        (request_format : value) (prompt : string) :
  mentions_prompt request_format = false ->
  format_request_body request_format prompt = request_format.
Proof.
  unfold format_request_body. cbv zeta.
  induction request_format as [| | | | | s | items IH | members IH]
    using value_ind_nested; intros Hm; try reflexivity.
  - simpl in *. f_equal. now apply replace_absent.
  - simpl in *. f_equal.
    induction IH as [|x items Hx _ IHi]; simpl in *; [reflexivity|].
    apply orb_false_iff in Hm. destruct Hm as [H1 H2].
    now rewrite Hx, IHi.
  - simpl in *. f_equal.
    induction IH as [|[k x] members Hx _ IHm]; simpl in *; [reflexivity|].
    apply orb_false_iff in Hm. destruct Hm as [H1 H2].
    now rewrite Hx, IHm.
Qed.
End RequestBody.

Section PlaceholderText.
Import Json Profile.

Lemma replace_from_skip (old new post : string) (dropped : string) :
  replace_from old new (String.length dropped) (dropped ++ post)%string
  = replace_from old new 0 post.
Proof.
  induction dropped as [|c d IH]; simpl; [|exact IH].
  destruct post; reflexivity.
Qed.

Lemma replace_from_no_match (old new : string) (c : ascii) (r : string) :
  strip_prefix old (String c r) = None ->
  replace_from old new 0 (String c r) = String c (replace_from old new 0 r).
Proof. intros H. simpl. destruct (strip_prefix old (String c r)); congruence. Qed.

Lemma strip_prefix_first (a c : ascii) (old r : string) :
  Ascii.eqb a c = false -> strip_prefix (String a old) (String c r) = None.
Proof. intros H. simpl. now rewrite H. Qed.

(** X8. In a string leaf, the first placeholder after a brace-free prefix
    is replaced by the prompt as it is: the text before is kept, the
    prompt is inserted without being scanned again, and replacement goes
    on in the text after the placeholder. *)
Theorem placeholder_replaced_verbatim (prefix suffix prompt : string) :
  brace_free prefix = true ->
  format_request_body (JStr (prefix ++ "{prompt}" ++ suffix)%string) prompt
  = JStr (prefix ++ prompt ++ str_replace "{prompt}" prompt suffix)%string.
Proof.
  intros Hfree. unfold format_request_body. cbv zeta. simpl. f_equal.
  unfold str_replace. induction prefix as [|c prefix IH].
  - change (replace_from "{prompt}" prompt 0 ("" ++ "{prompt}" ++ suffix)%string)
      with (prompt ++ replace_from "{prompt}" prompt (String.length "prompt}")
                                   ("prompt}" ++ suffix))%string.
    now rewrite replace_from_skip.
  - simpl in Hfree. apply andb_true_iff in Hfree. destruct Hfree as [Hc Hfree].
    apply negb_true_iff in Hc.
    change ((String c prefix ++ "{prompt}" ++ suffix)%string)
      with (String c (prefix ++ "{prompt}" ++ suffix)%string).
    rewrite Ascii.eqb_sym in Hc.
    rewrite replace_from_no_match
      by (apply (strip_prefix_first "{"%char c "prompt}"); exact Hc).
    change ((String c prefix ++ prompt ++ replace_from "{prompt}" prompt 0 suffix)%string)
      with (String c (prefix ++ prompt ++ replace_from "{prompt}" prompt 0 suffix)%string).
    f_equal. now apply IH.
Qed.
End PlaceholderText.

(** ** Batches and the staged load test *)

Section Batches.
Import Engine LoadEngine.

Lemma run_concurrent_requests_emitted (outcome : nat -> gathered) (now_at : nat -> Q)
      (concurrent_level total_requests : Z) :
  (1 <= concurrent_level)%Z ->
  run_concurrent_requests outcome now_at concurrent_level total_requests
  = Ok (map (emitted outcome now_at) (seq 0 (Z.to_nat total_requests))).
Proof.
  intros HC. unfold run_concurrent_requests.
  destruct (concurrent_level <? 0)%Z eqn:Hneg; [lia|].
  set (N := Z.to_nat total_requests).
  set (bs := Z.to_nat (Z.min (concurrent_level * 2) 100)).
  assert (Hbs : (0 < bs)%nat) by (unfold bs; lia).
  unfold py_range. rewrite length_seq.
  destruct (bs =? 0)%nat eqn:Hz; [apply Nat.eqb_eq in Hz; lia|].
  simpl. f_equal.
  change (fold_left _ _ []) with
    (fold_left (batch_step outcome now_at N bs)
               (map (fun j => (j * bs)%nat) (seq 0 ((N + bs - 1) / bs))) []).
  rewrite batches_prefix by lia.
  assert (Hc := ceil_covers N bs Hbs).
  now replace (Nat.min ((N + bs - 1) / bs * bs) N) with N by lia.
Qed.

Lemma send_batch_requests_emitted (outcome : nat -> gathered) (now_at : nat -> Q)
      (request_count : Z) :
  send_batch_requests outcome now_at request_count
  = map (emitted outcome now_at) (seq 0 (Z.to_nat request_count)).
Proof.
  unfold send_batch_requests. cbv zeta.
  change (fold_left _ (List.map outcome (seq 0 (Z.to_nat request_count))) [])
    with (fold_left (collect now_at)
                    (map outcome (seq 0 (Z.to_nat request_count))) []).
  now rewrite collect_seq.
Qed.

(** X9. [send_batch_requests] returns one outcome per request, in task
    order, and for every concurrency level of at least 1 the stage runner
    returns the same list: batching and the semaphore do not change what
    is collected. *)
Theorem batching_is_transparent (outcome : nat -> gathered) (now_at : nat -> Q)
        (concurrent_level count : Z) :
  (1 <= concurrent_level)%Z ->
  length (send_batch_requests outcome now_at count) = Z.to_nat count /\
  run_concurrent_requests outcome now_at concurrent_level count
  = Ok (send_batch_requests outcome now_at count).
Proof.
  intros HC. rewrite send_batch_requests_emitted.
  split; [now rewrite length_map, length_seq|].
  now apply run_concurrent_requests_emitted.
Qed.

Lemma sleep_if_run (guard : bool) (seconds : Z) (w : World) :
  exists w',
    sleep_if guard seconds w = (w', Ok tt) /\
    trace w' = trace w ++ (if guard then [Sleep (inject_Z seconds)] else []) /\
    posts w' = posts w /\ prompt_manager w' = prompt_manager w.
Proof.
  unfold sleep_if, sleep, ret. destruct guard; eexists; split; try reflexivity; simpl.
  - repeat split.
  - rewrite app_nil_r. repeat split.
Qed.




Lemma run_stages_raises (outcome : nat -> nat -> gathered) (now_at : nat -> nat -> Q)
      (count : nat) (N R D : Z) (before after : list Z) (bad : Z) :
  Forall (fun c => (1 <= c)%Z) before -> (bad <= 0)%Z ->
  forall (i : nat) (results : list LoadTestResult) (w : World),
    exists msg,
      snd (run_stages outcome now_at count N R D i (before ++ bad :: after) results w)
      = Raise (ValueError msg).
Proof.
  intros Hb Hbad. induction Hb as [|c levels Hc _ IH]; intros i results w.
  - simpl app. simpl run_stages. unfold bindM at 1.
    destruct (sleep_if_run (0 <? R)%Z R w) as (w1 & Hs1 & _).
    rewrite Hs1. unfold bindM at 1, time_time at 1. unfold bindM at 1, lift at 1.
    unfold run_concurrent_requests.
    destruct (bad <? 0)%Z eqn:E; [simpl; eauto|].
    apply Z.ltb_ge in E. assert (bad = 0%Z) by lia. subst bad. simpl. eauto.
  - simpl app. simpl run_stages. unfold bindM at 1.
    destruct (sleep_if_run (0 <? R)%Z R w) as (w1 & Hs1 & _).
    rewrite Hs1. unfold bindM at 1, time_time at 1. unfold bindM at 1, lift at 1.
    rewrite (run_concurrent_requests_emitted (outcome i) (now_at i) c N Hc).
    unfold bindM at 1, lift at 1.
    destruct (analyze_results_fields
                (map (emitted (outcome i) (now_at i)) (seq 0 (Z.to_nat N))) c)
      as (r & Hr & _).
    rewrite Hr. unfold bindM at 1.
    destruct (sleep_if_run ((0 <? D)%Z && (Z.of_nat i <? Z.of_nat count - 1)%Z) D w1)
      as (w2 & Hs2 & _).
    rewrite Hs2. apply IH.
Qed.

(** X11. A concurrency level of 0 or less anywhere in the list makes
    [run_load_test] raise [ValueError] when that stage is reached: the
    results of the stages run before it are not returned. *)
Theorem run_load_test_bad_level (outcome : nat -> nat -> gathered)
        (now_at : nat -> nat -> Q) (before after : list Z) (bad : Z)
        (requests_per_level ramp_up_time cool_down_time : Z) (w : World) :
  Forall (fun c => (1 <= c)%Z) before -> (bad <= 0)%Z ->
  exists msg,
    snd (run_load_test outcome now_at (before ++ bad :: after) requests_per_level
                       ramp_up_time cool_down_time w)
    = Raise (ValueError msg).
Proof. intros Hb Hbad. unfold run_load_test. now apply run_stages_raises. Qed.
End Batches.

(** ** One request, from prompt to outcome *)

Section SingleRequest.
Import Json.

Lemma make_request_frame (w : World) :
  (posts w <= posts (fst (make_request w)) <= posts w + 3)%nat /\
  prompt_manager (fst (make_request w)) = prompt_manager w.
Proof.
  unfold make_request, Tenacity.retry, Tenacity.retrying, make_request_attempt,
    bindM, try_except, time_time, post, sleep, ret, raise. simpl.
  destruct (network w (posts w)) as [[st tx|e] d]; simpl; [split; [lia | reflexivity]|].
  destruct (network w (S (posts w))) as [[st tx|e2] d2]; simpl;
    [split; [lia | reflexivity]|].
  destruct (network w (S (S (posts w)))) as [[st tx|e3] d3]; simpl;
    split; try lia; reflexivity.
Qed.

(** X12. With the cursor of the prompt source in range, [send_single_request]
    never raises: it returns one outcome, stamped with the time of the
    call and carrying the prompt under the cursor, moves the cursor by one
    modulo the number of prompts, and issues at most three POSTs.  In the
    outcome, [success] holds exactly for a status from 200 to 299, and an
    outcome with an error message has status 0. *)
Theorem send_single_request_outcome
        (api_config : APIEndpoint) (endpoint : string) (w : World) :
  (Config.current_index (prompt_manager w)
   < length (Config.prompts (prompt_manager w)))%nat ->
  exists w' r,
    send_single_request api_config endpoint w = (w', Ok r) /\
    Config.prompts (prompt_manager w) !! Config.current_index (prompt_manager w)
    = Some (prompt r) /\
    timestamp r = now w /\
    Config.prompts (prompt_manager w') = Config.prompts (prompt_manager w) /\
    Config.current_index (prompt_manager w')
    = ((Config.current_index (prompt_manager w) + 1)
       mod length (Config.prompts (prompt_manager w)))%nat /\
    (posts w <= posts w' <= posts w + 3)%nat /\
    success r = ((200 <=? status_code r)%Z && (status_code r <? 300)%Z) /\
    (error_message r = None \/ (status_code r = 0%Z /\ response_content r = "")).
Proof.
  intros Hcur. destruct (get_next_prompt_ok _ Hcur) as (p & Hp & Hcall).
  unfold send_single_request, bindM at 1, next_prompt. rewrite Hcall.
  set (w1 := {| prompt_manager := _; now := now w; network := network w;
                posts := posts w; trace := trace w |}).
  unfold bindM at 1, time_time at 1. unfold try_except.
  assert (Hfail : forall (w2 : World) (e : exn),
             prompt_manager w2 = prompt_manager w1 ->
             (posts w <= posts w2 <= posts w + 3)%nat ->
             exists w' r,
               (do! t := time_time in
                ret {| timestamp := now w1; prompt := p;
                       response_time := (t - now w1)%Q; status_code := 0;
                       success := false; response_content := "";
                       error_message := Some (str_exn e); input_tokens := 0;
                       output_tokens := 0; total_tokens := 0;
                       content_length := 0 |}) w2 = (w', Ok r) /\
               Config.prompts (prompt_manager w) !! Config.current_index (prompt_manager w)
               = Some (prompt r) /\
               timestamp r = now w /\
               Config.prompts (prompt_manager w') = Config.prompts (prompt_manager w) /\
               Config.current_index (prompt_manager w')
               = ((Config.current_index (prompt_manager w) + 1)
                  mod length (Config.prompts (prompt_manager w)))%nat /\
               (posts w <= posts w' <= posts w + 3)%nat /\
               success r = ((200 <=? status_code r)%Z && (status_code r <? 300)%Z) /\
               (error_message r = None
                \/ (status_code r = 0%Z /\ response_content r = ""))).
  { intros w2 e Hpm Hposts. unfold bindM, time_time, ret.
    eexists _, _. split; [reflexivity|]. simpl. rewrite Hpm. simpl.
    repeat split; try assumption; try lia. right. split; reflexivity. }
  assert (Hw1 : (posts w <= posts w1 <= posts w + 3)%nat) by (simpl; lia).
  unfold bindM at 1, lift at 1.
  destruct (format_url api_config endpoint) as [url|e]; [|now apply Hfail].
  unfold bindM at 1, lift at 1.
  destruct (format_headers api_config) as [hs|e]; [|now apply Hfail].
  unfold bindM at 1, lift at 1.
  destruct (format_request_body api_config p) as [body|e]; [|now apply Hfail].
  unfold bindM at 1.
  destruct (make_request_frame w1) as [Hposts Hpm].
  destruct (make_request w1) as [w2 [[[st tx] rt]|e]]; simpl in Hposts, Hpm;
    [|now apply Hfail].
  unfold bindM at 1, lift at 1.
  destruct (_extract_token_info tx) as [[[i o] t]|e]; [|now apply Hfail].
  unfold ret. eexists _, _. split; [reflexivity|]. simpl. rewrite Hpm. simpl.
  repeat split; try assumption; try lia. now left.
Qed.

(** X13. Take a request whose prompt, URL, headers and body are
    obtained without error, whose first POST fails and whose second is
    answered.  It is sent twice with one back-off pause between, and the
    caller has waited for the first attempt, the pause and the second
    attempt.  When token extraction returns on the reply, the outcome
    carries the status of the reply and its latency is the duration of
    the second attempt alone; when token extraction raises on the reply,
    the outcome is built by the handler, with status 0 and the whole time
    since the request was issued as latency. *)
Theorem retried_request_latency
        (api_config : APIEndpoint) (endpoint : string) (w : World)
        (prompt : string) (pm' : Config.PromptManager)
        (url : string) (headers : list (string * string)) (body : value)
        (e : exn) (d1 d2 : Q) (status : Z) (text : string) :
  Config.get_next_prompt (prompt_manager w) = Ok (prompt, pm') ->
  format_url api_config endpoint = Ok url ->
  format_headers api_config = Ok headers ->
  format_request_body api_config prompt = Ok body ->
  network w (posts w) = (Failed e, d1) ->
  network w (S (posts w)) = (Responded status text, d2) ->
  exists w' r,
    send_single_request api_config endpoint w = (w', Ok r) /\
    trace w'
    = trace w ++ [Post (posts w); Sleep (Tenacity.wait_exponential 1 1 10 1);
                  Post (S (posts w))] /\
    (now w' - timestamp r == d1 + Tenacity.wait_exponential 1 1 10 1 + d2)%Q /\
    match _extract_token_info text with
    | Ok _ =>
        status_code r = status /\ error_message r = None /\
        (response_time r == d2)%Q
    | Raise raised =>
        status_code r = 0%Z /\ error_message r = Some (str_exn raised) /\
        (response_time r == d1 + Tenacity.wait_exponential 1 1 10 1 + d2)%Q
    end.
Proof.
  intros Hp Hu Hh Hb Hn1 Hn2.
  unfold send_single_request, bindM, try_except, next_prompt, time_time, lift, ret.
  rewrite Hp. simpl. rewrite Hu, Hh, Hb.
  unfold make_request, Tenacity.retry, Tenacity.retrying, make_request_attempt,
    bindM, try_except, time_time, post, sleep, ret, raise. simpl.
  rewrite Hn1. simpl. rewrite Hn2. simpl.
  destruct (_extract_token_info text) as [[[i o] t]|raised].
  - eexists _, _. split; [reflexivity|]. simpl.
    split; [now rewrite <- !app_assoc|]. split; [ring|].
    split; [reflexivity|]. split; [reflexivity | ring].
  - eexists _, _. split; [reflexivity|]. simpl.
    split; [now rewrite <- !app_assoc|]. split; [ring|].
    split; [reflexivity|]. split; [reflexivity | ring].
Qed.
End SingleRequest.

(** ** A full turn of the prompt source *)

Section PromptCycle.
Import Config.

(** X14. From any cursor in range, as many calls of [get_next_prompt] as
    there are prompts return every prompt once, starting with the one
    under the cursor and wrapping round, and leave the prompt source as
    it was. *)
Theorem prompt_full_cycle (pm : PromptManager) :
  (current_index pm < length (prompts pm))%nat ->
  next_prompts (length (prompts pm)) pm
  = Ok (drop (current_index pm) (prompts pm) ++ take (current_index pm) (prompts pm),
        pm) /\
  Permutation (drop (current_index pm) (prompts pm)
               ++ take (current_index pm) (prompts pm)) (prompts pm).
Proof.
  intros Hlt. split.
  - destruct (next_prompts_spec (length (prompts pm)) pm Hlt)
      as (ps & pm' & Hrun & Hps & Hci & Hlen & Hnth).
    rewrite Hrun. f_equal. f_equal.
    + apply list_eq. intros j.
      destruct (Nat.lt_ge_cases j (length (prompts pm))) as [Hj|Hj].
      * rewrite Hnth by exact Hj.
        destruct (Nat.lt_ge_cases j (length (prompts pm) - current_index pm)) as [Hs|Hs].
        -- rewrite lookup_app_l by (rewrite length_drop; lia).
           rewrite lookup_drop. f_equal. apply Nat.mod_small. lia.
        -- rewrite lookup_app_r by (rewrite length_drop; lia).
           rewrite length_drop, lookup_take_lt by lia. f_equal.
           replace (current_index pm + j)%nat
             with ((j - (length (prompts pm) - current_index pm))
                   + 1 * length (prompts pm))%nat by lia.
           rewrite Nat.Div0.mod_add. apply Nat.mod_small. lia.
      * rewrite (lookup_ge_None_2 ps) by lia.
        symmetry. apply lookup_ge_None_2.
        rewrite length_app, length_drop, length_take. lia.
    + destruct pm as [l c], pm' as [l' c']. simpl in *. subst l'. f_equal.
      rewrite Hci. replace (c + length l)%nat with (c + 1 * length l)%nat by lia.
      rewrite Nat.Div0.mod_add. apply Nat.mod_small. exact Hlt.
  - rewrite Permutation_app_comm. now rewrite take_drop.
Qed.
End PromptCycle.

(** ** The host prober *)

Section HostProber.
Import Prober.

Lemma store_result_invariant (hist kept : list PingResult) (r : PingResult) :
  kept `suffix_of` hist ->
  (length kept <= 1000)%nat ->
  (Nat.min (length hist) 500 <= length kept)%nat ->
  store_result kept r `suffix_of` (hist ++ [r]) /\
  (length (store_result kept r) <= 1000)%nat /\
  (Nat.min (length (hist ++ [r])) 500 <= length (store_result kept r))%nat.
Proof.
  intros [k ->] Hlen Hmin. unfold store_result. cbv zeta.
  rewrite !length_app in *. simpl length in *.
  destruct (1000 <? length kept + 1)%nat eqn:E.
  - apply Nat.ltb_lt in E. split; [|rewrite length_drop, length_app; simpl; lia].
    exists (k ++ take (length kept + 1 - 500) (kept ++ [r])).
    rewrite <- !app_assoc. f_equal. now rewrite take_drop.
  - apply Nat.ltb_ge in E. split; [|rewrite length_app; simpl; lia].
    exists k. now rewrite <- app_assoc.
Qed.

Lemma retained_invariant (samples : list PingResult) :
  fold_left store_result samples [] `suffix_of` samples /\
  (length (fold_left store_result samples []) <= 1000)%nat /\
  (Nat.min (length samples) 500 <= length (fold_left store_result samples []))%nat.
Proof.
  induction samples as [|r samples IH] using rev_ind.
  - simpl. split; [reflexivity | lia].
  - rewrite fold_left_app. simpl. destruct IH as (H1 & H2 & H3).
    now apply store_result_invariant.
Qed.

Lemma record_round_spec (pairs : list (string * probed)) :
  forall ping_results : gmap string (list PingResult),
    Forall (fun pair => is_Some (ping_results !! pair.1)) pairs ->
    exists after,
      record_round pairs ping_results = (after, Ok tt) /\
      forall target,
        after !! target
        = (fun kept => fold_left store_result (round_samples pairs target) kept)
            <$> ping_results !! target.
Proof.
  induction pairs as [|[t [r|e]] pairs IH]; intros store Hkeys.
  - exists store. split; [reflexivity|]. intros target. simpl.
    now destruct (store !! target).
  - inversion Hkeys as [|? ? [kept Hk] Hrest]; subst. simpl in Hk.
    simpl record_round. rewrite Hk.
    destruct (IH (<[t := store_result kept r]> store)) as (after & Hrun & Hspec).
    { eapply Forall_impl; [exact Hrest|]. intros pair [l Hl]. simpl in *.
      destruct (decide (t = pair.1)) as [->|Hne].
      - rewrite lookup_insert_eq. eauto.
      - rewrite lookup_insert_ne by exact Hne. eauto. }
    exists after. split; [exact Hrun|]. intros target. rewrite Hspec. simpl.
    destruct (String.eqb_spec t target) as [->|Hne].
    + rewrite lookup_insert_eq, Hk. reflexivity.
    + rewrite lookup_insert_ne by exact Hne. reflexivity.
  - inversion Hkeys as [|? ? _ Hrest]; subst. simpl record_round.
    destruct (IH store Hrest) as (after & Hrun & Hspec).
    exists after. split; [exact Hrun|]. intros target. now rewrite Hspec.
Qed.

Lemma zip_keys (targets : list string) (results : list probed)
      (store : gmap string (list PingResult)) :
  Forall (fun t => is_Some (store !! t)) targets ->
  Forall (fun pair => is_Some (store !! pair.1)) (zip targets results).
Proof.
  intros H. revert results. induction H as [|t targets Ht _ IH]; intros results.
  - constructor.
  - destruct results as [|r results]; simpl; constructor; [exact Ht | apply IH].
Qed.

Lemma monitor_rounds_spec (targets : list string) (rounds : list (list probed)) :
  forall store : gmap string (list PingResult),
    Forall (fun t => is_Some (store !! t)) targets ->
    forall target,
      monitor_rounds targets rounds store !! target
      = (fun kept => fold_left store_result (history targets rounds target) kept)
          <$> store !! target.
Proof.
  induction rounds as [|results rounds IH]; intros store Hkeys target.
  - simpl. now destruct (store !! target).
  - simpl monitor_rounds.
    destruct (record_round_spec (zip targets results) store (zip_keys _ _ _ Hkeys))
      as (after & Hrun & Hspec).
    rewrite Hrun. rewrite IH.
    + rewrite Hspec. unfold history. simpl flat_map. fold (history targets rounds target).
      destruct (store !! target); simpl; [|reflexivity].
      now rewrite fold_left_app.
    + eapply Forall_impl; [exact Hkeys|]. intros t [l Hl]. simpl.
      rewrite Hspec, Hl. simpl. eauto.
Qed.

Lemma initial_store_lookup (targets : list string) (target : string) :
  (list_to_map (List.map (fun t => (t, @nil PingResult)) targets)
   : gmap string (list PingResult)) !! target
  = if decide (target ∈ targets) then Some [] else None.
Proof.
  induction targets as [|t targets IH].
  - simpl. rewrite lookup_empty. destruct (decide (target ∈ [])) as [H|H]; [inversion H | reflexivity].
  - simpl List.map. rewrite list_to_map_cons.
    destruct (decide (t = target)) as [->|Hne].
    + rewrite lookup_insert_eq. destruct (decide (target ∈ target :: targets)) as [H|H]; [reflexivity|].
      exfalso. apply H. left.
    + rewrite lookup_insert_ne by exact Hne. rewrite IH.
      destruct (decide (target ∈ targets)) as [H|H];
        destruct (decide (target ∈ t :: targets)) as [H'|H']; try reflexivity.
      * exfalso. apply H'. now right.
      * exfalso. apply H. inversion H'; subst; [congruence | assumption].
Qed.

(** X15. After any number of monitoring rounds the dict has an entry for
    exactly the targets given.  The list kept for a target is a suffix of
    all the samples taken for it: it never holds more than 1000 samples,
    and it holds at least the latest 500 (all of them while there are
    fewer). *)
Theorem monitoring_keeps_recent_samples
        (targets : list string) (rounds : list (list probed)) (target : string) :
  match start_monitoring targets rounds !! target with
  | Some kept =>
      target ∈ targets /\
      kept `suffix_of` history targets rounds target /\
      (length kept <= 1000)%nat /\
      (Nat.min (length (history targets rounds target)) 500 <= length kept)%nat
  | None => target ∉ targets
  end.
Proof.
  unfold start_monitoring. rewrite monitor_rounds_spec.
  - rewrite initial_store_lookup. destruct (decide (target ∈ targets)) as [H|H]; simpl.
    + split; [exact H|]. apply retained_invariant.
    + exact H.
  - apply Forall_forall. intros t Ht. rewrite initial_store_lookup.
    destruct (decide (t ∈ targets)); [eauto | contradiction].
Qed.
End HostProber.

Section HostStatistics.
Import Prober.

Lemma adjacent_differences_bounds (response_times : list Q) (lo hi : Q) :
  Forall (fun y => (lo <= y)%Q) response_times ->
  Forall (fun y => (y <= hi)%Q) response_times ->
  Forall (fun d => (0 <= d)%Q) (adjacent_differences response_times) /\
  Forall (fun d => (d <= hi - lo)%Q) (adjacent_differences response_times).
Proof.
  intros Hlo Hhi. unfold adjacent_differences.
  assert (H : forall i, In i (seq 1 (length response_times - 1)) ->
                        (0 <= Qabs (nth i response_times 0 - nth (i - 1) response_times 0))%Q /\
                        (Qabs (nth i response_times 0 - nth (i - 1) response_times 0) <= hi - lo)%Q).
  { intros i Hi. apply in_seq in Hi. split; [apply Qabs_nonneg|].
    rewrite Forall_forall in Hlo, Hhi.
    assert (Ha : In (nth i response_times 0%Q) response_times) by (apply nth_In; lia).
    assert (Hb : In (nth (i - 1) response_times 0%Q) response_times) by (apply nth_In; lia).
    apply list_elem_of_In in Ha, Hb.
    pose proof (Hlo _ Ha). pose proof (Hhi _ Ha).
    pose proof (Hlo _ Hb). pose proof (Hhi _ Hb).
    apply Qabs_Qle_condition. split; lra. }
  split; apply Forall_forall; intros d Hd; apply list_elem_of_In, in_map_iff in Hd;
    destruct Hd as (i & <- & Hi); apply H; exact Hi.
Qed.

(** X16. [get_network_stats] never raises.  It returns [None] exactly for
    a target without an entry or without samples; otherwise the counts
    add up, success rate and packet loss add up to 1, the average lies
    between the minimum and the maximum, and the jitter lies between 0
    and their difference. *)
Theorem network_stats_consistent
        (sqrt : Q -> Q) (ping_results : gmap string (list PingResult))
        (target : string) :
  match ping_results !! target with
  | None | Some [] => get_network_stats sqrt ping_results target = Ok None
  | Some results =>
      exists st,
        get_network_stats sqrt ping_results target = Ok (Some (st, results)) /\
        Monitor.host st = target /\
        Monitor.total_pings st = Z.of_nat (length results) /\
        Monitor.successful_pings st
        = Z.of_nat (length (List.filter success results)) /\
        (Monitor.successful_pings st + Monitor.failed_pings st
         = Monitor.total_pings st)%Z /\
        (0 <= Monitor.failed_pings st)%Z /\
        (Monitor.success_rate st + Monitor.packet_loss st == 1)%Q /\
        (0 <= Monitor.success_rate st)%Q /\
        (Monitor.min_response_time st <= Monitor.avg_response_time st)%Q /\
        (Monitor.avg_response_time st <= Monitor.max_response_time st)%Q /\
        (0 <= Monitor.jitter st)%Q /\
        (Monitor.jitter st
         <= Monitor.max_response_time st - Monitor.min_response_time st)%Q
  end.
Proof.
  unfold get_network_stats.
  destruct (ping_results !! target) as [[|r0 results]|]; [reflexivity| |reflexivity].
  set (all := r0 :: results). cbv zeta.
  assert (Hn : (0 < Z.of_nat (length all))%Z) by (subst all; simpl; lia).
  assert (Hf : (length (List.filter success all) <= length all)%nat)
    by apply filter_length_le.
  assert (Hrates :
            forall s : Z, (0 <= s <= Z.of_nat (length all))%Z ->
              ((inject_Z s / inject_Z (Z.of_nat (length all))
                + inject_Z (Z.of_nat (length all) - s) / inject_Z (Z.of_nat (length all))
                == 1)%Q /\
               (0 <= inject_Z s / inject_Z (Z.of_nat (length all)))%Q)).
  { intros s Hs.
    assert (Hq : (0 < inject_Z (Z.of_nat (length all)))%Q).
    { change 0%Q with (inject_Z 0). rewrite <- Zlt_Qlt. exact Hn. }
    assert (Hs0 : (0 <= inject_Z s)%Q).
    { change 0%Q with (inject_Z 0). rewrite <- Zle_Qle. lia. }
    split.
    - unfold Zminus. rewrite inject_Z_plus, inject_Z_opp. field. lra.
    - apply Qle_shift_div_l; [exact Hq | lra]. }
  destruct (Hrates (Z.of_nat (length (List.filter success all)))) as [Hsum Hpos]; [lia|].
  replace (0 <? Z.of_nat (length all))%Z with true
    by (symmetry; apply Z.ltb_lt; exact Hn).
  destruct (List.filter success all) as [|s0 good] eqn:Hgood.
  - simpl Py.bind. eexists. split; [reflexivity|]. simpl.
    repeat split; try lia; try lra; try exact Hsum; try exact Hpos.
  - set (times := List.map response_time (s0 :: good)).
    assert (Hne : times <> []) by (subst times; discriminate).
    destruct (py_min times) as [mn|e] eqn:Hmn;
      [|subst times; discriminate].
    destruct (py_max times) as [mx|e] eqn:Hmx;
      [|subst times; discriminate].
    pose proof (py_min_le _ _ Hmn) as Hlo.
    pose proof (py_max_ge _ _ Hmx) as Hhi.
    destruct (mean_between times mn mx Hne Hlo Hhi) as [Hm1 Hm2].
    assert (Hmm : (0 <= mx - mn)%Q).
    { pose proof (Qle_trans _ _ _ Hm1 Hm2). lra. }
    assert (Hmean : statistics_mean times
                    = Ok (sumQ times / inject_Z (Z.of_nat (length times)))%Q)
      by (subst times; reflexivity).
    rewrite Hmean.
    destruct (adjacent_differences_bounds times mn mx Hlo Hhi) as [Hd0 Hd1].
    destruct (1 <? length times)%nat eqn:Hlen.
    + apply Nat.ltb_lt in Hlen.
      assert (Hdne : adjacent_differences times <> []).
      { unfold adjacent_differences. intros Hnil.
        apply (f_equal (@length Q)) in Hnil.
        rewrite length_map, length_seq in Hnil.
        change (length (@nil Q)) with 0%nat in Hnil. lia. }
      destruct (mean_between _ 0 (mx - mn) Hdne Hd0 Hd1) as [Hj1 Hj2].
      assert (Hjm : statistics_mean (adjacent_differences times)
                    = Ok (sumQ (adjacent_differences times)
                          / inject_Z (Z.of_nat (length (adjacent_differences times))))%Q).
      { unfold statistics_mean. destruct (adjacent_differences times); [congruence|reflexivity]. }
      rewrite Hjm. eexists. split; [reflexivity|]. cbn [Monitor.host
        Monitor.total_pings Monitor.successful_pings Monitor.failed_pings
        Monitor.success_rate Monitor.packet_loss Monitor.avg_response_time
        Monitor.min_response_time Monitor.max_response_time Monitor.jitter].
      repeat split; try lia; try exact Hsum; try exact Hpos; assumption.
    + eexists. split; [reflexivity|]. cbn [Monitor.host
        Monitor.total_pings Monitor.successful_pings Monitor.failed_pings
        Monitor.success_rate Monitor.packet_loss Monitor.avg_response_time
        Monitor.min_response_time Monitor.max_response_time Monitor.jitter].
      repeat split; try lia; try exact Hsum; try exact Hpos; try assumption;
        apply Qle_refl.
Qed.
End HostStatistics.

(** ** The latency observer *)

Section LatencyObserver.
Import Engine Observer.






Lemma cleared_operation_gone (observations : list observation) (name : string) :
  List.filter (fun obs => String.eqb (operation obs) name)
              (List.filter (fun obs => negb (String.eqb (operation obs) name))
                           observations) = [].
Proof.
  induction observations as [|o os IH]; [reflexivity|].
  simpl. destruct (String.eqb (operation o) name) eqn:E; simpl;
    [exact IH | rewrite E; exact IH].
Qed.

Lemma cleared_operation_others (observations : list observation)
      (name other : string) :
  other <> name ->
  List.filter (fun obs => String.eqb (operation obs) other)
              (List.filter (fun obs => negb (String.eqb (operation obs) name))
                           observations)
  = List.filter (fun obs => String.eqb (operation obs) other) observations.
Proof.
  intros Hne. induction observations as [|o os IH]; [reflexivity|].
  simpl. destruct (String.eqb_spec (operation o) name) as [E|E]; simpl.
  - rewrite IH. destruct (String.eqb_spec (operation o) other) as [E'|E'];
      [congruence | reflexivity].
  - now rewrite IH.
Qed.

(** X19. Clearing the observations of one operation leaves none of it,
    so its statistics fall back to the all-zero record, and leaves the
    observations, hence the statistics, of every other operation as they
    were. *)
Theorem clear_observations_of_operation
        (observations : list observation) (c : ascii) (s : string)
        (c' : ascii) (s' : string) (time_window : option Q) (now : Q) :
  String c' s' <> String c s ->
  get_latency_stats (clear_observations observations (Some (String c s)))
                    (Some (String c s)) time_window now = Ok no_latency /\
  get_latency_stats (clear_observations observations (Some (String c s)))
                    (Some (String c' s')) time_window now
  = get_latency_stats observations (Some (String c' s')) time_window now.
Proof.
  intros Hne. split.
  - unfold get_latency_stats, select, clear_observations.
    rewrite cleared_operation_gone.
    destruct time_window as [w|]; [destruct (Qeq_bool w 0)|]; reflexivity.
  - unfold get_latency_stats, select, clear_observations.
    now rewrite cleared_operation_others.
Qed.
End LatencyObserver.

(** ** The session summary and the report *)

Section SessionSummary.
Import Store Summary.

Lemma select_stages_nonempty db sid :
  stage_rows db sid <> [] -> select_stages db sid <> [].
Proof.
  intros Hne Hnil. apply (f_equal (@length stage_row)) in Hnil.
  unfold select_stages in Hnil. rewrite sort_by_length in Hnil.
  destruct (stage_rows db sid); [congruence | discriminate].
Qed.

(** The summary of a session that has stage rows. *)
Lemma generate_summary_stats_ok db sid :
  stage_rows db sid <> [] ->
  exists s,
    generate_summary_stats db sid = Ok s /\
    session_info s = head (session_rows db sid) /\
    performance_metrics s = load_stats db sid /\
    error_distribution_of s = error_distribution db sid /\
    let total := sumZ (map lt_total_requests (stage_rows db sid)) in
    let successful := sumZ (map lt_successful_requests (stage_rows db sid)) in
    total_requests (performance_metrics s) = Some total /\
    successful_requests (performance_metrics s) = Some successful /\
    success_rate s
    = (if (0 <? total)%Z then inject_Z successful / inject_Z total else 0)%Q.
Proof.
  intros Hne. unfold generate_summary_stats, load_stats. cbv zeta.
  destruct (stage_rows db sid) as [|r rows] eqn:Hrows; [congruence|].
  cbn [map sql_sum total_requests successful_requests py_positive Py.bind].
  destruct (0 <? sumZ (lt_total_requests r :: map lt_total_requests rows))%Z eqn:Hpos.
  - unfold py_truediv.
    replace (sumZ (lt_total_requests r :: map lt_total_requests rows) =? 0)%Z
      with false by (symmetry; apply Z.eqb_neq; apply Z.ltb_lt in Hpos; lia).
    cbn [Py.bind]. eexists. repeat split.
  - cbn [Py.bind]. eexists. repeat split.
Qed.

(** X20. [generate_summary_stats] returns a summary only for a session
    that has stage rows; then the totals are the sums over those rows
    and the success rate is their quotient (0 when no request was made).
    For a session without stage rows, an unknown session id included,
    the aggregates are NULL and the comparison [None > 0] raises
    [TypeError]. *)
Theorem summary_needs_stage_rows (db : TestDatabase) (session_id : string) :
  match stage_rows db session_id with
  | [] =>
      generate_summary_stats db session_id
      = Raise (TypeError
                 "'>' not supported between instances of 'NoneType' and 'int'")
  | rows =>
      exists s,
        generate_summary_stats db session_id = Ok s /\
        session_info s = head (session_rows db session_id) /\
        total_requests (performance_metrics s)
        = Some (sumZ (map lt_total_requests rows)) /\
        successful_requests (performance_metrics s)
        = Some (sumZ (map lt_successful_requests rows)) /\
        success_rate s
        = (if (0 <? sumZ (map lt_total_requests rows))%Z
           then inject_Z (sumZ (map lt_successful_requests rows))
                / inject_Z (sumZ (map lt_total_requests rows))
           else 0)%Q
  end.
Proof.
  destruct (stage_rows db session_id) as [|r rows] eqn:Hrows.
  - unfold generate_summary_stats, load_stats. rewrite Hrows. reflexivity.
  - destruct (generate_summary_stats_ok db session_id) as (s & Hs & Hi & _ & _ & H);
      [rewrite Hrows; discriminate|].
    rewrite Hrows in H. cbv zeta in H. destruct H as (Ht & Hsu & Hr).
    exists s. repeat split; assumption.
Qed.

(** X21. [generate_comprehensive_report] never reaches its generators: for
    a session without stage rows the summary raises [TypeError], and for
    a session with stage rows reading the stages back raises
    [TypeError]. *)
Theorem report_never_rendered
        {reports : Type}
        (render : summary * list Engine.LoadTestResult * Analyzer.analysis
                  -> result reports)
        (db : TestDatabase) (session_id : string) :
  exists message,
    Report.generate_comprehensive_report render db session_id
    = Raise (TypeError message).
Proof.
  unfold Report.generate_comprehensive_report, Report.report_inputs.
  destruct (stage_rows db session_id) as [|r rows] eqn:Hrows.
  - unfold generate_summary_stats, load_stats. rewrite Hrows. simpl. eauto.
  - assert (Hne : stage_rows db session_id <> []) by (rewrite Hrows; discriminate).
    destruct (generate_summary_stats_ok db session_id Hne) as (s & Hs & _).
    rewrite Hs, (get_load_test_results_raises db session_id
                   (select_stages_nonempty db session_id Hne)).
    simpl. eauto.
Qed.
End SessionSummary.

(** ** The concurrency analysis *)

Section ConcurrencyAnalysis.
Import Store Analyzer.

Lemma fold_idxmax (key : frame_row -> Q) (l : list frame_row) (x : frame_row) :
  let m := fold_left (fun m y => if Qltb (key m) (key y) then y else m) l x in
  In m (x :: l) /\ (key x <= key m)%Q /\ Forall (fun y => (key y <= key m)%Q) l.
Proof.
  cbv zeta. revert x. induction l as [|y l IH]; intros x; simpl.
  - split; [now left|]. split; [apply Qle_refl | constructor].
  - destruct (Qltb (key x) (key y)) eqn:E.
    + apply Qltb_lt in E. destruct (IH y) as (H1 & H2 & H3).
      split; [right; exact H1|]. split; [lra|]. constructor; assumption.
    + apply Qltb_ge in E. destruct (IH x) as (H1 & H2 & H3).
      split; [destruct H1 as [H1|H1]; [now left | right; now right]|].
      split; [exact H2|]. constructor; [lra | exact H3].
Qed.

Lemma fold_idxmin (key : frame_row -> Q) (l : list frame_row) (x : frame_row) :
  let m := fold_left (fun m y => if Qltb (key y) (key m) then y else m) l x in
  In m (x :: l) /\ (key m <= key x)%Q /\ Forall (fun y => (key m <= key y)%Q) l.
Proof.
  cbv zeta. revert x. induction l as [|y l IH]; intros x; simpl.
  - split; [now left|]. split; [apply Qle_refl | constructor].
  - destruct (Qltb (key y) (key x)) eqn:E.
    + apply Qltb_lt in E. destruct (IH y) as (H1 & H2 & H3).
      split; [right; exact H1|]. split; [lra|]. constructor; assumption.
    + apply Qltb_ge in E. destruct (IH x) as (H1 & H2 & H3).
      split; [destruct H1 as [H1|H1]; [now left | right; now right]|].
      split; [exact H2|]. constructor; [lra | exact H3].
Qed.

Lemma idxmax_greatest (key : frame_row -> Q) (df : list frame_row) :
  df <> [] ->
  exists m, idxmax key df = Some m /\ In m df /\
            Forall (fun y => (key y <= key m)%Q) df.
Proof.
  destruct df as [|x l]; [congruence|]. intros _. simpl.
  destruct (fold_idxmax key l x) as (H1 & H2 & H3). cbv zeta in *.
  eexists. split; [reflexivity|]. split; [exact H1|]. constructor; assumption.
Qed.

Lemma idxmin_least (key : frame_row -> Q) (df : list frame_row) :
  df <> [] ->
  exists m, idxmin key df = Some m /\ In m df /\
            Forall (fun y => (key m <= key y)%Q) df.
Proof.
  destruct df as [|x l]; [congruence|]. intros _. simpl.
  destruct (fold_idxmin key l x) as (H1 & H2 & H3). cbv zeta in *.
  eexists. split; [reflexivity|]. split; [exact H1|]. constructor; assumption.
Qed.

Lemma insert_by_level_sorted (r : stage_row) (l : list stage_row) :
  StronglySorted (fun a b => (lt_concurrent_level a <= lt_concurrent_level b)%Z) l ->
  StronglySorted (fun a b => (lt_concurrent_level a <= lt_concurrent_level b)%Z)
                 (insert_by (fun a b => (lt_concurrent_level a <=? lt_concurrent_level b)%Z)
                            r l).
Proof.
  induction 1 as [|y l Hs IH Hall]; simpl.
  - constructor; constructor.
  - destruct (lt_concurrent_level r <=? lt_concurrent_level y)%Z eqn:E.
    + apply Z.leb_le in E. constructor; [constructor; assumption|].
      constructor; [exact E|]. eapply Forall_impl; [exact Hall|].
      intros z Hz. simpl in *. lia.
    + apply Z.leb_gt in E. constructor; [exact IH|].
      rewrite insert_by_perm. constructor; [lia | exact Hall].
Qed.

Lemma select_stages_sorted db sid :
  StronglySorted (fun a b => (lt_concurrent_level a <= lt_concurrent_level b)%Z)
                 (select_stages db sid).
Proof.
  unfold select_stages. induction (stage_rows db sid) as [|r l IH]; simpl.
  - constructor.
  - now apply insert_by_level_sorted.
Qed.

(** X22. [analyze_concurrency_impact] reports no data exactly when the
    session has no stage rows.  Otherwise the frame has one row per
    stage row, in ascending order of concurrency level, and the three
    rows reported are rows of the frame: the optimal one has the
    greatest efficiency score, the maximum-throughput one the greatest
    rate, the minimum-latency one the least mean latency. *)
Theorem concurrency_analysis_extremes (db : TestDatabase) (session_id : string) :
  match stage_rows db session_id with
  | [] => analyze_concurrency_impact db session_id = NoData "no data found"
  | rows =>
      exists optimal fastest quickest decline,
        analyze_concurrency_impact db session_id
        = Performance (Some optimal) (Some fastest) (Some quickest)
                      (read_frame db session_id) decline /\
        let df := read_frame db session_id in
        length df = length rows /\
        StronglySorted (fun a b => (concurrent_level a <= concurrent_level b)%Z) df /\
        In optimal df /\ In fastest df /\ In quickest df /\
        Forall (fun y => (efficiency_score y <= efficiency_score optimal)%Q) df /\
        Forall (fun y => (requests_per_second y <= requests_per_second fastest)%Q) df /\
        Forall (fun y => (avg_response_time quickest <= avg_response_time y)%Q) df
  end.
Proof.
  destruct (stage_rows db session_id) as [|r rows] eqn:Hrows.
  - unfold analyze_concurrency_impact, read_frame, select_stages.
    rewrite Hrows. reflexivity.
  - assert (Hlen : length (read_frame db session_id) = length (r :: rows)).
    { unfold read_frame, select_stages. now rewrite length_map, sort_by_length, Hrows. }
    assert (Hne : read_frame db session_id <> []).
    { intros Hnil. rewrite Hnil in Hlen. discriminate. }
    destruct (idxmax_greatest efficiency_score _ Hne) as (o & Ho & Hoin & Hoall).
    destruct (idxmax_greatest requests_per_second _ Hne) as (f & Hf & Hfin & Hfall).
    destruct (idxmin_least avg_response_time _ Hne) as (q & Hq & Hqin & Hqall).
    unfold analyze_concurrency_impact. cbv zeta.
    rewrite Ho, Hf, Hq.
    destruct (read_frame db session_id) as [|x df] eqn:Hdf; [congruence|].
    exists o, f, q. eexists. split; [reflexivity|].
    split; [exact Hlen|]. split.
    { rewrite <- Hdf. unfold read_frame.
      pose proof (select_stages_sorted db session_id) as Hs.
      induction Hs as [|a l Hs IH Hall]; simpl; constructor; [exact IH|].
      apply Forall_forall. intros y Hy. apply list_elem_of_In, in_map_iff in Hy.
      destruct Hy as (z & <- & Hz). simpl.
      rewrite Forall_forall in Hall. apply Hall, list_elem_of_In. exact Hz. }
    repeat split; assumption.
Qed.
End ConcurrencyAnalysis.

(** ** The constraints of the schema *)

Section SchemaConstraints.
Import Store Schema.

Lemma primary_key_append (ids : list Z) (sequence : Z) :
  primary_key ids sequence -> primary_key (ids ++ [(sequence + 1)%Z]) (sequence + 1).
Proof.
  intros [Hnd Hle]. split.
  - apply NoDup_app. split; [exact Hnd|]. split; [|apply NoDup_singleton].
    intros id Hid Hin. apply list_elem_of_singleton in Hin. subst id.
    rewrite Forall_forall in Hle. specialize (Hle _ Hid). lia.
  - apply Forall_app. split.
    + eapply Forall_impl; [exact Hle|]. intros id Hid. simpl in *. lia.
    + constructor; [lia | constructor].
Qed.

Lemma NoDup_map_filter {A B} (f : A -> B) (p : A -> bool) (l : list A) :
  NoDup (map f l) -> NoDup (map f (List.filter p l)).
Proof.
  induction l as [|x l IH]; simpl; [auto|]. intros Hnd.
  apply NoDup_cons in Hnd. destruct Hnd as [Hx Hnd].
  destruct (p x); simpl; [|auto].
  apply NoDup_cons. split; [|auto].
  intros Hin. apply Hx. apply list_elem_of_In, in_map_iff in Hin.
  destruct Hin as (y & Hy & Hin). apply filter_In in Hin.
  apply list_elem_of_In, in_map_iff. exists y. tauto.
Qed.

Lemma Forall_map_filter {A B} (P : B -> Prop) (f : A -> B) (p : A -> bool)
      (l : list A) :
  Forall P (map f l) -> Forall P (map f (List.filter p l)).
Proof.
  induction l as [|x l IH]; simpl; [auto|]. intros H.
  inversion H; subst. destruct (p x); simpl; [constructor|]; auto.
Qed.

Lemma primary_key_filter {A} (id : A -> Z) (p : A -> bool) (l : list A)
      (sequence : Z) :
  primary_key (map id l) sequence -> primary_key (map id (List.filter p l)) sequence.
Proof.
  intros [Hnd Hle]. split; [now apply NoDup_map_filter | now apply Forall_map_filter].
Qed.

Lemma insert_stage_constraints sid r db :
  with_header sid db -> with_header sid (insert_stage db (stage_row_of sid r)).
Proof.
  intros [(K1 & K2 & K3 & K4 & U & F1 & F2 & F3) Hin].
  split; [|exact Hin]. unfold constraints, insert_stage, foreign_key in *. simpl.
  repeat split; try assumption; try apply K1; try apply K3; try apply K4.
  - rewrite map_app. apply (primary_key_append _ _ K2).
  - rewrite map_app. apply (primary_key_append _ _ K2).
  - rewrite map_app. apply Forall_app. split; [exact F1|].
    constructor; [exact Hin | constructor].
Qed.

Lemma insert_request_constraints sid level q db :
  with_header sid db -> with_header sid (insert_request db (request_row_of sid level q)).
Proof.
  intros [(K1 & K2 & K3 & K4 & U & F1 & F2 & F3) Hin].
  split; [|exact Hin]. unfold constraints, insert_request, foreign_key in *. simpl.
  repeat split; try assumption; try apply K1; try apply K2; try apply K4.
  - rewrite map_app. apply (primary_key_append _ _ K3).
  - rewrite map_app. apply (primary_key_append _ _ K3).
  - rewrite map_app. apply Forall_app. split; [exact F2|].
    constructor; [exact Hin | constructor].
Qed.

Lemma insert_network_constraints sid host time stats db :
  with_header sid db ->
  with_header sid (insert_network db (network_row_of sid host time stats)).
Proof.
  intros [(K1 & K2 & K3 & K4 & U & F1 & F2 & F3) Hin].
  split; [|exact Hin]. unfold constraints, insert_network, foreign_key in *. simpl.
  repeat split; try assumption; try apply K1; try apply K2; try apply K3.
  - rewrite map_app. apply (primary_key_append _ _ K4).
  - rewrite map_app. apply (primary_key_append _ _ K4).
  - rewrite map_app. apply Forall_app. split; [exact F3|].
    constructor; [exact Hin | constructor].
Qed.

Lemma write_requests_constraints sid level reqs db :
  with_header sid db -> with_header sid (write_requests sid level reqs db).
Proof.
  revert db. induction reqs as [|q reqs IH]; intros db H; [exact H|].
  apply (IH (insert_request db (request_row_of sid level q))).
  now apply insert_request_constraints.
Qed.

Lemma write_stages_constraints sid lr db :
  with_header sid db -> with_header sid (write_stages sid lr db).
Proof.
  revert db. induction lr as [|r lr IH]; intros db H; [exact H|].
  rewrite write_stages_cons. apply IH.
  now apply write_requests_constraints, insert_stage_constraints.
Qed.

Lemma write_network_constraints sid clock ns db :
  with_header sid db -> with_header sid (write_network sid clock ns db).
Proof.
  unfold write_network. destruct ns as [[|h hs]|]; [auto | | auto].
  generalize (h :: hs) as l. generalize 0%nat as n. intros n l. revert n db.
  induction l as [|[host stats] l IH]; intros n db H; simpl; [exact H|].
  apply IH. now apply insert_network_constraints.
Qed.

Lemma session_row_of_id sid api cfg st en summary md id :
  ts_session_id (session_row_of sid api cfg st en summary md id) = sid /\
  ts_id (session_row_of sid api cfg st en summary md id) = id.
Proof. destruct summary as [[[[? ?] ?] ?] ?]. split; reflexivity. Qed.

Lemma replace_session_constraints sid api cfg st en summary md db :
  constraints db ->
  with_header sid
    (insert_or_replace_session db (session_row_of sid api cfg st en summary md)).
Proof.
  intros (K1 & K2 & K3 & K4 & U & F1 & F2 & F3).
  unfold with_header, constraints, insert_or_replace_session, foreign_key. cbv zeta.
  cbn [test_sessions load_test_results request_results network_stats
       seq_test_sessions seq_load_test_results seq_request_results seq_network_stats].
  destruct (session_row_of_id sid api cfg st en summary md (seq_test_sessions db + 1))
    as [Hsid Hid].
  rewrite Hsid. rewrite !map_app. cbn [map]. rewrite Hsid, Hid.
  assert (Hkeep : forall x, In x (map ts_session_id (test_sessions db)) ->
                            In x (map ts_session_id
                                      (List.filter
                                         (fun r => negb (String.eqb (ts_session_id r) sid))
                                         (test_sessions db)) ++ [sid])).
  { intros x Hx. apply in_or_app. destruct (String.eqb_spec x sid) as [->|Hne];
      [right; now left | left].
    apply in_map_iff in Hx. destruct Hx as (r & <- & Hr).
    apply in_map_iff. exists r. split; [reflexivity|]. apply filter_In.
    split; [exact Hr|]. apply negb_true_iff, String.eqb_neq. exact Hne. }
  repeat split; try apply K2; try apply K3; try apply K4.
  - apply (primary_key_append _ _ (primary_key_filter ts_id _ _ _ K1)).
  - apply (primary_key_append _ _ (primary_key_filter ts_id _ _ _ K1)).
  - apply NoDup_app. split; [now apply NoDup_map_filter|].
    split; [|apply NoDup_singleton].
    intros x Hx Hin. apply list_elem_of_singleton in Hin. subst x.
    apply list_elem_of_In, in_map_iff in Hx. destruct Hx as (r & Hr & Hin).
    apply filter_In in Hin. destruct Hin as [_ Hin].
    apply negb_true_iff, String.eqb_neq in Hin. contradiction.
  - eapply Forall_impl; [exact F1|]. intros x Hx. apply Hkeep, Hx.
  - eapply Forall_impl; [exact F2|]. intros x Hx. apply Hkeep, Hx.
  - eapply Forall_impl; [exact F3|]. intros x Hx. apply Hkeep, Hx.
  - apply in_or_app. right. now left.
Qed.

(** X23. [save_test_session] keeps the constraints the schema declares:
    in every table the ids stay distinct and below the table's sequence,
    the session ids of [test_sessions] stay distinct, and every row of
    the three child tables still names a session that has a header row,
    although SQLite is not asked to enforce the foreign keys. *)
Theorem save_keeps_constraints
        (db : TestDatabase) (session_id api_name test_config : string)
        (start_time end_time : Q) (load_results : list Engine.LoadTestResult)
        (network_stats : option (list (string * Monitor.NetworkStats)))
        (metadata : option Json.value) (clock : nat -> Q) :
  constraints db ->
  constraints (fst (save_test_session db session_id api_name test_config
                                      start_time end_time load_results
                                      network_stats metadata clock)).
Proof.
  intros H. unfold save_test_session.
  destruct (session_summary load_results) as [summary|e]; [|exact H].
  cbv zeta. simpl fst.
  apply (write_network_constraints session_id), write_stages_constraints.
  now apply replace_session_constraints.
Qed.
End SchemaConstraints.

(** ** Sessions do not interfere *)

Section SessionIsolation.
Import Store Schema.

Lemma write_network_rows sid clock ns db :
  exists new,
    network_stats (write_network sid clock ns db) = network_stats db ++ new /\
    Forall (fun r => ns_session_id r = sid) new.
Proof.
  unfold write_network. destruct ns as [[|h hs]|];
    [exists []; now rewrite app_nil_r | | exists []; now rewrite app_nil_r].
  generalize (h :: hs) as l. generalize 0%nat as n. intros n l. revert n db.
  induction l as [|[host stats] l IH]; intros n db; simpl.
  - exists []. now rewrite app_nil_r.
  - destruct (IH (S n) (insert_network db (network_row_of sid host (clock n) stats)))
      as (new & H1 & H2).
    rewrite H1. simpl. eexists. rewrite <- app_assoc. split; [reflexivity|].
    constructor; [reflexivity | exact H2].
Qed.

Lemma filter_other_appended {A} (key : A -> string) (sid other : string)
      (old new : list A) :
  other <> sid -> Forall (fun r => key r = sid) new ->
  List.filter (fun r => String.eqb (key r) other) (old ++ new)
  = List.filter (fun r => String.eqb (key r) other) old.
Proof.
  intros Hne Hnew. rewrite List.filter_app.
  replace (List.filter _ new) with (@nil A); [now rewrite app_nil_r|].
  symmetry. induction Hnew as [|r new Hr _ IH]; simpl; [reflexivity|].
  rewrite Hr. destruct (String.eqb_spec sid other); [congruence | exact IH].
Qed.

Lemma filter_other_replaced (sid other : string) (row : session_row)
      (old : list session_row) :
  other <> sid -> ts_session_id row = sid ->
  List.filter (fun r => String.eqb (ts_session_id r) other)
              (List.filter (fun r => negb (String.eqb (ts_session_id r) sid)) old
               ++ [row])
  = List.filter (fun r => String.eqb (ts_session_id r) other) old.
Proof.
  intros Hne Hrow. rewrite (filter_other_appended ts_session_id sid other);
    [|exact Hne | constructor; [exact Hrow | constructor]].
  induction old as [|r old IH]; simpl; [reflexivity|].
  destruct (String.eqb_spec (ts_session_id r) sid) as [E|E]; simpl.
  - rewrite IH. destruct (String.eqb_spec (ts_session_id r) other); [congruence|reflexivity].
  - now rewrite IH.
Qed.

(** The rows of another session after a save. *)
Lemma save_other_rows db sid api cfg st en lr ns md clock other :
  other <> sid ->
  let db' := fst (save_test_session db sid api cfg st en lr ns md clock) in
  session_rows db' other = session_rows db other /\
  stage_rows db' other = stage_rows db other /\
  request_rows db' other = request_rows db other /\
  network_rows db' other = network_rows db other /\
  (forall level, select_requests db' other level = select_requests db other level) /\
  Summary.failed_messages db' other = Summary.failed_messages db other.
Proof.
  intros Hne. cbv zeta. unfold save_test_session.
  destruct (session_summary lr) as [summary|e]; [|simpl; repeat split].
  cbv zeta. simpl fst.
  set (mk := session_row_of sid api cfg st en summary md).
  set (db0 := insert_or_replace_session db mk).
  destruct (write_network_tables sid clock ns (write_stages sid lr db0))
    as (N1 & N2 & N3).
  destruct (write_network_rows sid clock ns (write_stages sid lr db0))
    as (newn & N4 & N5).
  destruct (write_stages_tables sid lr db0)
    as (S1 & S0 & (news & S2 & S3 & S4) & (newr & S5 & S6 & S7)).
  unfold session_rows, stage_rows, request_rows, network_rows, select_requests,
    Summary.failed_messages.
  rewrite N1, N2, N3, N4, S0, S1, S2, S5. subst db0. unfold insert_or_replace_session.
  cbv zeta.
  cbn [test_sessions load_test_results request_results network_stats].
  assert (Hmk : ts_session_id (mk (seq_test_sessions db + 1)%Z) = sid).
  { subst mk. destruct summary as [[[[? ?] ?] ?] ?]. reflexivity. }
  rewrite Hmk.
  split; [now apply filter_other_replaced|].
  split; [now apply (filter_other_appended lt_session_id sid)|].
  split; [now apply (filter_other_appended rr_session_id sid)|].
  split; [now apply (filter_other_appended ns_session_id sid)|].
  split.
  - intros level. rewrite List.filter_app.
    replace (List.filter _ newr) with (@nil request_row); [now rewrite app_nil_r|].
    symmetry. clear S5 S6. induction S7 as [|r newr Hr _ IH]; simpl; [reflexivity|].
    rewrite Hr. destruct (String.eqb_spec sid other); [congruence | exact IH].
  - rewrite omap_app.
    replace (omap _ newr) with (@nil string); [now rewrite app_nil_r|].
    symmetry. clear S5 S6. induction S7 as [|r newr Hr _ IH]; simpl; [reflexivity|].
    rewrite Hr. destruct (String.eqb_spec sid other); [congruence | exact IH].
Qed.

Lemma fold_left_pointwise {A B} (f g : A -> B -> A) (l : list B) (a : A) :
  (forall x y, f x y = g x y) -> fold_left f l a = fold_left g l a.
Proof.
  intros H. revert a. induction l as [|y l IH]; intros a; simpl; [reflexivity|].
  now rewrite H, IH.
Qed.

(** X24. Saving a session changes nothing of any other session: its rows
    in the four tables stay as they were, and so every per-session
    query answers for it as before. *)
Theorem save_leaves_other_sessions
        (db : TestDatabase) (session_id api_name test_config : string)
        (start_time end_time : Q) (load_results : list Engine.LoadTestResult)
        (network_stats : option (list (string * Monitor.NetworkStats)))
        (metadata : option Json.value) (clock : nat -> Q) (other : string) :
  other <> session_id ->
  let db' :=
    fst (save_test_session db session_id api_name test_config start_time end_time
                           load_results network_stats metadata clock) in
  session_rows db' other = session_rows db other /\
  stage_rows db' other = stage_rows db other /\
  request_rows db' other = request_rows db other /\
  network_rows db' other = network_rows db other /\
  get_load_test_results db' other = get_load_test_results db other /\
  Analyzer.analyze_concurrency_impact db' other
  = Analyzer.analyze_concurrency_impact db other /\
  Summary.generate_summary_stats db' other = Summary.generate_summary_stats db other.
Proof.
  intros Hne.
  destruct (save_other_rows db session_id api_name test_config start_time end_time
              load_results network_stats metadata clock other Hne)
    as (H1 & H2 & H3 & H4 & H5 & H6).
  cbv zeta in *.
  set (db' := fst (save_test_session db session_id api_name test_config start_time
                                     end_time load_results network_stats metadata
                                     clock)) in *.
  split; [exact H1|]. split; [exact H2|]. split; [exact H3|]. split; [exact H4|].
  split; [|split].
  - unfold get_load_test_results, select_stages. rewrite H2.
    apply fold_left_pointwise. intros acc row. now rewrite H5.
  - unfold Analyzer.analyze_concurrency_impact, Analyzer.read_frame, select_stages.
    now rewrite H2.
  - unfold Summary.generate_summary_stats, Summary.load_stats,
      Summary.error_distribution.
    now rewrite H1, H2, H6.
Qed.

Lemma insert_by_newest_first (r : session_row) (l : list session_row) :
  StronglySorted (fun a b => (ts_start_time b <= ts_start_time a)%Q) l ->
  StronglySorted (fun a b => (ts_start_time b <= ts_start_time a)%Q)
                 (insert_by (fun a b => Qle_bool (ts_start_time b) (ts_start_time a))
                            r l).
Proof.
  induction 1 as [|y l Hs IH Hall]; simpl.
  - constructor; constructor.
  - destruct (Qle_bool (ts_start_time y) (ts_start_time r)) eqn:E.
    + apply Qle_bool_iff in E. constructor; [constructor; assumption|].
      constructor; [exact E|]. eapply Forall_impl; [exact Hall|].
      intros z Hz. simpl in *. lra.
    + assert (E' : (ts_start_time r <= ts_start_time y)%Q).
      { destruct (Qlt_le_dec (ts_start_time r) (ts_start_time y)) as [Hlt|Hge];
          [lra|]. apply Qle_bool_iff in Hge. congruence. }
      constructor; [exact IH|].
      rewrite insert_by_perm. constructor; [exact E' | exact Hall].
Qed.

Lemma sorted_app_cross {A} (R : A -> A -> Prop) (l k : list A) :
  StronglySorted R (l ++ k) ->
  StronglySorted R l /\ Forall (fun x => Forall (R x) k) l.
Proof.
  induction l as [|x l IH]; simpl; intros Hs.
  - split; constructor.
  - inversion Hs as [|? ? Hs' Hall]; subst. destruct (IH Hs') as [IH1 IH2].
    apply Forall_app in Hall. destruct Hall as [Hl Hk].
    split; [constructor; assumption | constructor; assumption].
Qed.

(** X25. [get_test_sessions] returns rows of [test_sessions] with the
    latest start time first, and the rows it leaves out are all rows of
    the table that start no later than any row returned.  For a negative
    limit no row is left out; otherwise min(limit, number of sessions)
    rows are returned. *)
Theorem get_test_sessions_newest_first (db : TestDatabase) (limit : Z) :
  let rows := get_test_sessions db limit in
  StronglySorted (fun a b => (ts_start_time b <= ts_start_time a)%Q) rows /\
  exists omitted,
    Permutation (rows ++ omitted) (test_sessions db) /\
    Forall (fun r =>
              Forall (fun o => (ts_start_time o <= ts_start_time r)%Q) omitted)
           rows /\
    (if (limit <? 0)%Z then omitted = []
     else length rows = Nat.min (Z.to_nat limit) (length (test_sessions db))).
Proof.
  cbv zeta. unfold get_test_sessions. cbv zeta.
  set (le := fun a b => Qle_bool (ts_start_time b) (ts_start_time a)).
  assert (Hs : StronglySorted (fun a b => (ts_start_time b <= ts_start_time a)%Q)
                              (sort_by le (test_sessions db))).
  { induction (test_sessions db) as [|r l IH]; simpl; [constructor|].
    now apply insert_by_newest_first. }
  assert (Hperm : Permutation (sort_by le (test_sessions db)) (test_sessions db))
    by apply sort_by_perm.
  destruct (limit <? 0)%Z.
  - split; [exact Hs|]. exists []. rewrite app_nil_r.
    split; [exact Hperm|]. split; [|reflexivity].
    apply Forall_forall. intros r _. constructor.
  - rewrite <- (take_drop (Z.to_nat limit) (sort_by le (test_sessions db))) in Hs.
    destruct (sorted_app_cross _ _ _ Hs) as [Hs1 Hcross].
    split; [exact Hs1|].
    exists (drop (Z.to_nat limit) (sort_by le (test_sessions db))).
    rewrite take_drop. split; [exact Hperm|]. split; [exact Hcross|].
    rewrite length_take, sort_by_length. reflexivity.
Qed.
End SessionIsolation.

(** ** Further properties at concrete inputs *)

Section FurtherScenarios.

Lemma prompt_lines_are_objects :
  Forall (fun line =>
            exists members,
              Json.json_loads (PromptFile.strip line) = Ok (Json.JObj members))
         Cases.prompt_lines.
Proof. repeat constructor; eexists; vm_compute; reflexivity. Defined.

(** Two questions are loaded from the three lines. *)
Lemma load_prompts_three_lines :
  PromptFile._load_prompts Cases.prompt_lines
  = Ok [Json.JStr "What is a monad?"; Json.JStr "Why is the sky blue?"].
Proof.
  pose proof (load_prompts_objects Cases.prompt_lines prompt_lines_are_objects) as H.
  rewrite H. vm_compute. reflexivity.
Defined.

(** A blank line in the middle of the file. *)
Lemma load_prompts_blank_middle :
  PromptFile.strip "   " = EmptyString /\
  PromptFile._load_prompts (Cases.prompt_lines ++ "   " :: Cases.prompt_lines)
  = Raise JSONDecodeError.
Proof.
  split; [reflexivity|].
  apply (load_prompts_blank_line Cases.prompt_lines Cases.prompt_lines "   ");
    [exact prompt_lines_are_objects | reflexivity].
Defined.

Lemma fixed_template_unchanged :
  Profile.mentions_prompt Cases.fixed_template = false /\
  Profile.format_request_body Cases.fixed_template "hello" = Cases.fixed_template.
Proof.
  split; [reflexivity|].
  apply (format_request_body_without_placeholder Cases.fixed_template "hello").
  reflexivity.
Defined.

(** A prompt that contains the placeholder is inserted as it is, at
    both occurrences of the template. *)
Lemma placeholder_in_prompt_kept :
  Profile.brace_free "Q: " = true /\
  Profile.format_request_body (Json.JStr "Q: {prompt} / {prompt}") "a {prompt} b"
  = Json.JStr "Q: a {prompt} b / a {prompt} b".
Proof.
  split; [reflexivity|].
  exact (placeholder_replaced_verbatim "Q: " " / {prompt}" "a {prompt} b" eq_refl).
Defined.

Lemma batching_is_transparent_five :
  (1 <= 2)%Z /\
  length (LoadEngine.send_batch_requests Examples.every_third_raises
                                         (fun n => inject_Z (Z.of_nat n)) 5)
  = 5%nat /\
  Engine.run_concurrent_requests Examples.every_third_raises
                                 (fun n => inject_Z (Z.of_nat n)) 2 5
  = Ok (LoadEngine.send_batch_requests Examples.every_third_raises
                                       (fun n => inject_Z (Z.of_nat n)) 5).
Proof.
  assert (H : (1 <= 2)%Z) by lia. split; [exact H|].
  exact (batching_is_transparent Examples.every_third_raises
                                 (fun n => inject_Z (Z.of_nat n)) 2 5 H).
Defined.


Lemma run_load_test_level_zero :
  exists msg,
    snd (LoadEngine.run_load_test Cases.stage_outcomes Cases.stage_clock
                                  ([1] ++ 0 :: [2])%Z 3 1 2
                                  (Examples.world (Responded 200 "{}") 1))
    = Raise (ValueError msg).
Proof.
  apply (run_load_test_bad_level Cases.stage_outcomes Cases.stage_clock
                                 [1%Z] [2%Z] 0 3 1 2).
  - repeat constructor; lia.
  - lia.
Defined.

Lemma send_single_request_answered :
  exists w' r,
    send_single_request Examples.profile "chat"
                        (Examples.world (Responded 200 "{}") 1) = (w', Ok r) /\
    prompt r = "a" /\
    Config.current_index (prompt_manager w') = 1%nat /\
    success r = true.
Proof.
  assert (H : (Config.current_index
                 (prompt_manager (Examples.world (Responded 200 "{}") 1))
               < length (Config.prompts
                           (prompt_manager (Examples.world (Responded 200 "{}") 1))))%nat)
    by (simpl; lia).
  destruct (send_single_request_outcome Examples.profile "chat"
              (Examples.world (Responded 200 "{}") 1) H)
    as (w' & r & Hrun & Hprompt & _ & _ & Hcursor & _ & Hsuccess & _).
  exists w', r. split; [exact Hrun|].
  vm_compute in Hrun. injection Hrun as <- <-.
  repeat split.
Defined.

(** The first POST is refused after 1 s, the retry waits 1 s and is
    answered after 2 s: the outcome reports 2 s, the caller waited 4. *)
Lemma retried_request_latency_flaky :
  exists w' r,
    send_single_request Examples.profile "chat" Cases.flaky_world = (w', Ok r) /\
    trace w' = [Post 0; Sleep 1; Post 1] /\
    status_code r = 200%Z /\
    (response_time r == 2)%Q /\
    (now w' - timestamp r == 4)%Q.
Proof.
  destruct (retried_request_latency
              Examples.profile "chat" Cases.flaky_world
              "a" {| Config.prompts := ["a"; "b"; "c"]; Config.current_index := 1 |}
              "https://api.example/v1/chat" [("Content-Type", "application/json")]
              (Json.JObj [("prompt", Json.JStr "a")])
              (ClientError "Connection reset") 1 2 200 "{}")
    as (w' & r & Hrun & Htrace & Hwait & Hfields);
    try reflexivity.
  change (_extract_token_info "{}") with (Ok (Json.JInt 0, Json.JInt 0, Json.JInt 0))
    in Hfields.
  destruct Hfields as (Hstatus & _ & Hlat).
  exists w', r. split; [exact Hrun|]. split; [exact Htrace|].
  split; [exact Hstatus|]. split; [exact Hlat|]. rewrite Hwait. reflexivity.
Defined.

Lemma prompt_full_cycle_from_second :
  Config.next_prompts 3 Cases.second_prompt = Ok (["b"; "c"; "a"], Cases.second_prompt).
Proof.
  assert (H : (Config.current_index Cases.second_prompt
               < length (Config.prompts Cases.second_prompt))%nat) by (simpl; lia).
  exact (proj1 (prompt_full_cycle Cases.second_prompt H)).
Defined.

Lemma clear_chat_observations :
  Observer.get_latency_stats
    (Observer.clear_observations Cases.observations (Some "chat"))
    (Some "chat") None 10 = Ok Observer.no_latency /\
  Observer.get_latency_stats
    (Observer.clear_observations Cases.observations (Some "chat"))
    (Some "embed") None 10
  = Observer.get_latency_stats Cases.observations (Some "embed") None 10.
Proof.
  apply (clear_observations_of_operation Cases.observations "c" "hat" "e" "mbed").
  discriminate.
Defined.

Lemma empty_database_constraints : Schema.constraints Store.empty_database.
Proof. repeat split; constructor. Defined.

Lemma saved_sweep_keeps_constraints : Schema.constraints Examples.db_sweep3.
Proof.
  exact (save_keeps_constraints Store.empty_database "s1" "openai" "default" 0 300
                                Examples.sweep3 None None (fun _ => 300%Q)
                                empty_database_constraints).
Defined.

(** Saving session s2 after session s1. *)
Lemma second_session_leaves_first :
  let db' := fst (Cases.save_second Examples.db_sweep3 Examples.sweep2) in
  Store.session_rows db' "s1" = Store.session_rows Examples.db_sweep3 "s1" /\
  Store.stage_rows db' "s1" = Store.stage_rows Examples.db_sweep3 "s1" /\
  length (Store.stage_rows db' "s2") = 2%nat.
Proof.
  assert (H : "s1" <> "s2") by discriminate.
  destruct (save_leaves_other_sessions Examples.db_sweep3 "s2" "claude" "default"
              400 700 Examples.sweep2 None None (fun _ => 700%Q) "s1" H)
    as (H1 & H2 & _).
  cbv zeta. split; [exact H1|]. split; [exact H2|]. reflexivity.
Defined.
End FurtherScenarios.
